(** * modules/metadata.py: generation-parameter metadata codecs

    A shallow embedding of [modules/metadata.py]: the hash cache, the parser
    state shared by both codecs, the A1111 text codec, the Fooocus structured
    codec and scheme detection, followed by the properties proved of them.

    Conventions of the embedding.
    - A Python [str] is a [string]; character classes are given for the ASCII
      range, a code point of 128 or more counts as neither space, word
      character nor digit.
    - A Python [dict] is an association list in insertion order ([dict]).
    - A function that can raise returns a [result]; a function that mutates
      an object passed by reference runs on an explicit object store.
    - Collaborators that live outside [modules/metadata.py] ([modules.config],
      [modules.util], [modules.flags], and the builtins [eval] and
      [json.dumps]) are the fields of an environment record [Env]. *)

From stdpp Require Import gmap strings list sorting.
From Stdlib Require Import Ascii ZArith.

Local Open Scope Z_scope.
Local Open Scope nat_scope.
Local Open Scope stdpp_scope.

(** ** Python string primitives *)

Module Py.

Definition chr (n : nat) : ascii := ascii_of_nat n.
Definition ord (c : ascii) : nat := nat_of_ascii c.

Definition char_eqb (a b : ascii) : bool := Ascii.eqb a b.

(** [str.isspace] of one character, which is also [\s] of [re]. *)
Definition is_space (c : ascii) : bool :=
  let n := ord c in
  ((9 <=? n) && (n <=? 13)) || ((28 <=? n) && (n <=? 32)).

(** [\d] of [re]. *)
Definition is_digit (c : ascii) : bool :=
  let n := ord c in (48 <=? n) && (n <=? 57).

(** [\w] of [re]. *)
Definition is_word (c : ascii) : bool :=
  let n := ord c in
  is_digit c || ((65 <=? n) && (n <=? 90)) || ((97 <=? n) && (n <=? 122))
  || (n =? 95).

Definition nl : ascii := chr 10.
Definition dquote : ascii := chr 34.
Definition squote : ascii := chr 39.
Definition backslash : ascii := chr 92.

Definition s1 (c : ascii) : string := String c "".

(** [s[n:]] *)
Fixpoint drop (n : nat) (s : string) : string :=
  match n, s with
  | 0, _ => s
  | S n', String _ s' => drop n' s'
  | S _, EmptyString => ""
  end.

(** [s[:n]] *)
Fixpoint take (n : nat) (s : string) : string :=
  match n, s with
  | 0, _ => ""
  | S n', String c s' => String c (take n' s')
  | S _, EmptyString => ""
  end.

(** [s.startswith(p)] *)
Fixpoint startswith (p s : string) : bool :=
  match p, s with
  | EmptyString, _ => true
  | String a p', String b s' => char_eqb a b && startswith p' s'
  | String _ _, EmptyString => false
  end.

(** [c in s] for a single character. *)
Fixpoint contains (c : ascii) (s : string) : bool :=
  match s with
  | EmptyString => false
  | String a s' => char_eqb c a || contains c s'
  end.

(** every character of [s] satisfies [p] *)
Fixpoint all (p : ascii → bool) (s : string) : bool :=
  match s with
  | EmptyString => true
  | String a s' => p a && all p s'
  end.

Fixpoint lstrip (s : string) : string :=
  match s with
  | String c s' => if is_space c then lstrip s' else s
  | EmptyString => ""
  end.

Fixpoint rstrip (s : string) : string :=
  match s with
  | String c s' =>
      match rstrip s' with
      | EmptyString => if is_space c then "" else s1 c
      | r => String c r
      end
  | EmptyString => ""
  end.

(** [s.strip()] *)
Definition strip (s : string) : string := lstrip (rstrip s).

(** [s[-1]] when [s] is not empty *)
Fixpoint last_char (s : string) : option ascii :=
  match s with
  | EmptyString => None
  | String c EmptyString => Some c
  | String _ s' => last_char s'
  end.

(** [s.split(sep)] for a separator of one character or more:
    [go skip cur s] has [skip] characters of a separator still to pass and
    [cur] the piece read so far. *)
Fixpoint split_go (sep : string) (skip : nat) (cur : string) (s : string)
  : list string :=
  match s with
  | EmptyString => [cur]
  | String c s' =>
      match skip with
      | S n => split_go sep n cur s'
      | 0 =>
          if startswith sep s
          then cur :: split_go sep (String.length sep - 1) "" s'
          else split_go sep 0 (cur +:+ s1 c) s'
      end
  end.

Definition split (sep : string) (s : string) : list string :=
  split_go sep 0 "" s.

(** [sep.join(l)] *)
Definition join (sep : string) (l : list string) : string :=
  String.concat sep l.

(** [str(z)] of an [int] *)
Definition digit_char (n : nat) : ascii := chr (48 + n).

Fixpoint str_pos_go (fuel : nat) (n : N) (acc : string) : string :=
  match fuel with
  | 0 => acc
  | S f =>
      let acc' := String (digit_char (N.to_nat (n mod 10))) acc in
      if (n <? 10)%N then acc' else str_pos_go f (n / 10)%N acc'
  end.

Definition str_int (z : Z) : string :=
  let n := Z.to_N (Z.abs z) in
  let body := str_pos_go (S (N.to_nat (N.log2 n))) n "" in
  if (z <? 0)%Z then String (chr 45) body else body.

(** [Path(p).name] of a POSIX path: the last component that is neither
    empty nor a single dot. *)
Definition path_name (p : string) : string :=
  List.last
    (List.filter (λ c, negb (String.eqb c "" || String.eqb c "."))
                 (split "/" p))
    "".

(** index of the last dot of [s], counted from the left *)
Fixpoint rfind_dot (s : string) : option nat :=
  match s with
  | EmptyString => None
  | String c s' =>
      match rfind_dot s' with
      | Some i => Some (S i)
      | None => if char_eqb c (chr 46) then Some 0 else None
      end
  end.

(** [Path(p).stem]: the name without its last suffix; a leading or a
    trailing dot does not start a suffix. *)
Definition stem (p : string) : string :=
  let name := path_name p in
  match rfind_dot name with
  | Some i =>
      if (0 <? i) && (i <? String.length name - 1) then take i name
      else name
  | None => name
  end.

End Py.

(** ** Backtracking regular expressions, as Python's [re] runs them

    Alternatives are tried left to right and repetitions are greedy; the
    first way of matching that succeeds is the match. The matcher is in
    continuation-passing style: the continuation is what remains of the
    pattern, and a failing continuation makes the matcher try its next
    choice. *)

Module Re.

Inductive regex : Type :=
| Eps
| Cls (p : ascii → bool)        (** one character of a class *)
| Cat (r1 r2 : regex)
| Alt (r1 r2 : regex)           (** [r1|r2], [r1] first *)
| Star (r : regex)              (** [r*], greedy *)
| Grp (r : regex)               (** a capturing group *)
| Bol                           (** [^] *)
| Eol.                          (** [$] *)

Definition Plus (r : regex) : regex := Cat r (Star r).
Definition Chr (c : ascii) : regex := Cls (Py.char_eqb c).

(** [$] matches at the end and before a newline that ends the string. *)
Definition at_eol (s : string) : bool :=
  match s with
  | EmptyString => true
  | String c EmptyString => Py.char_eqb c Py.nl
  | _ => false
  end.

(** What remains to be matched: a continuation takes the offset, the text
    from there on and the groups closed so far. *)
Definition cont (A : Type) : Type := nat → string → list string → option A.

(** [r*] for a body matched by [step]: one more round of the body if it can
    be matched and the rest then succeeds, otherwise the rest at once. A
    round that consumes nothing is not repeated. *)
Fixpoint star_loop {A : Type}
    (step : nat → string → list string → cont A → option A)
    (k : cont A) (fuel : nat) (pos : nat) (s : string) (g : list string)
    {struct fuel} : option A :=
  match fuel with
  | 0 => k pos s g
  | S fuel' =>
      match step pos s g
              (λ pos' s' g',
                 if pos <? pos' then star_loop step k fuel' pos' s' g'
                 else None)
      with
      | Some x => Some x
      | None => k pos s g
      end
  end.

(** [run r pos s g k]: match [r] at offset [pos], where [s] is the text
    from [pos] on and [g] the groups closed so far, then go on with [k]. *)
Fixpoint run {A : Type} (r : regex) (pos : nat) (s : string)
    (g : list string) (k : cont A) {struct r} : option A :=
  match r with
  | Eps => k pos s g
  | Cls p =>
      match s with
      | String c s' => if p c then k (S pos) s' g else None
      | EmptyString => None
      end
  | Cat r1 r2 => run r1 pos s g (λ pos' s' g', run r2 pos' s' g' k)
  | Alt r1 r2 =>
      match run r1 pos s g k with
      | Some x => Some x
      | None => run r2 pos s g k
      end
  | Star r1 => star_loop (run r1) k (String.length s) pos s g
  | Grp r1 =>
      run r1 pos s g (λ pos' s' g', k pos' s' (g' ++ [Py.take (pos' - pos) s]))
  | Bol => if pos =? 0 then k pos s g else None
  | Eol => if at_eol s then k pos s g else None
  end.

(** A match: the groups, and the text left after the match. *)
Definition match_here (r : regex) (pos : nat) (s : string)
  : option (list string * string) :=
  run r pos s [] (λ _ s' g, Some (g, s')).

(** [pattern.match(s)] *)
Definition match_ (r : regex) (s : string) : option (list string) :=
  fst <$> match_here r 0 s.

(** The leftmost match at or after [pos]. *)
Fixpoint search (r : regex) (pos : nat) (s : string)
  : option (list string * string) :=
  match match_here r pos s with
  | Some m => Some m
  | None =>
      match s with
      | String _ s' => search r (S pos) s'
      | EmptyString => None
      end
  end.

(** [pattern.findall(s)] for a pattern that matches no empty string: the
    groups of the successive matches, each search starting where the
    match before it ended. *)
Fixpoint findall_go (fuel : nat) (r : regex) (pos : nat) (s : string)
  : list (list string) :=
  match fuel with
  | 0 => []
  | S fuel' =>
      match search r pos s with
      | None => []
      | Some (g, s') =>
          g :: (if String.length s' <? String.length s
                then findall_go fuel' r (pos + (String.length s - String.length s')) s'
                else [])
      end
  end.

Definition findall (r : regex) (s : string) : list (list string) :=
  findall_go (S (String.length s)) r 0 s.

End Re.

(** ** The patterns of the module *)

(** [re_param_code]: optional spaces; group 1, a word character followed
    by one or more of word character, space, hyphen and slash; a colon;
    optional spaces; group 2, either a double-quoted text whose body is one
    or more of an escape (a backslash and any character but a newline) and
    a character that is neither backslash nor double quote, or else any
    run of characters other than a comma; then a comma or the end. *)
Definition key_char (c : ascii) : bool :=
  Py.is_word c || Py.char_eqb c " " || Py.char_eqb c "-" || Py.char_eqb c "/".

Definition not_nl (c : ascii) : bool := negb (Py.char_eqb c Py.nl).

Definition not_backslash_dquote (c : ascii) : bool :=
  negb (Py.char_eqb c Py.backslash || Py.char_eqb c Py.dquote).

Definition not_comma (c : ascii) : bool := negb (Py.char_eqb c ",").

(** An escape, or a character that is neither backslash nor double quote *)
Definition re_item : Re.regex :=
  Re.Alt (Re.Cat (Re.Chr Py.backslash) (Re.Cls not_nl))
         (Re.Cls not_backslash_dquote).

Definition re_quoted : Re.regex :=
  Re.Cat (Re.Chr Py.dquote) (Re.Cat (Re.Plus re_item) (Re.Chr Py.dquote)).

Definition re_key : Re.regex :=
  Re.Cat (Re.Cls Py.is_word) (Re.Plus (Re.Cls key_char)).

Definition re_value : Re.regex :=
  Re.Alt re_quoted (Re.Star (Re.Cls not_comma)).

Definition re_param : Re.regex :=
  Re.Cat (Re.Star (Re.Cls Py.is_space))
    (Re.Cat (Re.Grp re_key)
       (Re.Cat (Re.Chr ":")
          (Re.Cat (Re.Star (Re.Cls Py.is_space))
             (Re.Cat (Re.Grp re_value)
                (Re.Alt (Re.Chr ",") Re.Eol))))).

(** [re_imagesize]: [^(\d+)x(\d+)$] *)
Definition re_imagesize : Re.regex :=
  Re.Cat Re.Bol
    (Re.Cat (Re.Grp (Re.Plus (Re.Cls Py.is_digit)))
       (Re.Cat (Re.Chr "x")
          (Re.Cat (Re.Grp (Re.Plus (Re.Cls Py.is_digit))) Re.Eol))).

(** [re_param.findall(s)]: the pairs of the two groups. *)
Definition findall_params (s : string) : list (string * string) :=
  (λ g, match g with
        | [k; v] => (k, v)
        | _ => ("", "")
        end) <$> Re.findall re_param s.

(** [re_imagesize.match(v)]: the two groups of a match. *)
Definition match_imagesize (v : string) : option (string * string) :=
  match Re.match_ re_imagesize v with
  | Some [w; h] => Some (w, h)
  | _ => None
  end.

(** ** Values, exceptions and dictionaries *)

(** The Python values that pass through the module. *)
#[local] Set Warnings "-register-all".
Inductive pyval : Type :=
| PyNone
| PyStr (s : string)
| PyInt (z : Z)
| PyList (l : list pyval)                (** a list or a tuple *)
| PyDict (d : list (string * pyval)).

Inductive exn : Type :=
| KeyError (k : string)
| IndexError
| ValueError
| TypeError
| AttributeError
| NotImplementedError
| EvalError.                              (** whatever [eval] raises *)

Inductive result (A : Type) : Type :=
| Ok (a : A)
| Raise (e : exn).
Arguments Ok {A} a.
Arguments Raise {A} e.

Global Instance result_ret : MRet result := λ A a, Ok a.
Global Instance result_bind : MBind result := λ A B f m,
  match m with
  | Ok a => f a
  | Raise e => Raise e
  end.

(** [try: ... except Exception: pass] around a step that updates [a] *)
Definition try_or {A : Type} (a : A) (m : result A) : A :=
  match m with
  | Ok a' => a'
  | Raise _ => a
  end.

Module Dict.

(** A dictionary with [str] keys in insertion order. *)
Definition dict (V : Type) : Type := list (string * V).

Fixpoint get {V : Type} (k : string) (d : dict V) : option V :=
  match d with
  | [] => None
  | (k', v) :: d' => if String.eqb k k' then Some v else get k d'
  end.

(** [k in d] *)
Definition has {V : Type} (k : string) (d : dict V) : bool :=
  match get k d with
  | Some _ => true
  | None => false
  end.

(** [d[k]] *)
Definition getitem {V : Type} (k : string) (d : dict V) : result V :=
  match get k d with
  | Some v => Ok v
  | None => Raise (KeyError k)
  end.

(** [d[k] = v]: a key that is present keeps its place. *)
Fixpoint set {V : Type} (k : string) (v : V) (d : dict V) : dict V :=
  match d with
  | [] => [(k, v)]
  | (k', v') :: d' =>
      if String.eqb k k' then (k, v) :: d' else (k', v') :: set k v d'
  end.

Fixpoint remove {V : Type} (k : string) (d : dict V) : dict V :=
  match d with
  | [] => []
  | (k', v') :: d' =>
      if String.eqb k k' then d' else (k', v') :: remove k d'
  end.

(** [d.pop(k, default)]: the value and what is left of [d] *)
Definition pop {V : Type} (k : string) (default : V) (d : dict V)
  : V * dict V :=
  (match get k d with Some v => v | None => default end, remove k d).

(** [d |= d'], also [{k: v for k, v in l}] from the empty dictionary *)
Definition update {V : Type} (d : dict V) (l : list (string * V)) : dict V :=
  fold_left (λ acc kv, set kv.1 kv.2 acc) l d.

Fixpoint insert_sorted {V : Type} (kv : string * V) (l : list (string * V))
  : list (string * V) :=
  match l with
  | [] => [kv]
  | kv' :: l' =>
      if String.leb kv.1 kv'.1 then kv :: l else kv' :: insert_sorted kv l'
  end.

(** [dict(sorted(d.items()))]: the keys of a dictionary are distinct, so
    the items are ordered by their keys alone. *)
Definition sorted {V : Type} (d : dict V) : dict V :=
  fold_right insert_sorted [] d.

End Dict.
Import Dict.

(** ** The environment of the module *)

Inductive MetadataScheme : Type := FOOOCUS | A1111.

(** What [modules/metadata.py] imports and calls but does not define. *)
Record Env : Type := {
  (** [modules.config] *)
  path_checkpoints : string;
  path_loras : string;
  model_filenames : list string;
  lora_filenames : list string;
  downloading_sdxl_lcm_lora : string;
  metadata_created_by : string;
  (** [modules.util]; [quote] gives the text its result is formatted to *)
  quote : pyval → string;
  unquote : string → string;
  extract_styles_from_prompt : string → string → list string * string * string;
  is_json : pyval → bool;
  calculate_sha256 : string → string;
  (** [modules.flags]: [MetadataScheme(v)] and
      [Performance[Steps(int(s)).name].value], [None] when they raise *)
  metadata_scheme_of : pyval → option MetadataScheme;
  performance_of_steps : string → option string;
  (** builtins: [width, height = eval(v)] with the texts that [width] and
      [height] are formatted to, [json.loads], [json.dumps] *)
  eval_pair : pyval → result (string * string);
  json_loads : pyval → result pyval;
  json_dumps : dict pyval → string;
  (** [PIL.Image]: the [info] mapping of the image at a path *)
  image_info : string → result (dict pyval)
}.

(** [os.path.join(a, b)] on POSIX paths *)
Definition path_join (a b : string) : string :=
  if Py.startswith "/" b then b
  else if String.eqb a "" || (match Py.last_char a with
                              | Some c => Py.char_eqb c "/"
                              | None => false
                              end)
       then a +:+ b
       else a +:+ "/" +:+ b.

(** ** The hash cache *)

(** The global [hash_cache], with the calls made to [calculate_sha256]
    recorded next to it. *)
Record World : Type := {
  hash_cache : gmap string string;
  sha256_calls : list string
}.

Definition world_init : World :=
  {| hash_cache := ∅; sha256_calls := [] |}.

Definition get_sha256 (E : Env) (filepath : string) (w : World)
  : string * World :=
  let w' :=
    match hash_cache w !! filepath with
    | None =>
        {| hash_cache := <[filepath := calculate_sha256 E filepath]> (hash_cache w);
           sha256_calls := sha256_calls w ++ [filepath] |}
    | Some _ => w
    end in
  (default "" (hash_cache w' !! filepath), w').

(** ** The state of a parser *)

(** A LoRA of the parser state: the stem of its name, its weight (as the
    text it is formatted to) and its hash. *)
Definition lora_entry : Type := string * string * string.

Record ParserState : Type := {
  full_prompt : list string;
  full_negative_prompt : list string;
  steps : Z;
  base_model_name : string;
  base_model_hash : string;
  refiner_model_name : string;
  refiner_model_hash : string;
  loras : list lora_entry
}.

(** [MetadataParser.__init__] *)
Definition parser_init : ParserState :=
  {| full_prompt := []; full_negative_prompt := []; steps := 30;
     base_model_name := ""; base_model_hash := "";
     refiner_model_name := ""; refiner_model_hash := ""; loras := [] |}.

(** [x in ['', 'None']] *)
Definition empty_or_none (s : string) : bool :=
  String.eqb s "" || String.eqb s "None".

Fixpoint set_data_loras (E : Env) (l : list (string * string))
    (acc : list lora_entry) (w : World) : list lora_entry * World :=
  match l with
  | [] => (acc, w)
  | (lora_name, lora_weight) :: l' =>
      if negb (String.eqb lora_name "None") then
        let lora_path := path_join (path_loras E) lora_name in
        let '(lora_hash, w1) := get_sha256 E lora_path w in
        set_data_loras E l' (acc ++ [(Py.stem lora_name, lora_weight, lora_hash)]) w1
      else set_data_loras E l' acc w
  end.

(** [MetadataParser.set_data] *)
Definition set_data (E : Env) (self : ParserState)
    (full_prompt' full_negative_prompt' : list string) (steps' : Z)
    (base_model_name' refiner_model_name' : string)
    (loras' : list (string * string)) (w : World) : ParserState * World :=
  let base_model_path := path_join (path_checkpoints E) base_model_name' in
  let '(base_hash, w1) := get_sha256 E base_model_path w in
  let '(refiner_name, refiner_hash, w2) :=
    if negb (empty_or_none refiner_model_name') then
      let refiner_model_path :=
        path_join (path_checkpoints E) refiner_model_name' in
      let '(h, w2) := get_sha256 E refiner_model_path w1 in
      (Py.stem refiner_model_name', h, w2)
    else (refiner_model_name self, refiner_model_hash self, w1) in
  let '(ls, w3) := set_data_loras E loras' [] w2 in
  ({| full_prompt := full_prompt';
      full_negative_prompt := full_negative_prompt';
      steps := steps';
      base_model_name := Py.stem base_model_name';
      base_model_hash := base_hash;
      refiner_model_name := refiner_name;
      refiner_model_hash := refiner_hash;
      loras := ls |}, w3).

(** ** Python renderings *)

Definition hex_digit (n : nat) : ascii :=
  if n <? 10 then Py.chr (48 + n) else Py.chr (87 + n).

(** One character inside [repr] of a [str] that is quoted with [q]. *)
Definition repr_char (q : ascii) (c : ascii) : string :=
  let n := Py.ord c in
  if Py.char_eqb c Py.backslash then String Py.backslash (Py.s1 Py.backslash)
  else if Py.char_eqb c q then String Py.backslash (Py.s1 q)
  else if n =? 10 then String Py.backslash "n"
  else if n =? 13 then String Py.backslash "r"
  else if n =? 9 then String Py.backslash "t"
  else if (n <? 32) || (n =? 127) then
    String Py.backslash
      (String "x" (String (hex_digit (n / 16)) (Py.s1 (hex_digit (n mod 16)))))
  else Py.s1 c.

Fixpoint repr_body (q : ascii) (s : string) : string :=
  match s with
  | EmptyString => ""
  | String c s' => repr_char q c +:+ repr_body q s'
  end.

(** [repr(s)] of a [str]: single quotes, unless [s] has a single quote and
    no double quote. *)
Definition repr_str (s : string) : string :=
  let q := if Py.contains Py.squote s && negb (Py.contains Py.dquote s)
           then Py.dquote else Py.squote in
  String q (repr_body q s +:+ Py.s1 q).

(** [str(l)] of a list of [str] *)
Definition str_list (l : list string) : string :=
  "[" +:+ Py.join ", " (repr_str <$> l) +:+ "]".

(** [str((a, b))] of a pair of [str] *)
Definition str_pair (a b : string) : string :=
  "(" +:+ repr_str a +:+ ", " +:+ repr_str b +:+ ")".

(** ** The A1111 codec *)

Module A1111Parser.

Definition get_scheme : MetadataScheme := A1111.

Definition fooocus_to_a1111 : dict string :=
  [ ("negative_prompt", "Negative prompt");
    ("styles", "Styles");
    ("performance", "Performance");
    ("steps", "Steps");
    ("sampler", "Sampler");
    ("guidance_scale", "CFG scale");
    ("seed", "Seed");
    ("resolution", "Size");
    ("sharpness", "Sharpness");
    ("adm_guidance", "ADM Guidance");
    ("refiner_swap_method", "Refiner Swap Method");
    ("adaptive_cfg", "Adaptive CFG");
    ("overwrite_switch", "Overwrite Switch");
    ("freeu", "FreeU");
    ("base_model", "Model");
    ("base_model_hash", "Model hash");
    ("refiner_model", "Refiner");
    ("refiner_model_hash", "Refiner hash");
    ("lora_hashes", "Lora hashes");
    ("lora_weights", "Lora weights");
    ("created_by", "User");
    ("version", "Version") ].

(** [self.fooocus_to_a1111[key]] for a key of the table *)
Definition label (key : string) : string :=
  default "" (Dict.get key fooocus_to_a1111).

(** [list(d.keys())[list(d.values()).index(k)]] *)
Fixpoint key_of_label (d : dict string) (k : string) : result string :=
  match d with
  | [] => Raise ValueError
  | (key, l) :: d' => if String.eqb l k then Ok key else key_of_label d' k
  end.

(** The prompt texts and [done_with_prompt] while the lines are read. *)
Definition prompt_acc : Type := string * string * bool.

(** [acc += ('' if acc == '' else newline) + line] *)
Definition add_line (acc line : string) : string :=
  acc +:+ (if String.eqb acc "" then "" else Py.s1 Py.nl) +:+ line.

Definition negative_label : string := label "negative_prompt" +:+ ":".

(** The body of [for line in lines] *)
Definition prompt_step (acc : prompt_acc) (line : string) : prompt_acc :=
  let '(prompt, negative_prompt, done_with_prompt) := acc in
  let line := Py.strip line in
  let '(done_with_prompt, line) :=
    if Py.startswith negative_label line
    then (true, Py.strip (Py.drop (String.length negative_label) line))
    else (done_with_prompt, line) in
  if done_with_prompt
  then (prompt, add_line negative_prompt line, done_with_prompt)
  else (add_line prompt line, negative_prompt, done_with_prompt).

Definition split_prompts (lines : list string) : prompt_acc :=
  fold_left prompt_step lines ("", "", false).

(** [*lines, lastline = metadata.strip().split(newline)] and the rewind of
    a last line with fewer than three parameters *)
Definition split_lines (metadata : string) : list string * string :=
  let parts := Py.split (Py.s1 Py.nl) (Py.strip metadata) in
  let lines := removelast parts in
  let lastline := List.last parts "" in
  if length (findall_params lastline) <? 3
  then (lines ++ [lastline], "")
  else (lines, lastline).

(** [v[0] == Q and v[-1] == Q] for a [v] that is not empty, Q the double
    quote *)
Definition is_quoted (v : string) : bool :=
  match v with
  | String c0 _ =>
      Py.char_eqb c0 Py.dquote
      && (match Py.last_char v with
          | Some c => Py.char_eqb c Py.dquote
          | None => false
          end)
  | EmptyString => false
  end.

(** The body of the [try] of [for k, v in re_param.findall(lastline)];
    [v[0]] raises when [v] is empty. *)
Definition store_param (E : Env) (data : dict string) (k v : string)
  : result (dict string) :=
  if String.eqb v "" then Raise IndexError
  else
    let v := if is_quoted v then unquote E v else v in
    match match_imagesize v with
    | Some (w, h) => Ok (Dict.set "resolution" (str_pair w h) data)
    | None =>
        key ← key_of_label fooocus_to_a1111 k;
        Ok (Dict.set key v data)
    end.

Definition store_params (E : Env) (params : list (string * string))
    (data : dict string) : dict string :=
  fold_left (λ data kv, try_or data (store_param E data kv.1 kv.2))
            params data.

(** The fallback that derives [performance] from [steps] *)
Definition load_performance (E : Env) (data : dict string) : dict string :=
  match Dict.get "steps" data with
  | Some s =>
      if negb (Dict.has "performance" data) then
        match performance_of_steps E s with
        | Some p => Dict.set "performance" p data
        | None => data
        end
      else data
  | None => data
  end.

(** [for filename in filenames: if name == Path(filename).stem: ... break] *)
Fixpoint find_stem (name : string) (filenames : list string)
  : option string :=
  match filenames with
  | [] => None
  | filename :: rest =>
      if String.eqb name (Py.stem filename) then Some filename
      else find_stem name rest
  end.

Definition resolve_base_model (E : Env) (data : dict string) : dict string :=
  match Dict.get "base_model" data with
  | Some name =>
      match find_stem name (model_filenames E) with
      | Some filename => Dict.set "base_model" filename data
      | None => data
      end
  | None => data
  end.

(** [l.remove(x)] on a copy of [l] *)
Fixpoint list_remove (x : string) (l : list string) : result (list string) :=
  match l with
  | [] => Raise ValueError
  | y :: l' =>
      if String.eqb y x then Ok l'
      else l'' ← list_remove x l'; Ok (y :: l'')
  end.

(** The body of [for li, lora in enumerate(...)], [li] counted from 0 *)
Fixpoint resolve_loras (lora_filenames : list string) (li : nat)
    (entries : list string) (data : dict string) : result (dict string) :=
  match entries with
  | [] => Ok data
  | lora :: rest =>
      match Py.split ": " lora with
      | [lora_name; lora_hash; lora_weight] =>
          let data :=
            match find_stem lora_name lora_filenames with
            | Some filename =>
                Dict.set ("lora_combined_" +:+ Py.str_int (Z.of_nat (li + 1)))
                         (filename +:+ " : " +:+ lora_weight) data
            | None => data
            end in
          resolve_loras lora_filenames (S li) rest data
      | _ => Raise ValueError
      end
  end.

Definition resolve_lora_hashes (E : Env) (data : dict string)
  : result (dict string) :=
  match Dict.get "lora_hashes" data with
  | Some hashes =>
      lora_filenames ← list_remove (downloading_sdxl_lcm_lora E) (lora_filenames E);
      resolve_loras lora_filenames 0 (Py.split ", " hashes) data
  | None => Ok data
  end.

(** [A1111MetadataParser.parse_json] *)
Definition parse_json (E : Env) (metadata : string) : result (dict string) :=
  let '(lines, lastline) := split_lines metadata in
  let '(prompt, negative_prompt, _) := split_prompts lines in
  let '(found_styles, prompt, negative_prompt) :=
    extract_styles_from_prompt E prompt negative_prompt in
  let data := [ ("prompt", prompt);
                ("negative_prompt", negative_prompt);
                ("styles", str_list found_styles) ] in
  let data := store_params E (findall_params lastline) data in
  let data := load_performance E data in
  let data := resolve_base_model E data in
  resolve_lora_hashes E data.

End A1111Parser.

(** An entry of the sequence given to a serializer: label, key, value. *)
Definition entry : Type := string * string * pyval.

(** [{k: v for _, k, v in metadata}] *)
Definition dict_of_entries (metadata : list entry) : dict pyval :=
  Dict.update [] ((λ e : entry, (e.1.2, e.2)) <$> metadata).

(** [Path(v).stem] *)
Definition stem_of (v : pyval) : result string :=
  match v with
  | PyStr s => Ok (Py.stem s)
  | _ => Raise TypeError
  end.

Module A1111Serializer.
Import A1111Parser.

(** The entries of [generation_params] that are always there, in the
    order of the dictionary display. *)
Definition base_params (self : ParserState)
    (performance sampler seed guidance_scale sharpness adm_guidance : pyval)
    (width height model_stem : string) : dict pyval :=
  Dict.update []
    [ (label "performance", performance);
      (label "steps", PyInt (steps self));
      (label "sampler", sampler);
      (label "seed", seed);
      (label "resolution", PyStr (width +:+ "x" +:+ height));
      (label "guidance_scale", guidance_scale);
      (label "sharpness", sharpness);
      (label "adm_guidance", adm_guidance);
      (label "base_model", PyStr model_stem);
      (label "base_model_hash", PyStr (base_model_hash self)) ].

Definition add_refiner (self : ParserState) (params : dict pyval)
  : dict pyval :=
  if negb (empty_or_none (refiner_model_name self)) then
    Dict.update params
      [ (label "refiner_model", PyStr (refiner_model_name self));
        (label "refiner_model_hash", PyStr (refiner_model_hash self)) ]
  else params.

Definition optional_keys : list string :=
  ["adaptive_cfg"; "overwrite_switch"; "refiner_swap_method"; "freeu"].

Definition add_optional (data : dict pyval) (params : dict pyval)
  : dict pyval :=
  fold_left (λ params key,
               match Dict.get key data with
               | Some v => Dict.set (label key) v params
               | None => params
               end) optional_keys params.

Definition lora_hashes_string (self : ParserState) : string :=
  Py.join ", "
    ((λ l : lora_entry, let '(lora_name, lora_weight, lora_hash) := l in
                        lora_name +:+ ": " +:+ lora_hash +:+ ": " +:+ lora_weight)
       <$> loras self).

Definition add_created_by (E : Env) (params : dict pyval) : dict pyval :=
  if negb (String.eqb (metadata_created_by E) "")
  then Dict.set (label "created_by") (PyStr (metadata_created_by E)) params
  else params.

(** [k if k == v else f'{k}: {quote(v)}'], for a [v] that is not [None] *)
Definition render_param (E : Env) (k : string) (v : pyval) : string :=
  match v with
  | PyStr s => if String.eqb k s then k else k +:+ ": " +:+ quote E v
  | _ => k +:+ ": " +:+ quote E v
  end.

Definition is_none (v : pyval) : bool :=
  match v with
  | PyNone => true
  | _ => false
  end.

Definition generation_params_text (E : Env) (params : dict pyval) : string :=
  Py.join ", "
    ((λ kv, render_param E kv.1 kv.2)
       <$> List.filter (λ kv, negb (is_none kv.2)) (Dict.sorted params)).

(** The text that is returned, before it is stripped. *)
Definition assemble (self : ParserState) (generation_params_text : string)
  : string :=
  let positive_prompt_resolved := Py.join ", " (full_prompt self) in
  let negative_prompt_resolved := Py.join ", " (full_negative_prompt self) in
  let negative_prompt_text :=
    if String.eqb negative_prompt_resolved "" then ""
    else String Py.nl "Negative prompt: " +:+ negative_prompt_resolved in
  positive_prompt_resolved +:+ negative_prompt_text
    +:+ Py.s1 Py.nl +:+ generation_params_text.

(** The dictionary [generation_params] as it is when it is rendered. *)
Definition generation_params (E : Env) (self : ParserState)
    (metadata : list entry) : result (dict pyval) :=
  let data := dict_of_entries metadata in
  resolution ← Dict.getitem "resolution" data;
  '(width, height) ← eval_pair E resolution;
  performance ← Dict.getitem "performance" data;
  sampler ← Dict.getitem "sampler" data;
  seed ← Dict.getitem "seed" data;
  guidance_scale ← Dict.getitem "guidance_scale" data;
  sharpness ← Dict.getitem "sharpness" data;
  adm_guidance ← Dict.getitem "adm_guidance" data;
  base_model ← Dict.getitem "base_model" data;
  model_stem ← stem_of base_model;
  let params :=
    base_params self performance sampler seed guidance_scale sharpness
                adm_guidance width height model_stem in
  let params := add_refiner self params in
  let params := add_optional data params in
  version ← Dict.getitem "version" data;
  let params :=
    Dict.update params
      [ (label "lora_hashes", PyStr (lora_hashes_string self));
        (label "version", version) ] in
  Ok (add_created_by E params).

(** [A1111MetadataParser.parse_string] *)
Definition parse_string (E : Env) (self : ParserState)
    (metadata : list entry) : result string :=
  params ← generation_params E self metadata;
  Ok (Py.strip (assemble self (generation_params_text E params))).

End A1111Serializer.

(** ** The object store

    Dictionaries and lists are passed by reference: a parser that is given
    one works on the object itself. *)

Abbreviation loc := positive (only parsing).

Inductive object : Type :=
| ODict (d : dict pyval)
| OList (l : list entry).

Abbreviation store := (gmap positive object) (only parsing).

(** A computation on the store that may raise; what it did to the store
    before it raised stays done. *)
Definition M (A : Type) : Type := store → result A * store.

Global Instance M_ret : MRet M := λ A a h, (Ok a, h).
Global Instance M_bind : MBind M := λ A B f m h,
  match m h with
  | (Ok a, h') => f a h'
  | (Raise e, h') => (Raise e, h')
  end.

Definition raise {A : Type} (e : exn) : M A := λ h, (Raise e, h).
Definition lift {A : Type} (r : result A) : M A := λ h, (r, h).

(** [metadata.items()] of the object at [ref] *)
Definition read_dict (ref : loc) : M (dict pyval) := λ h,
  match h !! ref with
  | Some (ODict d) => (Ok d, h)
  | _ => (Raise AttributeError, h)
  end.

Definition read_list (ref : loc) : M (list entry) := λ h,
  match h !! ref with
  | Some (OList l) => (Ok l, h)
  | _ => (Raise TypeError, h)
  end.

(** [metadata[key] = value] on the dictionary at [ref] *)
Definition setitem_dict (ref : loc) (key : string) (value : pyval) : M unit :=
  λ h,
  match h !! ref with
  | Some (ODict d) => (Ok (), <[ref := ODict (Dict.set key value d)]> h)
  | _ => (Raise TypeError, h)
  end.

(** [metadata[li] = e] on the list at [ref] *)
Definition setitem_list (ref : loc) (li : nat) (e : entry) : M unit := λ h,
  match h !! ref with
  | Some (OList l) =>
      if li <? length l then (Ok (), <[ref := OList (<[li := e]> l)]> h)
      else (Raise IndexError, h)
  | _ => (Raise TypeError, h)
  end.

(** ** The Fooocus codec *)

Module FooocusParser.

Definition get_scheme : MetadataScheme := FOOOCUS.

(** [value in ['', 'None']] *)
Definition value_empty_or_none (value : pyval) : bool :=
  match value with
  | PyStr s => empty_or_none s
  | _ => false
  end.

Definition is_lora_key (key : string) : bool :=
  Py.startswith "lora_combined_" key.

(** [FooocusMetadataParser.replace_value_with_filename]: a loop that ends
    without a [return] gives [None]. *)
Fixpoint replace_value_with_filename (key : string) (value : pyval)
    (filenames : list string) : result pyval :=
  match filenames with
  | [] => Ok PyNone
  | filename :: rest =>
      if is_lora_key key then
        match value with
        | PyStr s =>
            match Py.split " : " s with
            | [name; weight] =>
                if String.eqb name (Py.stem filename)
                then Ok (PyStr (filename +:+ " : " +:+ weight))
                else replace_value_with_filename key value rest
            | _ => Raise ValueError
            end
        | _ => Raise AttributeError
        end
      else
        match value with
        | PyStr s =>
            if String.eqb s (Py.stem filename) then Ok (PyStr filename)
            else replace_value_with_filename key value rest
        | _ => replace_value_with_filename key value rest
        end
  end.

(** The body of [for key, value in metadata.items()], over the items that
    are still to come. *)
Fixpoint parse_items (model_filenames lora_filenames : list string)
    (ref : loc) (items : list (string * pyval)) : M unit :=
  match items with
  | [] => mret ()
  | (key, value) :: rest =>
      if value_empty_or_none value then
        parse_items model_filenames lora_filenames ref rest
      else if String.eqb key "base_model" || String.eqb key "refiner_model"
      then
        v ← lift (replace_value_with_filename key value model_filenames);
        _ ← setitem_dict ref key v;
        parse_items model_filenames lora_filenames ref rest
      else if is_lora_key key then
        v ← lift (replace_value_with_filename key value lora_filenames);
        _ ← setitem_dict ref key v;
        parse_items model_filenames lora_filenames ref rest
      else parse_items model_filenames lora_filenames ref rest
  end.

(** [FooocusMetadataParser.parse_json]: [metadata] is the reference it is
    given, and the reference it returns. *)
Definition parse_json (E : Env) (metadata : loc) : M loc :=
  let model_filenames := model_filenames E in
  lora_filenames ← lift (A1111Parser.list_remove (downloading_sdxl_lcm_lora E)
                                                (lora_filenames E));
  items ← read_dict metadata;
  _ ← parse_items model_filenames lora_filenames metadata items;
  mret metadata.

End FooocusParser.

Module FooocusSerializer.
Import FooocusParser.

(** The body of [for li, (label, key, value) in enumerate(metadata)] *)
Fixpoint strip_folders (ref : loc) (li : nat) (items : list entry) : M unit :=
  match items with
  | [] => mret ()
  | (label, key, value) :: rest =>
      if is_lora_key key then
        match value with
        | PyStr s =>
            match Py.split " : " s with
            | [name; weight] =>
                let value := PyStr (Py.stem name +:+ " : " +:+ weight) in
                _ ← setitem_list ref li (label, key, value);
                strip_folders ref (S li) rest
            | _ => raise ValueError
            end
        | _ => raise AttributeError
        end
      else strip_folders ref (S li) rest
  end.

Definition lora_value (l : lora_entry) : pyval :=
  let '(name, weight, hash) := l in
  PyList [PyStr name; PyStr weight; PyStr hash].

(** The dictionary [res] as it is when it is dumped. *)
Definition result_dict (E : Env) (self : ParserState) (metadata : list entry)
  : dict pyval :=
  let res := dict_of_entries metadata in
  let res :=
    Dict.update res
      [ ("full_prompt", PyList (PyStr <$> full_prompt self));
        ("full_negative_prompt", PyList (PyStr <$> full_negative_prompt self));
        ("steps", PyInt (steps self));
        ("base_model", PyStr (base_model_name self));
        ("base_model_hash", PyStr (base_model_hash self)) ] in
  let res :=
    if negb (empty_or_none (refiner_model_name self)) then
      Dict.update res
        [ ("refiner_model", PyStr (refiner_model_name self));
          ("refiner_model_hash", PyStr (refiner_model_hash self)) ]
    else res in
  let res := Dict.set "loras" (PyList (lora_value <$> loras self)) res in
  if negb (String.eqb (metadata_created_by E) "")
  then Dict.set "created_by" (PyStr (metadata_created_by E)) res
  else res.

(** [FooocusMetadataParser.parse_string] *)
Definition parse_string (E : Env) (self : ParserState) (metadata : loc)
  : M string :=
  items ← read_list metadata;
  _ ← strip_folders metadata 0 items;
  items ← read_list metadata;
  mret (json_dumps E (Dict.sorted (result_dict E self items))).

End FooocusSerializer.

(** The A1111 codec on the store: its parser is given a [str], its
    serializer reads the list it is given. *)
Definition a1111_parse_json (E : Env) (metadata : string) : M (dict string) :=
  lift (A1111Parser.parse_json E metadata).

Definition a1111_parse_string (E : Env) (self : ParserState) (metadata : loc)
  : M string :=
  items ← read_list metadata;
  lift (A1111Serializer.parse_string E self items).

(** ** Dispatch and scheme detection *)

Inductive parser : Type := FooocusMetadataParser | A1111MetadataParser.

(** [get_metadata_parser]; [None] stands for a value that is no scheme. *)
Definition get_metadata_parser (metadata_scheme : option MetadataScheme)
  : result parser :=
  match metadata_scheme with
  | Some FOOOCUS => Ok FooocusMetadataParser
  | Some A1111 => Ok A1111MetadataParser
  | None => Raise NotImplementedError
  end.

Definition is_dict (v : pyval) : bool :=
  match v with
  | PyDict _ => true
  | _ => false
  end.

Definition is_str (v : pyval) : bool :=
  match v with
  | PyStr _ => true
  | _ => false
  end.

(** [read_info_from_image] from the [info] mapping of the image on *)
Definition read_info (E : Env) (info : dict pyval)
  : result (pyval * dict pyval * option MetadataScheme) :=
  let items := info in
  let '(parameters, items) := Dict.pop "parameters" PyNone items in
  parameters ←
    (if negb (A1111Serializer.is_none parameters) && is_json E parameters
     then json_loads E parameters
     else Ok parameters);
  let '(tag, items) := Dict.pop "fooocus_scheme" PyNone items in
  let metadata_scheme := metadata_scheme_of E tag in
  let metadata_scheme :=
    match metadata_scheme with
    | None => if is_dict parameters then Some FOOOCUS else metadata_scheme
    | Some _ => metadata_scheme
    end in
  let metadata_scheme :=
    match metadata_scheme with
    | None => if is_str parameters then Some A1111 else metadata_scheme
    | Some _ => metadata_scheme
    end in
  Ok (parameters, items, metadata_scheme).

Definition read_info_from_image (E : Env) (filepath : string)
  : result (pyval * dict pyval * option MetadataScheme) :=
  info ← image_info E filepath;
  read_info E info.

(** ** An environment to run the code on

    Its [quote] and [unquote] write and read a JSON string, its [eval_pair]
    reads a pair of integer or quoted literals, and its tables are small. *)

Module Demo.

(** [str(v)] for the values that have a text here *)
Definition str_of (v : pyval) : string :=
  match v with
  | PyNone => "None"
  | PyStr s => s
  | PyInt z => Py.str_int z
  | _ => ""
  end.

Definition json_char (c : ascii) : string :=
  let n := Py.ord c in
  if Py.char_eqb c Py.backslash then String Py.backslash (Py.s1 Py.backslash)
  else if Py.char_eqb c Py.dquote then String Py.backslash (Py.s1 Py.dquote)
  else if n =? 10 then String Py.backslash "n"
  else if n =? 13 then String Py.backslash "r"
  else if n =? 9 then String Py.backslash "t"
  else if n =? 8 then String Py.backslash "b"
  else if n =? 12 then String Py.backslash "f"
  else if n <? 32 then
    String Py.backslash
      (String "u" (String "0" (String "0"
         (String (hex_digit (n / 16)) (Py.s1 (hex_digit (n mod 16)))))))
  else Py.s1 c.

Fixpoint json_body (s : string) : string :=
  match s with
  | EmptyString => ""
  | String c s' => json_char c +:+ json_body s'
  end.

Definition json_string (s : string) : string :=
  String Py.dquote (json_body s +:+ Py.s1 Py.dquote).

Definition has_special (s : string) : bool :=
  Py.contains "," s || Py.contains Py.nl s || Py.contains ":" s.

Definition json_quote (v : pyval) : string :=
  let s := str_of v in
  if has_special s
  then match v with
       | PyStr _ => json_string s
       | _ => s
       end
  else s.

(** The body of a JSON string up to its closing quote; [None] when it is
    not well formed or uses an escape that is not read here. *)
Fixpoint unjson_body (s : string) : option string :=
  match s with
  | EmptyString => None
  | String c s' =>
      if Py.char_eqb c Py.dquote then
        match s' with
        | EmptyString => Some ""
        | _ => None
        end
      else if Py.char_eqb c Py.backslash then
        match s' with
        | String e s'' =>
            let put (x : ascii) := String x <$> unjson_body s'' in
            if Py.char_eqb e Py.dquote then put Py.dquote
            else if Py.char_eqb e Py.backslash then put Py.backslash
            else if Py.char_eqb e "/" then put "/"%char
            else if Py.char_eqb e "n" then put Py.nl
            else if Py.char_eqb e "r" then put (Py.chr 13)
            else if Py.char_eqb e "t" then put (Py.chr 9)
            else if Py.char_eqb e "b" then put (Py.chr 8)
            else if Py.char_eqb e "f" then put (Py.chr 12)
            else None
        | EmptyString => None
        end
      else if Py.ord c <? 32 then None
      else String c <$> unjson_body s'
  end.

Definition json_unquote (text : string) : string :=
  match text with
  | String c rest =>
      if Py.char_eqb c Py.dquote then default text (unjson_body rest)
      else text
  | EmptyString => text
  end.

(** A literal of [eval_literal_pair]: digits, or a text between single quotes
    that has no quote and no backslash. *)
Definition literal (s : string) : option string :=
  match s with
  | String c rest =>
      if Py.char_eqb c Py.squote then
        match Py.last_char rest with
        | Some c' =>
            let body := Py.take (String.length rest - 1) rest in
            if Py.char_eqb c' Py.squote
               && negb (Py.contains Py.squote body)
               && negb (Py.contains Py.backslash body)
            then Some body else None
        | None => None
        end
      else if Py.all Py.is_digit s
              && (negb (Py.char_eqb c "0") || String.eqb rest "")
           then Some s else None
  | EmptyString => None
  end.

Definition eval_literal_pair (v : pyval) : result (string * string) :=
  match v with
  | PyStr s =>
      match s with
      | String c rest =>
          if Py.char_eqb c "(" then
            match Py.last_char rest with
            | Some c' =>
                if Py.char_eqb c' ")" then
                  match Py.split ", " (Py.take (String.length rest - 1) rest) with
                  | [a; b] =>
                      match literal a, literal b with
                      | Some x, Some y => Ok (x, y)
                      | _, _ => Raise EvalError
                      end
                  | _ => Raise EvalError
                  end
                else Raise EvalError
            | None => Raise EvalError
            end
          else Raise EvalError
      | EmptyString => Raise EvalError
      end
  | _ => Raise TypeError
  end.

Definition tier_of_steps (s : string) : option string :=
  if String.eqb s "60" then Some "Quality"
  else if String.eqb s "30" then Some "Speed"
  else if String.eqb s "8" then Some "Extreme Speed"
  else None.

Definition scheme_of_tag (v : pyval) : option MetadataScheme :=
  match v with
  | PyStr s =>
      if String.eqb s "fooocus" then Some FOOOCUS
      else if String.eqb s "a1111" then Some A1111
      else None
  | _ => None
  end.

Definition env : Env :=
  {| path_checkpoints := "/models/checkpoints";
     path_loras := "/models/loras";
     model_filenames := ["juggernaut.safetensors"; "sd_xl_base.safetensors"];
     lora_filenames := ["sdxl_lcm_lora.safetensors"; "styleA.safetensors";
                        "styleB.safetensors"];
     downloading_sdxl_lcm_lora := "sdxl_lcm_lora.safetensors";
     metadata_created_by := "";
     quote := json_quote;
     unquote := json_unquote;
     extract_styles_from_prompt := λ p n, ([], p, n);
     is_json := λ _, false;
     calculate_sha256 := λ p, "sha256 of " +:+ p;
     metadata_scheme_of := scheme_of_tag;
     performance_of_steps := tier_of_steps;
     eval_pair := eval_literal_pair;
     json_loads := λ v, Ok v;
     json_dumps := λ _, "";
     image_info := λ _, Ok [] |}.

End Demo.

(** ** Runs of the hash cache *)

(** The worlds that calls of [get_sha256] lead to from the empty cache. *)
Inductive reachable (E : Env) : World → Prop :=
| reachable_init : reachable E world_init
| reachable_call (w : World) (filepath : string) :
    reachable E w → reachable E (get_sha256 E filepath w).2.

(** How often [calculate_sha256] has been called on [filepath]. *)
Definition invocations (filepath : string) (w : World) : nat :=
  length (filter (λ p, p = filepath) (sha256_calls w)).

(** What holds of every reachable world: a path was hashed exactly when it
    is cached, no path was hashed twice, and a cached value is the hash. *)
Definition cache_inv (E : Env) (w : World) : Prop :=
  NoDup (sha256_calls w)
  ∧ (∀ p, p ∈ sha256_calls w ↔ is_Some (hash_cache w !! p))
  ∧ (∀ p h, hash_cache w !! p = Some h → h = calculate_sha256 E p).


(** ** Inputs to run the Fooocus codec on *)

(** A store whose only object, at reference 1, is a dictionary. *)
Definition store_of_dict (d : dict pyval) : store := {[ 1%positive := ODict d ]}.

(** A store whose only object, at reference 1, is a list of entries. *)
Definition store_of_list (l : list entry) : store := {[ 1%positive := OList l ]}.

(** The entries that the loop of [FooocusParser.parse_json] assigns to. *)
Definition fooocus_rewrites (key : string) (value : pyval) : bool :=
  negb (FooocusParser.value_empty_or_none value)
  && (String.eqb key "base_model" || String.eqb key "refiner_model"
      || FooocusParser.is_lora_key key).

(** ** Inputs to run the A1111 serializer on *)

(** The keys that [A1111Serializer.generation_params] subscripts [data]
    with, in the order in which it does. *)
Definition required_keys : list string :=
  [ "resolution"; "performance"; "sampler"; "seed"; "guidance_scale";
    "sharpness"; "adm_guidance"; "base_model"; "version" ].

(** Entries with every required key. *)
Definition sample_entries : list entry :=
  [ ("Performance", "performance", PyStr "Speed");
    ("Resolution", "resolution", PyStr "(1024, 768)");
    ("Guidance Scale", "guidance_scale", PyStr "4.0");
    ("Sharpness", "sharpness", PyStr "2.0");
    ("ADM Guidance", "adm_guidance", PyStr "(1.5, 0.8, 0.3)");
    ("Base Model", "base_model", PyStr "juggernaut.safetensors");
    ("Sampler", "sampler", PyStr "dpmpp_2m_sde_gpu");
    ("Seed", "seed", PyInt 12345);
    ("Version", "version", PyStr "Fooocus v2.1.865") ].

(** A parser state as [set_data] leaves it. *)
Definition sample_state : ParserState :=
  {| full_prompt := ["a cat"; "best quality"];
     full_negative_prompt := ["dog"];
     steps := 30;
     base_model_name := "juggernaut";
     base_model_hash := "d91d35736d";
     refiner_model_name := "";
     refiner_model_hash := "";
     loras := [("styleA", "0.8", "abcd1234"); ("styleB", "0.5", "ef567890")] |}.

(** The entries without those of a key. *)
Definition without_key (key : string) (l : list entry) : list entry :=
  List.filter (λ e : entry, negb (String.eqb e.1.2 key)) l.

(** Entries whose resolution is written with an x, and that have no
    version. *)
Definition entries_bad_resolution : list entry :=
  ("Resolution", "resolution", PyStr "1024x768")
    :: without_key "version" (without_key "resolution" sample_entries).

(** The order of [sorted] on the items of a dictionary: by their keys. *)
Definition label_le {V : Type} (a b : string * V) : Prop := String.le a.1 b.1.

(** Entries none of whose values needs quoting. *)
Definition plain_entries : list entry :=
  ("ADM Guidance", "adm_guidance", PyStr "1.5")
    :: without_key "adm_guidance" sample_entries.

(** The text that the A1111 serializer gives for the sample state and the
    sample entries. *)
Definition sample_text : string :=
  Eval vm_compute in
    match A1111Serializer.parse_string Demo.env sample_state sample_entries with
    | Ok text => text
    | Raise _ => ""
    end.

(** ** Inputs to run the A1111 parser on, and words to speak of its lines *)

(** The text whose lines are [l]. *)
Definition text_of_lines (l : list string) : string := Py.join (Py.s1 Py.nl) l.

(** The line, stripped, begins with the label of the negative prompt. *)
Definition has_label (line : string) : bool :=
  Py.startswith A1111Parser.negative_label (Py.strip line).

(** What a line adds to the negative prompt: the line stripped, without the
    label if it begins with it, and stripped again. *)
Definition clean_line (line : string) : string :=
  if has_label line
  then Py.strip (Py.drop (String.length A1111Parser.negative_label) (Py.strip line))
  else Py.strip line.

(** The lines from the first one that is not empty on. *)
Fixpoint drop_blank (l : list string) : list string :=
  match l with
  | [] => []
  | x :: l' => if String.eqb x "" then drop_blank l' else l
  end.

(** The lines joined by newlines, as [text_of_lines] has them. *)
Definition joined (l : list string) : string := text_of_lines l.

(** The text of the negative-prompt example. *)
Definition example_text : string :=
  text_of_lines [ "cat"; "Negative prompt: dog";
                  "Steps: 20, Sampler: Euler, Seed: 1" ].

(** A text whose negative prompt starts on the line after its label. *)
Definition example_text_blank : string :=
  text_of_lines [ "cat"; "Negative prompt:"; "dog";
                  "Steps: 20, Sampler: Euler, Seed: 1" ].

(** The text of the resolution example. *)
Definition example_size_text : string :=
  text_of_lines ["a castle"; "Steps: 20, Sampler: Euler, Size: 1024x768"].

(** A text whose [lora_hashes] entry has no hash and no weight. *)
Definition example_bad_lora_text : string :=
  text_of_lines ["a castle"; "Steps: 20, Sampler: Euler, Lora hashes: abc"].

(** ** Words to speak of a parameter line *)

(** The text does not start with a character of the class. *)
Definition head_fails (p : ascii → bool) (t : string) : bool :=
  match t with
  | String c _ => negb (p c)
  | EmptyString => true
  end.

(** A label that the first group of [re_param] reads whole: a word
    character, then one or more characters of the key class. *)
Definition good_label (l : string) : bool :=
  match l with
  | String c0 (String c1 rest) =>
      Py.is_word c0 && key_char c1 && Py.all key_char rest
  | _ => false
  end.

(** What follows the opening quote of a quoted value: escapes (a backslash
    and a character that is no newline) and characters that are neither
    backslash nor double quote, then the closing quote, then nothing. *)
Fixpoint quoted_rest (s : string) : bool :=
  match s with
  | EmptyString => false
  | String c s' =>
      if Py.char_eqb c Py.dquote then String.eqb s' ""
      else if Py.char_eqb c Py.backslash then
        match s' with
        | String e s'' => not_nl e && quoted_rest s''
        | EmptyString => false
        end
      else quoted_rest s'
  end.

(** A value in double quotes with a body that is not empty. *)
Definition quoted_token (q : string) : bool :=
  match q with
  | String c rest =>
      Py.char_eqb c Py.dquote
      && negb (String.eqb rest (Py.s1 Py.dquote))
      && quoted_rest rest
  | EmptyString => false
  end.

(** A value without quotes: no comma, and no whitespace and no double
    quote in front. *)
Definition plain_token (q : string) : bool :=
  Py.all not_comma q
  && head_fails (λ c, Py.is_space c || Py.char_eqb c Py.dquote) q.

(** A value that the second group of [re_param] reads whole. *)
Definition token (q : string) : bool := plain_token q || quoted_token q.

(** The text after a parameter: nothing, or a comma and more. *)
Definition after_comma (rest : string) : option string :=
  match rest with
  | EmptyString => Some ""
  | String c r => if Py.char_eqb c "," then Some r else None
  end.

(** A parameter as it stands in the line: its label, a colon and a space,
    and its value. *)
Definition render_pair (lq : string * string) : string :=
  lq.1 +:+ ": " +:+ lq.2.

(** The parameter line of labels and values. *)
Definition render_pairs (ps : list (string * string)) : string :=
  Py.join ", " (render_pair <$> ps).

(** The label and the value can be read back from the line. *)
Definition readable (lq : string * string) : bool :=
  good_label lq.1 && token lq.2.

(** ** Words to speak of a text and its lines *)

(** The last character, if there is one, is no whitespace. *)
Definition last_not_space (s : string) : bool :=
  match Py.last_char s with
  | Some c => negb (Py.is_space c)
  | None => true
  end.

(** No whitespace at either end. *)
Definition stripped (s : string) : bool :=
  head_fails Py.is_space s && last_not_space s.

(** A text of one line. *)
Definition one_line (s : string) : bool := Py.all not_nl s.

(** A prompt that the parser reads back as it is: one line, no whitespace
    at either end, and not starting with the label of the negative
    prompt. *)
Definition plain_prompt (s : string) : bool :=
  one_line s && stripped s && negb (has_label s).

(** The text that the serializer puts together from the two prompts and
    the parameter line, stripped. *)
Definition assembled (positive negative line : string) : string :=
  Py.strip
    (positive
       +:+ (if String.eqb negative "" then ""
            else String Py.nl "Negative prompt: " +:+ negative)
       +:+ Py.s1 Py.nl +:+ line).

(** ** Words to speak of what the parser reads back *)

(** The text of a value as it stands in a parameter line. *)
Definition value_text (v : pyval) : option string :=
  match v with
  | PyStr s => Some s
  | PyInt z => Some (Py.str_int z)
  | _ => None
  end.

(** The value that [store_param] takes from the text [q] of the line. *)
Definition dequote (E : Env) (q : string) : string :=
  if A1111Parser.is_quoted q then unquote E q else q.

(** What a parameter of the line adds to the data: a key and a value, or
    nothing when the body of the [try] raises. *)
Definition param_entry (E : Env) (lq : string * string)
  : option (string * string) :=
  if String.eqb lq.2 "" then None
  else
    match match_imagesize (dequote E lq.2) with
    | Some (w, h) => Some ("resolution", str_pair w h)
    | None =>
        match A1111Parser.key_of_label A1111Parser.fooocus_to_a1111 lq.1 with
        | Ok key => Some (key, dequote E lq.2)
        | Raise _ => None
        end
    end.

(** The labels under which [generation_params] stores a value. *)
Definition used_labels : list string :=
  [ "Performance"; "Steps"; "Sampler"; "Seed"; "Size"; "CFG scale";
    "Sharpness"; "ADM Guidance"; "Model"; "Model hash"; "Refiner";
    "Refiner hash"; "Adaptive CFG"; "Overwrite Switch";
    "Refiner Swap Method"; "FreeU"; "Lora hashes"; "Version"; "User" ].

(** The labels whose value is taken from the parser state and may be
    empty; an empty value is not read back. *)
Definition state_labels : list string :=
  [ "Steps"; "Model hash"; "Refiner"; "Refiner hash"; "Lora hashes"; "User" ].

(** The key of a label of the table. *)
Definition key_of (k : string) : string :=
  match A1111Parser.key_of_label A1111Parser.fooocus_to_a1111 k with
  | Ok key => key
  | Raise _ => ""
  end.

(** A parameter that is written so that it can be read back: its value
    has a text; the text is not the label itself; what [quote] makes of it
    is a token of one line that does not end in whitespace, and is also
    what [quote] makes of the text as a [str]; an empty text is written as
    nothing and comes from the parser state; any other text is written as
    something and read back as it was; and only a size looks like a
    size. *)
Definition param_ok (E : Env) (kv : string * pyval) : bool :=
  match value_text kv.2 with
  | None => false
  | Some s =>
      let q := quote E kv.2 in
      negb (String.eqb kv.1 s)
      && token q && one_line q && last_not_space q
      && String.eqb (quote E (PyStr s)) q
      && (if String.eqb s ""
          then String.eqb q "" && bool_decide (kv.1 ∈ state_labels)
          else negb (String.eqb q "") && String.eqb (dequote E q) s)
      && (String.eqb kv.1 "Size"
          || match match_imagesize s with
             | Some _ => false
             | None => true
             end)
  end.

(** A resolution that is read back: its width and height are read from
    the size they are written as, and [eval] gives them again from the text
    of their pair. *)
Definition resolution_ok (E : Env) (resolution : pyval) : bool :=
  match eval_pair E resolution with
  | Ok (w, h) =>
      match match_imagesize (w +:+ "x" +:+ h),
            eval_pair E (PyStr (str_pair w h)) with
      | Some (w1, h1), Ok (w2, h2) =>
          String.eqb w1 w && String.eqb h1 h
          && String.eqb w2 w && String.eqb h2 h
      | _, _ => false
      end
  | Raise _ => false
  end.

(** The file that the parser finds for a model stem, or the stem. *)
Definition resolved_model (E : Env) (model_stem : string) : string :=
  default model_stem (A1111Parser.find_stem model_stem (model_filenames E)).

(** A base model whose stem is also the stem of what it resolves to. *)
Definition model_ok (E : Env) (base_model : pyval) : bool :=
  match base_model with
  | PyStr m => String.eqb (Py.stem (resolved_model E (Py.stem m))) (Py.stem m)
  | _ => false
  end.

(** Prompts that are read back, and in which the style extractor finds
    nothing to take out. *)
Definition prompts_ok (E : Env) (self : ParserState) : bool :=
  let positive := Py.join ", " (full_prompt self) in
  let negative := Py.join ", " (full_negative_prompt self) in
  plain_prompt positive && one_line negative && stripped negative
  && (let '(_, p, n) := extract_styles_from_prompt E positive negative in
      String.eqb p positive && String.eqb n negative).

(** The summary of a LoRA in the parameter line. *)
Definition lora_text (l : lora_entry) : string :=
  let '(lora_name, lora_weight, lora_hash) := l in
  lora_name +:+ ": " +:+ lora_hash +:+ ": " +:+ lora_weight.

(** LoRAs whose summaries are split again as they were joined, with the
    reserved LoRA among the known files. *)
Definition loras_ok (E : Env) (self : ParserState) : bool :=
  match loras self with
  | [] => true
  | _ =>
      bool_decide (downloading_sdxl_lcm_lora E ∈ lora_filenames E)
      && bool_decide (Py.split ", " (A1111Serializer.lora_hashes_string self)
                      = lora_text <$> loras self)
      && forallb (λ l : lora_entry,
                    bool_decide (Py.split ": " (lora_text l) = [l.1.1; l.2; l.1.2]))
                 (loras self)
  end.

(** The inputs of a serialization that can be read back. *)
Definition known_inputs (E : Env) (self : ParserState) (metadata : list entry)
    (params : dict pyval) : bool :=
  forallb (param_ok E) params
  && match Dict.get "resolution" (dict_of_entries metadata),
           Dict.get "base_model" (dict_of_entries metadata) with
     | Some resolution, Some base_model =>
         resolution_ok E resolution && model_ok E base_model
     | _, _ => false
     end
  && prompts_ok E self && loras_ok E self.

(** The data of a parse as entries for a serializer. *)
Definition entries_of_data (d : dict string) : list entry :=
  (λ kv : string * string, (kv.1, kv.1, PyStr kv.2)) <$> d.

(** The dictionary that [generation_params] builds from the values it has
    looked up. *)
Definition params_of (E : Env) (self : ParserState) (data : dict pyval)
    (performance sampler seed guidance_scale sharpness adm_guidance : pyval)
    (width height model_stem : string) (version : pyval) : dict pyval :=
  A1111Serializer.add_created_by E
    (Dict.update
       (A1111Serializer.add_optional data
          (A1111Serializer.add_refiner self
             (A1111Serializer.base_params self performance sampler seed
                guidance_scale sharpness adm_guidance width height model_stem)))
       [ (A1111Parser.label "lora_hashes",
          PyStr (A1111Serializer.lora_hashes_string self));
         (A1111Parser.label "version", version) ]).

(** The labels and values that stand in the parameter line, in its
    order. *)
Definition rendered (E : Env) (params : dict pyval) : list (string * string) :=
  (λ kv : string * pyval, (kv.1, quote E kv.2)) <$> Dict.sorted params.

(** The data that the parameters of the line [params] are stored in,
    starting from [init]. *)
Definition stored (E : Env) (params : dict pyval) (init : dict string)
  : dict string :=
  Dict.update init (omap (param_entry E) (rendered E params)).

(** Two entries of a dictionary of the serializer that stand the same in
    the parameter line. *)
Definition same_line (E : Env) (a b : string * pyval) : Prop :=
  a.1 = b.1
  ∧ A1111Serializer.render_param E a.1 a.2 = A1111Serializer.render_param E b.1 b.2
  ∧ A1111Serializer.is_none a.2 = A1111Serializer.is_none b.2.

(** The data of the parser before the parameters are stored in it. *)
Definition initial_data (E : Env) (positive negative : string) : dict string :=
  [ ("prompt", positive);
    ("negative_prompt", negative);
    ("styles", str_list (extract_styles_from_prompt E positive negative).1.1) ].

(** The value of [key] in [data] has a text, and [d] has that text for
    [key]. *)
Definition kept (key : string) (data : dict pyval) (d : dict string) : Prop :=
  ∃ v s, Dict.get key data = Some v ∧ value_text v = Some s
         ∧ Dict.get key d = Some s.

(** The canonical keys of the round trip in the data [d] that is read back:
    the prompts and the steps of the parser state, the sampler, the seed
    and the guidance scale of the entries, the resolution as the pair it
    evaluates to, the base model up to its stem, the hash of the base model
    and the summary of the LoRAs where they are not empty. *)
Definition keys_preserved (E : Env) (self : ParserState) (data : dict pyval)
    (d : dict string) : Prop :=
  Dict.get "prompt" d = Some (Py.join ", " (full_prompt self))
  ∧ Dict.get "negative_prompt" d = Some (Py.join ", " (full_negative_prompt self))
  ∧ Dict.get "steps" d = Some (Py.str_int (steps self))
  ∧ kept "sampler" data d
  ∧ kept "seed" data d
  ∧ kept "guidance_scale" data d
  ∧ (∃ v w h, Dict.get "resolution" data = Some v
              ∧ eval_pair E v = Ok (w, h)
              ∧ Dict.get "resolution" d = Some (str_pair w h)
              ∧ eval_pair E (PyStr (str_pair w h)) = Ok (w, h))
  ∧ (∃ m m', Dict.get "base_model" data = Some (PyStr m)
             ∧ Dict.get "base_model" d = Some m'
             ∧ Py.stem m' = Py.stem m)
  ∧ (base_model_hash self ≠ "" →
     Dict.get "base_model_hash" d = Some (base_model_hash self))
  ∧ (loras self ≠ [] →
     Dict.get "lora_hashes" d = Some (A1111Serializer.lora_hashes_string self)).

(** The dictionary of the serializer for the sample state and entries. *)
Definition sample_params : dict pyval :=
  Eval vm_compute in
    match A1111Serializer.generation_params Demo.env sample_state sample_entries with
    | Ok params => params
    | Raise _ => []
    end.

(** ** Words to speak of what [set_data] does *)

(** [lora_name != 'None'] *)
Definition named (nw : string * string) : bool :=
  negb (String.eqb nw.1 "None").

(** The file that [set_data] hashes for a LoRA. *)
Definition lora_path (E : Env) (nw : string * string) : string :=
  path_join (path_loras E) nw.1.

(** The file that [set_data] hashes for a checkpoint. *)
Definition checkpoint_path (E : Env) (name : string) : string :=
  path_join (path_checkpoints E) name.

(** The entry of a LoRA with the hash [hash_of] gives for its file. *)
Definition lora_with (E : Env) (hash_of : string → string)
    (nw : string * string) : lora_entry :=
  (Py.stem nw.1, nw.2, hash_of (lora_path E nw)).

(** What the cache of a world holds for a file, as [get_sha256] returns it. *)
Definition cached (w : World) (filepath : string) : string :=
  default "" (hash_cache w !! filepath).

(** ** Words to speak of what the Fooocus codec leaves in its argument *)

(** The file that stands for a stem among [filenames]: the first one with
    that stem, [None] when there is none. *)
Definition file_of_stem (name : string) (filenames : list string) : pyval :=
  match A1111Parser.find_stem name filenames with
  | Some filename => PyStr filename
  | None => PyNone
  end.

(** The value that the loop of [FooocusParser.parse_json] leaves for an
    item: the item's own value where the loop does not assign; for a model
    the file of its stem; for a LoRA written as a name and a weight the
    file of the name, with the weight. *)
Definition resolved_value (model_filenames lora_filenames : list string)
    (kv : string * pyval) : pyval :=
  if negb (fooocus_rewrites kv.1 kv.2) then kv.2
  else if FooocusParser.is_lora_key kv.1 then
    match kv.2 with
    | PyStr s =>
        match Py.split " : " s with
        | [name; weight] =>
            match A1111Parser.find_stem name lora_filenames with
            | Some filename => PyStr (filename +:+ " : " +:+ weight)
            | None => PyNone
            end
        | _ => PyNone
        end
    | _ => PyNone
    end
  else
    match kv.2 with
    | PyStr s => file_of_stem s model_filenames
    | _ => PyNone
    end.

Definition resolved_item (model_filenames lora_filenames : list string)
    (kv : string * pyval) : string * pyval :=
  (kv.1, resolved_value model_filenames lora_filenames kv).

(** A text of two parts around the separator of a name and a weight. *)
Definition two_parts (s : string) : bool :=
  match Py.split " : " s with
  | [_; _] => true
  | _ => false
  end.

(** An item that is not a LoRA the loop assigns to, or whose value is a
    text of a name and a weight. *)
Definition lora_item_ok (kv : string * pyval) : bool :=
  if fooocus_rewrites kv.1 kv.2 && FooocusParser.is_lora_key kv.1 then
    match kv.2 with
    | PyStr s => two_parts s
    | _ => false
    end
  else true.

(** An environment in which the reserved LoRA is not among the LoRA
    files. *)
Definition env_without_reserved : Env :=
  {| path_checkpoints := path_checkpoints Demo.env;
     path_loras := path_loras Demo.env;
     model_filenames := model_filenames Demo.env;
     lora_filenames := ["styleA.safetensors"; "styleB.safetensors"];
     downloading_sdxl_lcm_lora := downloading_sdxl_lcm_lora Demo.env;
     metadata_created_by := metadata_created_by Demo.env;
     quote := quote Demo.env;
     unquote := unquote Demo.env;
     extract_styles_from_prompt := extract_styles_from_prompt Demo.env;
     is_json := is_json Demo.env;
     calculate_sha256 := calculate_sha256 Demo.env;
     metadata_scheme_of := metadata_scheme_of Demo.env;
     performance_of_steps := performance_of_steps Demo.env;
     eval_pair := eval_pair Demo.env;
     json_loads := json_loads Demo.env;
     json_dumps := json_dumps Demo.env;
     image_info := image_info Demo.env |}.

(** A mapping as the Fooocus parser is given it. *)
Definition sample_mapping : dict pyval :=
  [ ("base_model", PyStr "juggernaut");
    ("refiner_model", PyStr "None");
    ("lora_combined_1", PyStr "styleB : 0.5");
    ("lora_combined_2", PyStr "styleZ : 0.3");
    ("seed", PyStr "12345") ].

(** A mapping whose second LoRA has no weight. *)
Definition sample_mapping_bad : dict pyval :=
  [ ("base_model", PyStr "juggernaut");
    ("lora_combined_1", PyStr "styleB : 0.5");
    ("lora_combined_2", PyStr "styleA");
    ("lora_combined_3", PyStr "styleA : 0.1") ].

(** The entry that the loop of [FooocusSerializer.parse_string] leaves: a
    LoRA written as a path and a weight keeps the stem of the path. *)
Definition strip_entry (e : entry) : entry :=
  if FooocusParser.is_lora_key e.1.2 then
    match e.2 with
    | PyStr s =>
        match Py.split " : " s with
        | [name; weight] => (e.1, PyStr (Py.stem name +:+ " : " +:+ weight))
        | _ => e
        end
    | _ => e
    end
  else e.

(** An entry that is no LoRA, or whose value is a text of a name and a
    weight. *)
Definition lora_entry_ok (e : entry) : bool :=
  if FooocusParser.is_lora_key e.1.2 then
    match e.2 with
    | PyStr s => two_parts s
    | _ => false
    end
  else true.

(** What the loop raises at a LoRA that is not well formed: by the
    unpacking of the parts of a text, or by [split] on what is no text. *)
Definition lora_entry_error (e : entry) : exn :=
  match e.2 with
  | PyStr _ => ValueError
  | _ => AttributeError
  end.

(** What [FooocusSerializer.parse_string] sets from the parser state and the
    configuration, in the order in which it does. *)
Definition state_items (E : Env) (self : ParserState) : dict pyval :=
  [ ("full_prompt", PyList (PyStr <$> full_prompt self));
    ("full_negative_prompt", PyList (PyStr <$> full_negative_prompt self));
    ("steps", PyInt (steps self));
    ("base_model", PyStr (base_model_name self));
    ("base_model_hash", PyStr (base_model_hash self)) ]
  ++ (if negb (empty_or_none (refiner_model_name self))
      then [ ("refiner_model", PyStr (refiner_model_name self));
             ("refiner_model_hash", PyStr (refiner_model_hash self)) ]
      else [])
  ++ [ ("loras", PyList (FooocusSerializer.lora_value <$> loras self)) ]
  ++ (if negb (String.eqb (metadata_created_by E) "")
      then [ ("created_by", PyStr (metadata_created_by E)) ]
      else []).

(** The value of the last entry with a key. *)
Definition last_value (key : string) (metadata : list entry) : option pyval :=
  (λ e : entry, e.2)
    <$> List.find (λ e : entry, String.eqb e.1.2 key) (rev metadata).

(** Entries as the Fooocus serializer is given them, with the folders of
    the LoRA files. *)
Definition sample_lora_entries : list entry :=
  [ ("Seed", "seed", PyStr "12345");
    ("LoRA 1", "lora_combined_1", PyStr "loras/styleA.safetensors : 0.8");
    ("Steps", "steps", PyInt 60);
    ("LoRA 2", "lora_combined_2", PyStr "sub/dir/styleB.safetensors : 0.5") ].

(** Entries whose second LoRA has no weight. *)
Definition sample_lora_entries_bad : list entry :=
  [ ("LoRA 1", "lora_combined_1", PyStr "loras/styleA.safetensors : 0.8");
    ("LoRA 2", "lora_combined_2", PyStr "loras/styleB.safetensors");
    ("LoRA 3", "lora_combined_3", PyStr "loras/styleB.safetensors : 0.5") ].

(** ** Words to speak of what the A1111 parser reads *)

(** The parameters that [A1111Parser.parse_json] reads from the last line
    of a text. *)
Definition line_params (text : string) : list (string * string) :=
  findall_params (A1111Parser.split_lines text).2.

(** No parameter has the label. *)
Definition no_label (l : string) (params : list (string * string)) : bool :=
  forallb (λ kv : string * string, negb (String.eqb kv.1 l)) params.

(** The prompts that [A1111Parser.parse_json] takes from the lines of a
    text, before the styles are taken out of them. *)
Definition line_prompts (text : string) : string * string :=
  (A1111Parser.split_prompts (A1111Parser.split_lines text).1).1.

(** The data of [A1111Parser.parse_json] after its loop over the
    parameters of the last line. *)
Definition line_data (E : Env) (text : string) : dict string :=
  let '(found_styles, prompt, negative_prompt) :=
    extract_styles_from_prompt E (line_prompts text).1 (line_prompts text).2 in
  A1111Parser.store_params E (line_params text)
    [ ("prompt", prompt);
      ("negative_prompt", negative_prompt);
      ("styles", str_list found_styles) ].

(** The keys of the data of a parse: [prompt], the keys of the table, and
    the keys of the resolved LoRAs. *)
Definition known_key (k : string) : bool :=
  bool_decide (k ∈ "prompt" :: A1111Parser.fooocus_to_a1111.*1)
  || Py.startswith "lora_combined_" k.

(** A text without a parameter line, a text with steps and no performance,
    and a text with a model and LoRAs. *)
Definition example_prompt_text : string :=
  text_of_lines ["a castle on a hill"; "Negative prompt: fog"; "Steps: 20, Seed: 1"].

Definition example_steps_text : string :=
  text_of_lines ["a castle"; "Steps: 30, Sampler: Euler, Seed: 1"].

Definition example_model_text : string :=
  text_of_lines
    [ "a castle";
      String.concat ""
        [ "Steps: 30, Sampler: Euler, Model: juggernaut, Lora hashes: ";
          Py.s1 Py.dquote; "styleB: ef567890: 0.5, styleZ: 00000000: 0.3";
          Py.s1 Py.dquote ] ].

(** The number that a text of decimal digits stands for. *)
Fixpoint digits_value (s : string) : N :=
  match s with
  | EmptyString => 0
  | String c s' =>
      (N.of_nat (Py.ord c - 48) * 10 ^ N.of_nat (String.length s')
       + digits_value s')%N
  end.

(** [f'lora_combined_{li + 1}'] *)
Definition lora_key (li : nat) : string :=
  "lora_combined_" +:+ Py.str_int (Z.of_nat (li + 1)).

(** ** Words to speak of what the A1111 serializer reads *)

(** The keys that the A1111 serializer looks up in its entries. *)
Definition read_keys : list string :=
  required_keys ++ A1111Serializer.optional_keys.

(** Entries that the A1111 serializer makes a text of: they have the
    required keys, their resolution evaluates to a pair, and their base
    model is a text. *)
Definition serializable (E : Env) (metadata : list entry) : bool :=
  let data := dict_of_entries metadata in
  forallb (λ k, Dict.has k data) required_keys
  && match Dict.get "resolution" data with
     | Some resolution =>
         match eval_pair E resolution with
         | Ok _ => true
         | Raise _ => false
         end
     | None => false
     end
  && match Dict.get "base_model" data with
     | Some base_model => is_str base_model
     | None => false
     end.

(** The sample entries with entries that the A1111 serializer does not
    read, one of them twice. *)
Definition sample_entries_more : list entry :=
  ("Prompt", "prompt", PyStr "a dog")
    :: ("Steps", "steps", PyInt 60)
    :: sample_entries
    ++ [ ("Steps", "steps", PyInt 90);
         ("Base Model Hash", "base_model_hash", PyStr "ffffffffff") ].

(** ** Words to speak of what the patterns match *)

(** A text of one or more decimal digits. *)
Definition number (s : string) : bool :=
  negb (String.eqb s "") && Py.all Py.is_digit s.

(** Labels and values as the A1111 serializer writes them. *)
Definition sample_pairs : list (string * string) :=
  [ ("ADM Guidance", String Py.dquote "(1.5, 0.8, 0.3)" +:+ Py.s1 Py.dquote);
    ("CFG scale", "4.0");
    ("Lora hashes", "");
    ("Model", "juggernaut");
    ("Size", "1024x768") ].

(** [metadata.strip().split(newline)]: the lines of a text. *)
Definition text_lines (text : string) : list string :=
  Py.split (Py.s1 Py.nl) (Py.strip text).

(** A LoRA summary that [A1111Parser.resolve_lora_hashes] reads: the
    reserved LoRA is among the LoRA files, and every entry of the summary
    has three parts. *)
Definition loras_readable (E : Env) (hashes : string) : bool :=
  bool_decide (downloading_sdxl_lcm_lora E ∈ lora_filenames E)
  && forallb (λ entry, length (Py.split ": " entry) =? 3)
             (Py.split ", " hashes).

(** The data after the loop over the parameters has no LoRA summary, or one
    that is read. *)
Definition parses (E : Env) (text : string) : bool :=
  match Dict.get "lora_hashes" (line_data E text) with
  | Some hashes => loras_readable E hashes
  | None => true
  end.

(** The files that [set_data] asks the hash of: the checkpoint of the base
    model, that of a refiner that is neither empty nor [None], and the
    files of the LoRAs whose name is not [None]. *)
Definition set_data_files (E : Env) (base_model_name' refiner_model_name' : string)
    (loras' : list (string * string)) : list string :=
  checkpoint_path E base_model_name'
    :: (if negb (empty_or_none refiner_model_name')
        then [checkpoint_path E refiner_model_name'] else [])
    ++ (lora_path E <$> List.filter named loras').

(** The data that the A1111 parser reads from the example texts. *)
Definition example_text_data : dict string :=
  Eval vm_compute in
    match A1111Parser.parse_json Demo.env example_text with
    | Ok d => d
    | Raise _ => []
    end.

Definition example_steps_data : dict string :=
  Eval vm_compute in
    match A1111Parser.parse_json Demo.env example_steps_text with
    | Ok d => d
    | Raise _ => []
    end.

Definition example_model_data : dict string :=
  Eval vm_compute in
    match A1111Parser.parse_json Demo.env example_model_text with
    | Ok d => d
    | Raise _ => []
    end.

(** The keys of the table that only a parameter with their label sets:
    not [resolution], which a size sets under any label; not
    [negative_prompt] and [styles], which the prompts set first; not
    [performance] and [base_model], which later stages assign to. *)
Definition plain_keys : list string :=
  [ "steps"; "sampler"; "guidance_scale"; "seed"; "sharpness"; "adm_guidance";
    "refiner_swap_method"; "adaptive_cfg"; "overwrite_switch"; "freeu";
    "base_model_hash"; "refiner_model"; "refiner_model_hash"; "lora_hashes";
    "lora_weights"; "created_by"; "version" ].

(** What a parameter stores under the key of the label [l]: nothing when
    its label is another one, when its value is empty, or when its value,
    unquoted if it is quoted, is a size; otherwise that value. *)
Definition value_for (E : Env) (l : string) (lq : string * string)
  : option string :=
  if String.eqb lq.1 l && negb (String.eqb lq.2 "")
  then match match_imagesize (dequote E lq.2) with
       | Some _ => None
       | None => Some (dequote E lq.2)
       end
  else None.

(** A text with a parameter given twice, once without a value, and with a
    label that is not in the table. *)
Definition example_twice_text : string :=
  text_of_lines
    [ "a castle";
      "Seed: 1, Sampler: Euler, Seed: 2, Sampler: , Colour: red, Steps: 20" ].

Definition example_twice_data : dict string :=
  Eval vm_compute in
    match A1111Parser.parse_json Demo.env example_twice_text with
    | Ok d => d
    | Raise _ => []
    end.
(** * Properties *)

Section hash_cache.
Context (E : Env).

Lemma get_sha256_hit (w : World) (p h : string) :
  hash_cache w !! p = Some h → get_sha256 E p w = (h, w).
Proof. intros Hp. unfold get_sha256. rewrite Hp. simpl. by rewrite Hp. Qed.

Lemma get_sha256_miss (w : World) (p : string) :
  hash_cache w !! p = None →
  get_sha256 E p w =
    (calculate_sha256 E p,
     {| hash_cache := <[p := calculate_sha256 E p]> (hash_cache w);
        sha256_calls := sha256_calls w ++ [p] |}).
Proof.
  intros Hp. unfold get_sha256. rewrite Hp. simpl.
  by rewrite lookup_insert_eq.
Qed.

Lemma cache_inv_init : cache_inv E world_init.
Proof.
  repeat split; simpl.
  - constructor.
  - intros Hp. by apply elem_of_nil in Hp.
  - rewrite lookup_empty. by intros [? ?].
  - intros p h. by rewrite lookup_empty.
Qed.

Lemma cache_inv_call (w : World) (p : string) :
  cache_inv E w → cache_inv E (get_sha256 E p w).2.
Proof.
  intros (Hnd & Hdom & Hval).
  destruct (hash_cache w !! p) as [h|] eqn:Hp.
  - by rewrite (get_sha256_hit _ _ _ Hp).
  - rewrite (get_sha256_miss _ _ Hp). simpl. repeat split; simpl.
    + apply NoDup_app. repeat split; [done| |apply NoDup_singleton].
      intros q Hq ->%list_elem_of_singleton.
      apply Hdom in Hq as [? Hq]. congruence.
    + intros [Hq| ->%list_elem_of_singleton]%elem_of_app.
      * apply Hdom in Hq as [x Hx]. destruct (decide (p = p0)) as [->|Hne].
        -- congruence.
        -- exists x. by rewrite lookup_insert_ne.
      * rewrite lookup_insert_eq. by eexists.
    + intros [x Hx]. apply elem_of_app. destruct (decide (p = p0)) as [->|Hne].
      * right. by apply list_elem_of_singleton.
      * left. apply Hdom. exists x. by rewrite lookup_insert_ne in Hx.
    + intros q h. destruct (decide (p = q)) as [->|Hne].
      * rewrite lookup_insert_eq. congruence.
      * rewrite lookup_insert_ne by done. apply Hval.
Qed.

Lemma reachable_inv (w : World) : reachable E w → cache_inv E w.
Proof.
  induction 1 as [|w p _ IH]; [apply cache_inv_init|by apply cache_inv_call].
Qed.

Lemma filter_eq_not_elem_of (l : list string) (p : string) :
  p ∉ l → filter (λ q, q = p) l = [].
Proof.
  induction l as [|x l IH]; [done|].
  intros [Hx Hl]%not_elem_of_cons.
  rewrite filter_cons_False by congruence. by apply IH.
Qed.

Lemma NoDup_invocations (l : list string) (p : string) :
  NoDup l → length (filter (λ q, q = p) l) ≤ 1.
Proof.
  induction 1 as [|x l Hx _ IH]; simpl; [lia|].
  rewrite filter_cons. case_decide as Hxp; simpl; [|done].
  subst x. rewrite filter_eq_not_elem_of by done. simpl. lia.
Qed.

(** C8: along any run of calls from the empty cache, [get_sha256] returns
    the content hash of the path; the primitive has been called at most
    once on each path; a miss calls the primitive once and stores its
    result, a hit returns the stored value and calls nothing; and every
    entry of the cache stays in it. *)
Theorem get_sha256_memoizes (w : World) (p : string) :
  reachable E w →
  let w' := (get_sha256 E p w).2 in
  (get_sha256 E p w).1 = calculate_sha256 E p
  ∧ (∀ q, invocations q w' ≤ 1)
  ∧ (hash_cache w !! p = None →
     hash_cache w' = <[p := calculate_sha256 E p]> (hash_cache w)
     ∧ sha256_calls w' = sha256_calls w ++ [p])
  ∧ (∀ h, hash_cache w !! p = Some h →
          (get_sha256 E p w).1 = h ∧ w' = w)
  ∧ hash_cache w ⊆ hash_cache w'
  ∧ (get_sha256 E p w').2 = w'.
Proof.
  intros Hw w'.
  pose proof (reachable_inv _ Hw) as (Hnd & Hdom & Hval).
  pose proof (reachable_inv _ (reachable_call E w p Hw)) as (Hnd' & Hdom' & _).
  fold w' in Hnd', Hdom'.
  split; [|split; [|split; [|split; [|split]]]].
  - destruct (hash_cache w !! p) as [h|] eqn:Hp.
    + rewrite (get_sha256_hit _ _ _ Hp). simpl. by apply Hval.
    + by rewrite (get_sha256_miss _ _ Hp).
  - intros q. by apply NoDup_invocations.
  - intros Hp. subst w'. by rewrite (get_sha256_miss _ _ Hp).
  - intros h Hp. subst w'. by rewrite (get_sha256_hit _ _ _ Hp).
  - subst w'. destruct (hash_cache w !! p) as [h|] eqn:Hp.
    + by rewrite (get_sha256_hit _ _ _ Hp).
    + rewrite (get_sha256_miss _ _ Hp). simpl. by apply insert_subseteq.
  - assert (is_Some (hash_cache w' !! p)) as [h Hh].
    { subst w'. destruct (hash_cache w !! p) as [h|] eqn:Hp.
      - rewrite (get_sha256_hit _ _ _ Hp). by eexists.
      - rewrite (get_sha256_miss _ _ Hp). simpl. rewrite lookup_insert_eq.
        by eexists. }
    by rewrite (get_sha256_hit _ _ _ Hh).
Qed.

End hash_cache.

Lemma get_sha256_memoizes_witness :
  reachable Demo.env (get_sha256 Demo.env "a.safetensors" world_init).2
  ∧ invocations "a.safetensors"
      (get_sha256 Demo.env "a.safetensors"
         (get_sha256 Demo.env "a.safetensors" world_init).2).2 ≤ 1.
Proof.
  split.
  - apply reachable_call, reachable_init.
  - apply (get_sha256_memoizes Demo.env
             (get_sha256 Demo.env "a.safetensors" world_init).2 "a.safetensors").
    apply reachable_call, reachable_init.
Defined.

(** ** Dictionaries *)

Section dict.
Context {V : Type}.
Implicit Types (d : dict V) (k : string) (v : V).

Lemma get_set_eq d k v : Dict.get k (Dict.set k v d) = Some v.
Proof.
  induction d as [|[k' v'] d IH]; simpl.
  - by rewrite String.eqb_refl.
  - destruct (String.eqb k k') eqn:Hk; simpl.
    + by rewrite String.eqb_refl.
    + by rewrite Hk.
Qed.

Lemma get_set_ne d k k' v : k ≠ k' → Dict.get k' (Dict.set k v d) = Dict.get k' d.
Proof.
  intros Hne.
  assert (String.eqb k' k = false) as Hf by (apply String.eqb_neq; congruence).
  induction d as [|[k0 v0] d IH]; simpl.
  - by rewrite Hf.
  - destruct (String.eqb k k0) eqn:Hk; simpl.
    + apply String.eqb_eq in Hk as <-. by rewrite Hf.
    + by rewrite IH.
Qed.

Lemma get_remove_ne d k k' : k ≠ k' → Dict.get k' (Dict.remove k d) = Dict.get k' d.
Proof.
  intros Hne.
  assert (String.eqb k' k = false) as Hf by (apply String.eqb_neq; congruence).
  induction d as [|[k0 v0] d IH]; simpl; [done|].
  destruct (String.eqb k k0) eqn:Hk; simpl.
  - apply String.eqb_eq in Hk as <-. by rewrite Hf.
  - by rewrite IH.
Qed.

Lemma keys_set_present d k v :
  Dict.has k d = true → (Dict.set k v d).*1 = d.*1.
Proof.
  unfold Dict.has. induction d as [|[k0 v0] d IH]; simpl; [done|].
  destruct (String.eqb k k0) eqn:Hk; simpl.
  - apply String.eqb_eq in Hk as <-. done.
  - intros Hd. f_equal. by apply IH.
Qed.

Lemma has_set d k k' v : Dict.has k' d = true → Dict.has k' (Dict.set k v d) = true.
Proof.
  unfold Dict.has. destruct (decide (k = k')) as [->|Hne].
  - by rewrite get_set_eq.
  - by rewrite get_set_ne.
Qed.

Lemma has_elem_of d k v : (k, v) ∈ d → Dict.has k d = true.
Proof.
  unfold Dict.has. induction d as [|[k0 v0] d IH]; [by intros ?%elem_of_nil|].
  intros [Heq|Hin]%elem_of_cons; simpl.
  - inversion Heq; subst. by rewrite String.eqb_refl.
  - destruct (String.eqb k k0); [done|]. by apply IH.
Qed.

End dict.


(** ** Scheme detection *)

(** C7: [read_info] returns the scheme that the [fooocus_scheme] tag
    declares when the tag is a valid scheme; otherwise FOOOCUS when the
    decoded [parameters] is a dictionary; otherwise A1111 when it is a
    [str]; otherwise no scheme. It returns the decoded [parameters] and the
    fields without the two it popped, and it raises only what [json.loads]
    raises. *)
Theorem scheme_detection (E : Env) (info : dict pyval) :
  let raw := (Dict.pop "parameters" PyNone info).1 in
  let tag := (Dict.pop "fooocus_scheme" PyNone info).1 in
  let decoded :=
    if negb (A1111Serializer.is_none raw) && is_json E raw
    then json_loads E raw else Ok raw in
  match read_info E info with
  | Ok (parameters, items, scheme) =>
      decoded = Ok parameters
      ∧ items = Dict.remove "fooocus_scheme" (Dict.remove "parameters" info)
      ∧ scheme =
          match metadata_scheme_of E tag with
          | Some declared => Some declared
          | None =>
              if is_dict parameters then Some FOOOCUS
              else if is_str parameters then Some A1111
              else None
          end
  | Raise e => decoded = Raise e
  end.
Proof.
  unfold read_info, Dict.pop. cbn [fst snd].
  rewrite get_remove_ne by discriminate.
  set (raw := match Dict.get "parameters" info with
              | Some v => v
              | None => PyNone
              end).
  set (tag := match Dict.get "fooocus_scheme" info with
              | Some v => v
              | None => PyNone
              end).
  destruct (negb (A1111Serializer.is_none raw) && is_json E raw);
    [destruct (json_loads E raw) as [parameters|e]; cbn; [|done]|];
    cbn; (split; [done|]; split; [done|]);
    destruct (metadata_scheme_of E tag) as [s|];
    repeat case_match; done.
Qed.

(** ** The Fooocus codec and the objects it is given *)

Lemma replace_value_no_match (key s : string) (filenames : list string) :
  FooocusParser.is_lora_key key = false →
  A1111Parser.find_stem s filenames = None →
  FooocusParser.replace_value_with_filename key (PyStr s) filenames = Ok PyNone.
Proof.
  intros Hkey. induction filenames as [|f fs IH]; simpl; [done|].
  rewrite Hkey. destruct (String.eqb s (Py.stem f)); [done|]. apply IH.
Qed.

(** C2: on a mapping whose [base_model] and [lora_combined_1] name no known
    file, [FooocusParser.parse_json] raises nothing and stores [None] under
    both keys; the values they had are gone. The other entry is as it
    was. *)
Theorem fooocus_parse_unresolved_is_none :
  FooocusParser.parse_json Demo.env 1%positive
    (store_of_dict [ ("base_model", PyStr "mystery");
                     ("lora_combined_1", PyStr "styleZ : 0.5");
                     ("seed", PyStr "1") ])
  = (Ok 1%positive,
     store_of_dict [ ("base_model", PyNone);
                     ("lora_combined_1", PyNone);
                     ("seed", PyStr "1") ]).
Proof. vm_compute. reflexivity. Qed.

Lemma get_unique {V : Type} (d : dict V) (k : string) (v v' : V) :
  NoDup d.*1 → (k, v) ∈ d → Dict.get k d = Some v' → v = v'.
Proof.
  induction d as [|[k0 v0] d IH]; [by intros _ ?%elem_of_nil|].
  rewrite fmap_cons. intros [Hk0 Hnd]%NoDup_cons [Heq|Hin]%elem_of_cons; simpl.
  - inversion Heq; subst. rewrite String.eqb_refl. congruence.
  - destruct (String.eqb k k0) eqn:Hk.
    + apply String.eqb_eq in Hk as ->. exfalso. apply Hk0.
      apply list_elem_of_fmap. by exists (k0, v).
    + by apply IH.
Qed.

Section fooocus_store.
Context (model_filenames lora_filenames : list string) (ref : loc).

(** What the loop of [FooocusParser.parse_json] does to the store: it
    replaces the dictionary at [ref], and there it leaves the keys, and the
    values of the entries it does not assign to, as they were. *)
Lemma parse_items_store (items : list (string * pyval)) (h : store)
    (d : dict pyval) :
  h !! ref = Some (ODict d) →
  ∃ d', (FooocusParser.parse_items model_filenames lora_filenames ref items h).2
          = <[ref := ODict d']> h
        ∧ (Forall (λ kv, Dict.has kv.1 d = true) items → d'.*1 = d.*1)
        ∧ (∀ k, (∀ v, (k, v) ∈ items → fooocus_rewrites k v = false) →
                Dict.get k d' = Dict.get k d).
Proof.
  revert h d. induction items as [|[key value] rest IH]; intros h d Hd.
  { exists d. simpl. by rewrite insert_id. }
  assert (∀ v : pyval,
    ∃ d', (FooocusParser.parse_items model_filenames lora_filenames ref rest
             (<[ref := ODict (Dict.set key v d)]> h)).2 = <[ref := ODict d']> h
          ∧ (Forall (λ kv, Dict.has kv.1 d = true) ((key, value) :: rest) →
             d'.*1 = d.*1)
          ∧ (∀ k, (∀ v, (k, v) ∈ (key, value) :: rest → fooocus_rewrites k v = false) →
                  fooocus_rewrites key value = true →
                  Dict.get k d' = Dict.get k d)) as Hset.
  { intros v.
    destruct (IH (<[ref := ODict (Dict.set key v d)]> h) (Dict.set key v d))
      as (d' & Hrun & Hkeys & Hget); [by rewrite lookup_insert_eq|].
    exists d'. rewrite Hrun, insert_insert_eq. split; [done|]. split.
    - intros [Hkey Hrest]%Forall_cons. simpl in Hkey.
      rewrite Hkeys, keys_set_present; [done..|].
      eapply Forall_impl; [exact Hrest|]. intros kv Hkv. by apply has_set.
    - intros k Hk Hrw. rewrite Hget.
      + apply get_set_ne. intros ->.
        rewrite (Hk value) in Hrw; [done|by left].
      + intros v' Hv'. apply Hk. by right. }
  assert (∃ d', (FooocusParser.parse_items model_filenames lora_filenames ref
                   rest h).2 = <[ref := ODict d']> h
                ∧ (Forall (λ kv, Dict.has kv.1 d = true) ((key, value) :: rest) →
                   d'.*1 = d.*1)
                ∧ (∀ k, (∀ v, (k, v) ∈ (key, value) :: rest →
                              fooocus_rewrites k v = false) →
                        Dict.get k d' = Dict.get k d)) as Hskip.
  { destruct (IH h d Hd) as (d' & Hrun & Hkeys & Hget).
    exists d'. split; [done|]. split.
    - intros [_ Hrest]%Forall_cons. by apply Hkeys.
    - intros k Hk. apply Hget. intros v' Hv'. apply Hk. by right. }
  assert (∃ d', h = <[ref := ODict d']> h
                ∧ (Forall (λ kv, Dict.has kv.1 d = true) ((key, value) :: rest) →
                   d'.*1 = d.*1)
                ∧ (∀ k, (∀ v, (k, v) ∈ (key, value) :: rest →
                              fooocus_rewrites k v = false) →
                        Dict.get k d' = Dict.get k d)) as Hraise.
  { exists d. by rewrite insert_id. }
  simpl. unfold fooocus_rewrites in Hset.
  destruct (FooocusParser.value_empty_or_none value); [exact Hskip|].
  destruct (String.eqb key "base_model" || String.eqb key "refiner_model") eqn:Hm.
  - unfold mbind, M_bind, lift, setitem_dict.
    destruct (FooocusParser.replace_value_with_filename key value model_filenames)
      as [v|e]; [|exact Hraise].
    rewrite Hd. destruct (Hset v) as (d' & ? & ? & Hget).
    exists d'. repeat split; [done..|]. intros k Hk. by apply Hget.
  - destruct (FooocusParser.is_lora_key key) eqn:Hl; [|exact Hskip].
    unfold mbind, M_bind, lift, setitem_dict.
    destruct (FooocusParser.replace_value_with_filename key value lora_filenames)
      as [v|e]; [|exact Hraise].
    rewrite Hd. destruct (Hset v) as (d' & ? & ? & Hget).
    exists d'. repeat split; [done..|]. intros k Hk. by apply Hget.
Qed.

End fooocus_store.

(** What the loop of [FooocusSerializer.parse_string] does to the store: it
    replaces the list at [ref] by one of the same length, in which the
    entries before [li], and the entries from [li] on whose key is not a
    [lora_combined_] key, are as they were. *)
Lemma strip_folders_store (ref : loc) (items : list entry) (li : nat)
    (h : store) (l : list entry) :
  h !! ref = Some (OList l) →
  ∃ l', (FooocusSerializer.strip_folders ref li items h).2
          = <[ref := OList l']> h
        ∧ length l' = length l
        ∧ (∀ i e, l !! i = Some e →
                  (i < li ∨ li ≤ i ∧
                     ∀ e', items !! (i - li) = Some e' →
                           FooocusParser.is_lora_key e'.1.2 = false) →
                  l' !! i = Some e).
Proof.
  revert li h l. induction items as [|[[label key] value] rest IH];
    intros li h l Hl.
  { exists l. simpl. by rewrite insert_id. }
  assert (∃ l', h = <[ref := OList l']> h ∧ length l' = length l
                ∧ (∀ i e, l !! i = Some e →
                     (i < li ∨ li ≤ i ∧
                        ∀ e', ((label, key, value) :: rest) !! (i - li) = Some e' →
                              FooocusParser.is_lora_key e'.1.2 = false) →
                     l' !! i = Some e)) as Hraise.
  { exists l. by rewrite insert_id. }
  simpl. destruct (FooocusParser.is_lora_key key) eqn:Hkey.
  - destruct value as [|s| | |]; try exact Hraise.
    destruct (Py.split " : " s) as [|name [|weight [|? ?]]]; try exact Hraise.
    unfold mbind, M_bind, setitem_list. rewrite Hl.
    destruct (li <? length l) eqn:Hli; [|exact Hraise].
    apply Nat.ltb_lt in Hli. cbv beta iota.
    set (e1 := (label, key, PyStr (Py.stem name +:+ " : " +:+ weight))).
    destruct (IH (S li) (<[ref := OList (<[li := e1]> l)]> h) (<[li := e1]> l))
      as (l' & Hrun & Hlen & Hsame); [by rewrite lookup_insert_eq|].
    exists l'. split; [etrans; [exact Hrun|apply insert_insert_eq]|]. split.
    { by rewrite Hlen, length_insert. }
    intros i e Hi [Hlt|[Hge Hnot]].
    + apply Hsame; [|left; lia]. rewrite list_lookup_insert_ne by lia. done.
    + destruct (decide (i = li)) as [->|Hne].
      { rewrite Nat.sub_diag in Hnot. specialize (Hnot _ eq_refl).
        simpl in Hnot. congruence. }
      apply Hsame; [by rewrite list_lookup_insert_ne|].
      right. split; [lia|]. intros e' He'. apply Hnot.
      replace (i - li) with (S (i - S li)) by lia. done.
  - destruct (IH (S li) h l Hl) as (l' & Hrun & Hlen & Hsame).
    exists l'. split; [done|]. split; [done|].
    intros i e Hi [Hlt|[Hge Hnot]].
    + apply Hsame; [done|left; lia].
    + destruct (decide (i = li)) as [->|Hne].
      { apply Hsame; [done|left; lia]. }
      apply Hsame; [done|]. right. split; [lia|]. intros e' He'. apply Hnot.
      replace (i - li) with (S (i - S li)) by lia. done.
Qed.




(** ** The A1111 serializer *)

Lemma getitem_has {V : Type} (k : string) (d : dict V) :
  Dict.has k d = false → Dict.getitem k d = Raise (KeyError k).
Proof. unfold Dict.has, Dict.getitem. by destruct (Dict.get k d). Qed.

Lemma getitem_Ok {V : Type} (k : string) (d : dict V) (v : V) :
  Dict.getitem k d = Ok v → Dict.has k d = true.
Proof. unfold Dict.has, Dict.getitem. by destruct (Dict.get k d). Qed.

Lemma getitem_cases {V : Type} (k : string) (d : dict V) :
  (∃ v, Dict.getitem k d = Ok v ∧ Dict.get k d = Some v)
  ∨ (Dict.getitem k d = Raise (KeyError k) ∧ Dict.has k d = false).
Proof.
  unfold Dict.has, Dict.getitem. destruct (Dict.get k d); [left|right]; eauto.
Qed.

(** The subscripts of [generation_params] in their order: when they all
    succeed, every required key is there. *)
Ltac next_key k data :=
  destruct (getitem_cases k data) as [(? & -> & ?)|[-> ?]]; cbn.

Ltac in_list :=
  repeat first [apply list_elem_of_here | apply list_elem_of_further].




(** ** Stripping *)

Lemma rstrip_head (c : ascii) (s : string) :
  Py.is_space c = false → ∃ r, Py.rstrip (String c s) = String c r.
Proof.
  intros Hc. simpl. destruct (Py.rstrip s); rewrite ?Hc; by eexists.
Qed.

Lemma strip_rstrip (c : ascii) (s : string) :
  Py.is_space c = false → Py.strip (String c s) = Py.rstrip (String c s).
Proof.
  intros Hc. unfold Py.strip. destruct (rstrip_head c s Hc) as [r ->].
  simpl. by rewrite Hc.
Qed.

(** ** Sorting the items of a dictionary *)

Section sorted.
Context {V : Type}.
Implicit Types (l d : list (string * V)) (kv : string * V).

Lemma insert_sorted_perm kv l : Dict.insert_sorted kv l ≡ₚ kv :: l.
Proof.
  induction l as [|kv' l IH]; simpl; [done|].
  destruct (String.leb kv.1 kv'.1); [done|].
  rewrite IH. apply Permutation_swap.
Qed.

Lemma sorted_perm d : Dict.sorted d ≡ₚ d.
Proof.
  induction d as [|kv d IH]; simpl; [done|].
  by rewrite insert_sorted_perm, IH.
Qed.

Lemma insert_sorted_sorted kv l :
  StronglySorted label_le l → StronglySorted label_le (Dict.insert_sorted kv l).
Proof.
  induction 1 as [|kv' l Hl IH Hall]; simpl.
  { repeat constructor. }
  destruct (String.leb kv.1 kv'.1) eqn:Hle.
  - apply StronglySorted_cons. split; [|by constructor].
    assert (label_le kv kv') as Hkv by (unfold label_le, String.le; by rewrite Hle).
    constructor; [done|].
    eapply Forall_impl; [exact Hall|]. intros x Hx. unfold label_le in *.
    by etrans.
  - apply StronglySorted_cons. split; [|done].
    rewrite insert_sorted_perm. constructor; [|done].
    unfold label_le, String.le.
    destruct (String.leb_total kv.1 kv'.1) as [H|H]; [congruence|].
    by rewrite H.
Qed.

Lemma sorted_sorted d : StronglySorted label_le (Dict.sorted d).
Proof.
  induction d as [|kv d IH]; simpl; [constructor|].
  by apply insert_sorted_sorted.
Qed.

Lemma filter_sorted (f : string * V → bool) l :
  StronglySorted label_le l → StronglySorted label_le (List.filter f l).
Proof.
  induction 1 as [|kv l Hl IH Hall]; simpl; [constructor|].
  destruct (f kv); [|done]. constructor; [done|].
  apply Forall_forall. intros x Hx.
  apply list_elem_of_In, filter_In in Hx as [Hx _].
  rewrite Forall_forall in Hall. by apply Hall, list_elem_of_In.
Qed.

Lemma filter_perm (f : string * V → bool) l l' :
  l ≡ₚ l' → List.filter f l ≡ₚ List.filter f l'.
Proof.
  induction 1 as [|x l l' _ IH|x y l|l l' l'' _ IH1 _ IH2]; simpl.
  - done.
  - destruct (f x); by rewrite ?IH.
  - destruct (f x), (f y); try done. apply perm_swap.
  - by etrans.
Qed.

End sorted.

(** ** The text of the A1111 serializer *)

(** C3, as the code has it: the text is the positive prompt, then, only if
    the negative prompt is not empty, a newline and [Negative prompt: ] and
    the negative prompt, then a newline and the parameter line, the whole
    stripped of whitespace at both ends. The parameter line renders the
    entries of [generation_params] that are not [None], in the order of
    their labels. When the positive prompt starts with a character that is
    no whitespace, only the end is stripped. *)
Theorem parse_string_text (E : Env) (self : ParserState)
    (metadata : list entry) (text : string) :
  A1111Serializer.parse_string E self metadata = Ok text →
  let positive := Py.join ", " (full_prompt self) in
  let negative := Py.join ", " (full_negative_prompt self) in
  ∃ (params shown : dict pyval),
    A1111Serializer.generation_params E self metadata = Ok params
    ∧ shown ≡ₚ List.filter (λ kv, negb (A1111Serializer.is_none kv.2)) params
    ∧ StronglySorted label_le shown
    ∧ let line :=
        Py.join ", " ((λ kv, A1111Serializer.render_param E kv.1 kv.2) <$> shown) in
      let raw :=
        positive
          +:+ (if String.eqb negative "" then ""
               else String Py.nl "Negative prompt: " +:+ negative)
          +:+ Py.s1 Py.nl +:+ line in
      text = Py.strip raw
      ∧ (∀ c s, positive = String c s → Py.is_space c = false →
                text = Py.rstrip raw).
Proof.
  intros Htext positive negative.
  unfold A1111Serializer.parse_string in Htext.
  destruct (A1111Serializer.generation_params E self metadata) as [params|e];
    [|done].
  cbn in Htext. injection Htext as <-.
  exists params,
    (List.filter (λ kv, negb (A1111Serializer.is_none kv.2)) (Dict.sorted params)).
  split; [done|]. split.
  { apply filter_perm, sorted_perm. }
  split; [apply filter_sorted, sorted_sorted|].
  split; [done|].
  intros c s Hpos Hc.
  unfold A1111Serializer.assemble, A1111Serializer.generation_params_text.
  fold positive negative. rewrite Hpos. by apply strip_rstrip.
Qed.

Lemma parse_string_text_witness :
  A1111Serializer.parse_string Demo.env sample_state sample_entries
    = Ok sample_text
  ∧ ∃ (params shown : dict pyval),
      A1111Serializer.generation_params Demo.env sample_state sample_entries
        = Ok params
      ∧ shown ≡ₚ List.filter (λ kv, negb (A1111Serializer.is_none kv.2)) params
      ∧ StronglySorted label_le shown
      ∧ let line :=
          Py.join ", "
            ((λ kv, A1111Serializer.render_param Demo.env kv.1 kv.2) <$> shown) in
        let raw :=
          Py.join ", " (full_prompt sample_state)
            +:+ (if String.eqb (Py.join ", " (full_negative_prompt sample_state)) ""
                 then ""
                 else String Py.nl "Negative prompt: "
                        +:+ Py.join ", " (full_negative_prompt sample_state))
            +:+ Py.s1 Py.nl +:+ line in
        sample_text = Py.strip raw
        ∧ (∀ c s, Py.join ", " (full_prompt sample_state) = String c s →
                  Py.is_space c = false →
                  sample_text = Py.rstrip raw).
Proof.
  assert (A1111Serializer.parse_string Demo.env sample_state sample_entries
            = Ok sample_text) as H by (vm_compute; reflexivity).
  split; [exact H|].
  exact (parse_string_text Demo.env sample_state sample_entries sample_text H).
Defined.

(** C3 as it is stated fails: with no prompt at all the text starts with the
    parameter line; stripping the end alone would have left the newline in
    front of it. *)
Lemma parse_string_strips_front :
  ∃ params,
    A1111Serializer.generation_params Demo.env parser_init plain_entries
      = Ok params
    ∧ A1111Serializer.parse_string Demo.env parser_init plain_entries
      = Ok ("ADM Guidance: 1.5, CFG scale: 4.0, Lora hashes: , "
            +:+ "Model: juggernaut, Model hash: , Performance: Speed, "
            +:+ "Sampler: dpmpp_2m_sde_gpu, Seed: 12345, Sharpness: 2.0, "
            +:+ "Size: 1024x768, Steps: 30, Version: Fooocus v2.1.865")
    ∧ Py.rstrip (A1111Serializer.assemble parser_init
                   (A1111Serializer.generation_params_text Demo.env params))
      = String Py.nl
          ("ADM Guidance: 1.5, CFG scale: 4.0, Lora hashes: , "
           +:+ "Model: juggernaut, Model hash: , Performance: Speed, "
           +:+ "Sampler: dpmpp_2m_sde_gpu, Seed: 12345, Sharpness: 2.0, "
           +:+ "Size: 1024x768, Steps: 30, Version: Fooocus v2.1.865")
    ∧ A1111Serializer.parse_string Demo.env parser_init plain_entries
      ≠ Ok (Py.rstrip (A1111Serializer.assemble parser_init
                         (A1111Serializer.generation_params_text Demo.env params))).
Proof.
  eexists. split; [vm_compute; reflexivity|].
  split; [vm_compute; reflexivity|]. split; [vm_compute; reflexivity|].
  vm_compute. discriminate.
Qed.

(** ** Strings *)

Lemma sapp_cons (c : ascii) (s t : string) : String c s +:+ t = String c (s +:+ t).
Proof. done. Qed.

Lemma sapp_nil_l (s : string) : "" +:+ s = s.
Proof. done. Qed.

Lemma sapp_nil_r (s : string) : s +:+ "" = s.
Proof. induction s as [|c s IH]; [done|]. by rewrite sapp_cons, IH. Qed.

Lemma sapp_assoc (s t u : string) : (s +:+ t) +:+ u = s +:+ t +:+ u.
Proof. induction s as [|c s IH]; [done|]. by rewrite !sapp_cons, IH. Qed.

Lemma sapp_eq_nil (s t : string) : s +:+ t = "" → s = "" ∧ t = "".
Proof. by destruct s. Qed.

(** ** The prompt lines of the A1111 parser *)

Lemma add_lines_from (acc : string) (l : list string) :
  acc ≠ "" → fold_left A1111Parser.add_line l acc = joined (acc :: l).
Proof.
  revert acc. induction l as [|x l IH]; intros acc Hacc; [done|].
  cbn [fold_left]. unfold A1111Parser.add_line at 2.
  apply String.eqb_neq in Hacc as Hacc'. rewrite Hacc'.
  rewrite IH.
  2:{ intros [? _]%sapp_eq_nil. done. }
  unfold joined, text_of_lines, Py.join. destruct l as [|y l]; cbn.
  - done.
  - by rewrite !sapp_assoc.
Qed.

Lemma add_lines (l : list string) :
  fold_left A1111Parser.add_line l "" = joined (drop_blank l).
Proof.
  induction l as [|x l IH]; [done|].
  cbn [fold_left drop_blank]. destruct (String.eqb x "") eqn:Hx.
  - apply String.eqb_eq in Hx as ->. exact IH.
  - apply String.eqb_neq in Hx. unfold A1111Parser.add_line at 2. cbn.
    by apply add_lines_from.
Qed.

Lemma prompt_steps_before (pre : list string) (p n : string) :
  Forall (λ x, has_label x = false) pre →
  fold_left A1111Parser.prompt_step pre (p, n, false)
  = (fold_left A1111Parser.add_line (Py.strip <$> pre) p, n, false).
Proof.
  revert p. induction pre as [|x pre IH]; intros p Hpre; [done|].
  apply Forall_cons in Hpre as [Hx Hpre]. cbn [fold_left fmap list_fmap].
  unfold A1111Parser.prompt_step at 2. unfold has_label in Hx. rewrite Hx.
  by apply IH.
Qed.

Lemma prompt_steps_after (rest : list string) (p n : string) :
  fold_left A1111Parser.prompt_step rest (p, n, true)
  = (p, fold_left A1111Parser.add_line (clean_line <$> rest) n, true).
Proof.
  revert n. induction rest as [|x rest IH]; intros n; [done|].
  cbn [fold_left fmap list_fmap].
  unfold A1111Parser.prompt_step at 2, clean_line at 2, has_label.
  by destruct (Py.startswith _ _); apply IH.
Qed.

Lemma split_prompts_no_label (lines : list string) :
  Forall (λ x, has_label x = false) lines →
  A1111Parser.split_prompts lines = (joined (drop_blank (Py.strip <$> lines)), "", false).
Proof.
  intros Hl. unfold A1111Parser.split_prompts.
  by rewrite prompt_steps_before, add_lines.
Qed.

Lemma split_prompts_label (pre : list string) (l : string) (post : list string) :
  Forall (λ x, has_label x = false) pre →
  has_label l = true →
  A1111Parser.split_prompts (pre ++ l :: post)
  = (joined (drop_blank (Py.strip <$> pre)),
     joined (drop_blank (clean_line <$> l :: post)), true).
Proof.
  intros Hpre Hl. unfold A1111Parser.split_prompts.
  rewrite fold_left_app, prompt_steps_before by done.
  cbn [fold_left]. unfold A1111Parser.prompt_step at 2.
  unfold has_label in Hl. rewrite Hl.
  rewrite prompt_steps_after, !add_lines.
  rewrite <- (add_lines (clean_line <$> l :: post)).
  cbn [fmap list_fmap fold_left]. unfold clean_line at 3, has_label.
  by rewrite Hl.
Qed.

(** C5, as the code has it: the example text parses to the prompt cat, the
    negative prompt dog and the steps 20, when the style extractor finds no
    style in them. In general every line is stripped; the lines before the
    first one that begins with the label make the positive prompt; that
    line without its label, and the lines after it (each without the label
    if it begins with it), make the negative prompt; and the lines of a
    prompt are joined by newlines from its first non-empty line on. *)
Theorem negative_prompt_split (E : Env) :
  (∀ styles,
     extract_styles_from_prompt E "cat" "dog" = (styles, "cat", "dog") →
     ∃ d, A1111Parser.parse_json E example_text = Ok d
          ∧ Dict.get "prompt" d = Some "cat"
          ∧ Dict.get "negative_prompt" d = Some "dog"
          ∧ Dict.get "steps" d = Some "20")
  ∧ (∀ pre l post,
       Forall (λ x, has_label x = false) pre →
       has_label l = true →
       A1111Parser.split_prompts (pre ++ l :: post)
       = (joined (drop_blank (Py.strip <$> pre)),
          joined (drop_blank (clean_line <$> l :: post)), true))
  ∧ (∀ lines,
       Forall (λ x, has_label x = false) lines →
       A1111Parser.split_prompts lines
       = (joined (drop_blank (Py.strip <$> lines)), "", false)).
Proof.
  split; [|split; [apply split_prompts_label|apply split_prompts_no_label]].
  intros styles Hstyles. unfold A1111Parser.parse_json.
  assert (A1111Parser.split_lines example_text
          = (["cat"; "Negative prompt: dog"], "Steps: 20, Sampler: Euler, Seed: 1"))
    as -> by (vm_compute; reflexivity).
  assert (A1111Parser.split_prompts ["cat"; "Negative prompt: dog"]
          = ("cat", "dog", true)) as -> by (vm_compute; reflexivity).
  rewrite Hstyles.
  assert (findall_params "Steps: 20, Sampler: Euler, Seed: 1"
          = [("Steps", "20"); ("Sampler", "Euler"); ("Seed", "1")])
    as -> by (vm_compute; reflexivity).
  generalize (str_list styles) as sl. intros sl.
  assert (A1111Parser.store_params E
            [("Steps", "20"); ("Sampler", "Euler"); ("Seed", "1")]
            [("prompt", "cat"); ("negative_prompt", "dog"); ("styles", sl)]
          = [("prompt", "cat"); ("negative_prompt", "dog"); ("styles", sl);
             ("steps", "20"); ("sampler", "Euler"); ("seed", "1")])
    as -> by (vm_compute; reflexivity).
  unfold A1111Parser.load_performance.
  set (data := [("prompt", "cat"); ("negative_prompt", "dog"); ("styles", sl);
                ("steps", "20"); ("sampler", "Euler"); ("seed", "1")]).
  assert (Dict.get "steps" data = Some "20") as -> by (vm_compute; reflexivity).
  assert (Dict.has "performance" data = false) as -> by (vm_compute; reflexivity).
  cbn [negb]. subst data.
  destruct (performance_of_steps E "20"); eexists; (split; [reflexivity|]);
    by vm_compute.
Qed.

Lemma negative_prompt_split_witness :
  extract_styles_from_prompt Demo.env "cat" "dog" = ([], "cat", "dog")
  ∧ (∃ d, A1111Parser.parse_json Demo.env example_text = Ok d
          ∧ Dict.get "prompt" d = Some "cat"
          ∧ Dict.get "negative_prompt" d = Some "dog"
          ∧ Dict.get "steps" d = Some "20")
  ∧ Forall (λ x, has_label x = false) ["cat"; " and a hat "]
  ∧ has_label " Negative prompt: dog" = true
  ∧ A1111Parser.split_prompts
      (["cat"; " and a hat "] ++ " Negative prompt: dog" :: ["Negative prompt: rain"])
    = (joined (drop_blank (Py.strip <$> ["cat"; " and a hat "])),
       joined (drop_blank
                 (clean_line <$> " Negative prompt: dog" :: ["Negative prompt: rain"])),
       true).
Proof.
  assert (Forall (λ x, has_label x = false) ["cat"; " and a hat "]) as Hpre
    by (repeat constructor).
  assert (has_label " Negative prompt: dog" = true) as Hl by reflexivity.
  split; [reflexivity|].
  split; [apply (proj1 (negative_prompt_split Demo.env) []); reflexivity|].
  split; [exact Hpre|]. split; [exact Hl|].
  apply (proj1 (proj2 (negative_prompt_split Demo.env)) _ _ _ Hpre Hl).
Defined.

(** C5 as it is stated fails: when nothing follows the label on its line,
    the negative prompt is the next line alone, not an empty line and the
    next line joined by a newline. *)
Lemma negative_prompt_drops_blank_line :
  A1111Parser.split_lines example_text_blank
    = (["cat"; "Negative prompt:"; "dog"], "Steps: 20, Sampler: Euler, Seed: 1")
  ∧ clean_line <$> ["Negative prompt:"; "dog"] = [""; "dog"]
  ∧ A1111Parser.split_prompts ["cat"; "Negative prompt:"; "dog"]
    = ("cat", "dog", true)
  ∧ (∃ d, A1111Parser.parse_json Demo.env example_text_blank = Ok d
          ∧ Dict.get "negative_prompt" d = Some "dog")
  ∧ text_of_lines [""; "dog"] = String Py.nl "dog"
  ∧ "dog" ≠ text_of_lines [""; "dog"].
Proof.
  split; [vm_compute; reflexivity|]. split; [vm_compute; reflexivity|].
  split; [vm_compute; reflexivity|].
  split; [eexists; split; vm_compute; reflexivity|].
  split; [vm_compute; reflexivity|]. vm_compute. discriminate.
Qed.

(** ** The parameters of the A1111 parser *)

Lemma match_imagesize_head (v w h : string) :
  match_imagesize v = Some (w, h) →
  ∃ c s, v = String c s ∧ Py.is_digit c = true.
Proof.
  destruct v as [|c s]; [by vm_compute|].
  destruct (Py.is_digit c) eqn:Hc; [eauto|].
  unfold match_imagesize, Re.match_, Re.match_here, re_imagesize, Re.Plus.
  cbn [Re.run Nat.eqb]. by rewrite Hc.
Qed.

Lemma is_digit_not_dquote (c : ascii) :
  Py.is_digit c = true → Py.char_eqb c Py.dquote = false.
Proof.
  intros Hc. destruct (Py.char_eqb c Py.dquote) eqn:Hq; [|done].
  apply Ascii.eqb_eq in Hq as ->. by vm_compute in Hc.
Qed.

Lemma match_imagesize_not_quoted (v w h : string) :
  match_imagesize v = Some (w, h) →
  String.eqb v "" = false ∧ A1111Parser.is_quoted v = false.
Proof.
  intros (c & s & -> & Hc)%match_imagesize_head. split; [done|].
  unfold A1111Parser.is_quoted. by rewrite is_digit_not_dquote.
Qed.

Lemma store_param_imagesize (E : Env) (data : dict string) (k v w h : string) :
  match_imagesize (if A1111Parser.is_quoted v then unquote E v else v)
    = Some (w, h) →
  A1111Parser.store_param E data k v
  = Ok (Dict.set "resolution" (str_pair w h) data).
Proof.
  intros Hm. unfold A1111Parser.store_param.
  destruct (String.eqb v "") eqn:Hv.
  { apply String.eqb_eq in Hv as ->. by vm_compute in Hm. }
  by rewrite Hm.
Qed.

Lemma get_load_performance (E : Env) (data : dict string) (k : string) :
  k ≠ "performance" →
  Dict.get k (A1111Parser.load_performance E data) = Dict.get k data.
Proof.
  intros Hk. unfold A1111Parser.load_performance. repeat case_match; try done.
  by rewrite get_set_ne.
Qed.

Lemma get_resolve_base_model (E : Env) (data : dict string) (k : string) :
  k ≠ "base_model" →
  Dict.get k (A1111Parser.resolve_base_model E data) = Dict.get k data.
Proof.
  intros Hk. unfold A1111Parser.resolve_base_model. repeat case_match; try done.
  by rewrite get_set_ne.
Qed.

Lemma get_resolve_loras (filenames entries : list string) (li : nat)
    (data data' : dict string) (k : string) :
  Py.startswith "lora_combined_" k = false →
  A1111Parser.resolve_loras filenames li entries data = Ok data' →
  Dict.get k data' = Dict.get k data.
Proof.
  intros Hk. revert li data.
  induction entries as [|lora rest IH]; intros li data; simpl.
  { by intros [= ->]. }
  destruct (Py.split ": " lora) as [|a [|b [|c [|? ?]]]]; try done.
  intros Hrun. apply IH in Hrun as ->.
  destruct (A1111Parser.find_stem a filenames); [|done].
  apply get_set_ne. intros <-. by vm_compute in Hk.
Qed.

Lemma get_resolve_lora_hashes (E : Env) (data data' : dict string) (k : string) :
  Py.startswith "lora_combined_" k = false →
  A1111Parser.resolve_lora_hashes E data = Ok data' →
  Dict.get k data' = Dict.get k data.
Proof.
  intros Hk. unfold A1111Parser.resolve_lora_hashes.
  destruct (Dict.get "lora_hashes" data); [|by intros [= ->]].
  destruct (A1111Parser.list_remove _ _); cbn; [|done].
  by apply get_resolve_loras.
Qed.



Lemma list_remove_raises (x : string) (l : list string) (e : exn) :
  A1111Parser.list_remove x l = Raise e → e = ValueError.
Proof.
  induction l as [|y l IH]; simpl; [by intros [= <-]|].
  destruct (String.eqb y x); [done|].
  destruct (A1111Parser.list_remove x l); cbn; [done|].
  intros [= <-]. by apply IH.
Qed.

Lemma resolve_loras_raises (filenames entries : list string) (li : nat)
    (data : dict string) (e : exn) :
  A1111Parser.resolve_loras filenames li entries data = Raise e → e = ValueError.
Proof.
  revert li data. induction entries as [|lora rest IH]; intros li data; simpl;
    [done|].
  destruct (Py.split ": " lora) as [|a [|b [|c [|? ?]]]];
    try by intros [= <-].
  apply IH.
Qed.

(** C4: on a text whose [Lora hashes] parameter is a single word, the
    parser raises [ValueError] and gives no partial result, in every
    environment: the entry is neither logged nor skipped. Whatever the
    parser raises, on any text, it raises from the [lora_hashes] stage,
    which no [try] encloses. *)
Theorem parse_json_raises_on_lora_hashes (E : Env) :
  A1111Parser.parse_json E example_bad_lora_text = Raise ValueError
  ∧ (∀ (text : string) (e : exn),
       A1111Parser.parse_json E text = Raise e →
       e = ValueError
       ∧ ∃ data, Dict.has "lora_hashes" data = true
                 ∧ A1111Parser.resolve_lora_hashes E data = Raise e).
Proof.
  split.
  - unfold A1111Parser.parse_json.
    assert (A1111Parser.split_lines example_bad_lora_text
            = (["a castle"], "Steps: 20, Sampler: Euler, Lora hashes: abc"))
      as -> by (vm_compute; reflexivity).
    destruct (A1111Parser.split_prompts ["a castle"]) as [[prompt negative] ?].
    destruct (extract_styles_from_prompt E prompt negative)
      as [[styles prompt'] negative'].
    assert (findall_params "Steps: 20, Sampler: Euler, Lora hashes: abc"
            = [("Steps", "20"); ("Sampler", "Euler"); ("Lora hashes", "abc")])
      as -> by (vm_compute; reflexivity).
    generalize (str_list styles) as sl. intros sl.
    assert (A1111Parser.store_params E
              [("Steps", "20"); ("Sampler", "Euler"); ("Lora hashes", "abc")]
              [("prompt", prompt'); ("negative_prompt", negative'); ("styles", sl)]
            = [("prompt", prompt'); ("negative_prompt", negative'); ("styles", sl);
               ("steps", "20"); ("sampler", "Euler"); ("lora_hashes", "abc")])
      as -> by (vm_compute; reflexivity).
    unfold A1111Parser.resolve_lora_hashes.
    rewrite get_resolve_base_model, get_load_performance by done.
    assert (Dict.get "lora_hashes"
              [("prompt", prompt'); ("negative_prompt", negative'); ("styles", sl);
               ("steps", "20"); ("sampler", "Euler"); ("lora_hashes", "abc")]
            = Some "abc") as -> by (vm_compute; reflexivity).
    destruct (A1111Parser.list_remove _ _) as [fs|e] eqn:Hrm; cbn.
    + done.
    + by apply list_remove_raises in Hrm as ->.
  - intros text e. unfold A1111Parser.parse_json.
    destruct (A1111Parser.split_lines text) as [lines lastline].
    destruct (A1111Parser.split_prompts lines) as [[prompt negative] ?].
    destruct (extract_styles_from_prompt E prompt negative)
      as [[styles prompt'] negative'].
    set (data := A1111Parser.resolve_base_model E _). intros Hraise.
    assert (e = ValueError ∧ Dict.has "lora_hashes" data = true) as [-> Hhas].
    { revert Hraise. unfold A1111Parser.resolve_lora_hashes, Dict.has.
      destruct (Dict.get "lora_hashes" data); [|done].
      destruct (A1111Parser.list_remove _ _) as [fs|e'] eqn:Hrm; cbn.
      - by intros ->%resolve_loras_raises.
      - intros [= <-]. by apply list_remove_raises in Hrm as ->. }
    split; [done|]. by exists data.
Qed.

(** ** How the matcher runs on a parameter *)

Lemma slength_app (s t : string) :
  String.length (s +:+ t) = String.length s + String.length t.
Proof. induction s as [|c s IH]; [done|]. rewrite sapp_cons. simpl. by rewrite IH. Qed.

Lemma stake_app (s t : string) : Py.take (String.length s) (s +:+ t) = s.
Proof. induction s as [|c s IH]; [by destruct t|]. rewrite sapp_cons. simpl. by rewrite IH. Qed.

Section matcher.
Context {A : Type}.
Implicit Types (k : Re.cont A) (p : ascii → bool).

Lemma star_loop_S (step : nat → string → list string → Re.cont A → option A)
    k (fuel pos : nat) (s : string) (g : list string) :
  Re.star_loop step k (S fuel) pos s g
  = match step pos s g
            (λ pos' s' g',
               if pos <? pos' then Re.star_loop step k fuel pos' s' g'
               else None)
    with
    | Some x => Some x
    | None => k pos s g
    end.
Proof. done. Qed.

Lemma run_cls_cons p k (c : ascii) (s : string) (pos : nat) (g : list string) :
  Re.run (Re.Cls p) pos (String c s) g k = if p c then k (S pos) s g else None.
Proof. done. Qed.

Lemma run_cls_nil p k (pos : nat) (g : list string) :
  Re.run (Re.Cls p) pos "" g k = None.
Proof. done. Qed.

Lemma run_cat k (r1 r2 : Re.regex) (pos : nat) (s : string) (g : list string) :
  Re.run (Re.Cat r1 r2) pos s g k
  = Re.run r1 pos s g (λ pos' s' g', Re.run r2 pos' s' g' k).
Proof. done. Qed.

Lemma run_alt k (r1 r2 : Re.regex) (pos : nat) (s : string) (g : list string) :
  Re.run (Re.Alt r1 r2) pos s g k
  = match Re.run r1 pos s g k with
    | Some x => Some x
    | None => Re.run r2 pos s g k
    end.
Proof. done. Qed.

Lemma run_grp k (r : Re.regex) (pos : nat) (s : string) (g : list string) :
  Re.run (Re.Grp r) pos s g k
  = Re.run r pos s g (λ pos' s' g', k pos' s' (g' ++ [Py.take (pos' - pos) s])).
Proof. done. Qed.

Lemma run_star k (r : Re.regex) (pos : nat) (s : string) (g : list string) :
  Re.run (Re.Star r) pos s g k
  = Re.star_loop (Re.run r) k (String.length s) pos s g.
Proof. done. Qed.

(** A greedy repetition of a class reads all of [w] when [w] is in the
    class, what follows is not, and the rest of the pattern then succeeds. *)
Lemma star_cls_greedy p k (w : string) :
  ∀ (fuel pos : nat) (t : string) (g : list string) (x : A),
    Py.all p w = true →
    head_fails p t = true →
    String.length (w +:+ t) ≤ fuel →
    k (pos + String.length w) t g = Some x →
    Re.star_loop (Re.run (Re.Cls p)) k fuel pos (w +:+ t) g = Some x.
Proof.
  induction w as [|c w IH]; intros fuel pos t g x Hw Ht Hfuel Hk.
  - rewrite sapp_nil_l. simpl in Hk. rewrite Nat.add_0_r in Hk.
    destruct fuel as [|fuel]; [done|]. rewrite star_loop_S.
    destruct t as [|c t]; [done|]. simpl in Ht.
    apply negb_true_iff in Ht. by rewrite run_cls_cons, Ht.
  - simpl in Hw. apply andb_true_iff in Hw as [Hc Hw].
    rewrite sapp_cons in *. simpl in Hfuel.
    destruct fuel as [|fuel]; [lia|].
    rewrite star_loop_S, run_cls_cons, Hc.
    assert ((pos <? S pos) = true) as -> by (apply Nat.ltb_lt; lia).
    rewrite (IH fuel (S pos) t g x); [done..|lia|].
    rewrite <- Hk. f_equal. simpl. lia.
Qed.

Lemma run_star_cls p k (w t : string) (pos : nat) (g : list string) (x : A) :
  Py.all p w = true →
  head_fails p t = true →
  k (pos + String.length w) t g = Some x →
  Re.run (Re.Star (Re.Cls p)) pos (w +:+ t) g k = Some x.
Proof. intros. by apply star_cls_greedy. Qed.


Lemma char_eqb_sym (a b : ascii) : Py.char_eqb a b = Py.char_eqb b a.
Proof. apply Ascii.eqb_sym. Qed.

Lemma run_chr_cons k (a c : ascii) (s : string) (pos : nat) (g : list string) :
  Re.run (Re.Chr a) pos (String c s) g k
  = if Py.char_eqb c a then k (S pos) s g else None.
Proof. unfold Re.Chr. by rewrite run_cls_cons, char_eqb_sym. Qed.

(** One item of a quoted body, then the rest of the pattern. *)
Lemma run_item_escape k (e : ascii) (s : string) (pos : nat) (g : list string) :
  not_nl e = true →
  Re.run re_item pos (String Py.backslash (String e s)) g k
  = match k (S (S pos)) s g with
    | Some x => Some x
    | None => None
    end.
Proof.
  intros He. unfold re_item.
  rewrite run_alt, run_cat, run_chr_cons, run_cls_cons, He.
  by destruct (k (S (S pos)) s g).
Qed.

Lemma run_item_plain k (c : ascii) (s : string) (pos : nat) (g : list string) :
  Py.char_eqb c Py.backslash = false →
  Py.char_eqb c Py.dquote = false →
  Re.run re_item pos (String c s) g k = k (S pos) s g.
Proof.
  intros Hb Hq. unfold re_item.
  rewrite run_alt, run_cat, run_chr_cons, Hb, run_cls_cons.
  unfold not_backslash_dquote. by rewrite Hb, Hq.
Qed.

Lemma run_item_dquote k (s : string) (pos : nat) (g : list string) :
  Re.run re_item pos (String Py.dquote s) g k = None.
Proof. done. Qed.

(** A greedy repetition of items reads a quoted body up to its closing
    quote, when the rest of the pattern then succeeds. *)
Lemma star_item_greedy k (n : nat) :
  ∀ (s : string) (fuel pos : nat) (t : string) (g : list string) (x : A),
    String.length s ≤ n →
    quoted_rest s = true →
    String.length (s +:+ t) ≤ fuel →
    k (pos + String.length s - 1) (String Py.dquote t) g = Some x →
    Re.star_loop (Re.run re_item) k fuel pos (s +:+ t) g = Some x.
Proof.
  induction n as [|n IH]; intros s fuel pos t g x Hn Hs Hfuel Hk.
  { destruct s; [done|simpl in Hn; lia]. }
  destruct s as [|c s]; [done|]. simpl in Hs, Hn.
  rewrite sapp_cons in *. simpl in Hfuel, Hk.
  destruct fuel as [|fuel]; [lia|]. rewrite star_loop_S.
  destruct (Py.char_eqb c Py.dquote) eqn:Hq.
  - apply Ascii.eqb_eq in Hq as ->. apply String.eqb_eq in Hs as ->.
    rewrite sapp_nil_l, run_item_dquote. rewrite <- Hk. f_equal. simpl. lia.
  - destruct (Py.char_eqb c Py.backslash) eqn:Hb.
    + apply Ascii.eqb_eq in Hb as ->. destruct s as [|e s]; [done|].
      apply andb_true_iff in Hs as [He Hs]. rewrite sapp_cons in *.
      simpl in Hfuel, Hn, Hk. rewrite run_item_escape by done.
      assert ((pos <? S (S pos)) = true) as -> by (apply Nat.ltb_lt; lia).
      rewrite (IH s fuel (S (S pos)) t g x); [done|lia|done|lia|].
      rewrite <- Hk. f_equal. destruct s; [done|]. simpl. lia.
    + rewrite run_item_plain by done.
      assert ((pos <? S pos) = true) as -> by (apply Nat.ltb_lt; lia).
      rewrite (IH s fuel (S pos) t g x); [done|lia|done|lia|].
      rewrite <- Hk. f_equal. destruct s; [done|]. simpl. lia.
Qed.

(** The quoted alternative reads a quoted value whole. *)
Lemma run_quoted k (q rest : string) (pos : nat) (g : list string) (x : A) :
  quoted_token q = true →
  k (pos + String.length q) rest g = Some x →
  Re.run re_quoted pos (q +:+ rest) g k = Some x.
Proof.
  unfold quoted_token. destruct q as [|c q]; [done|].
  intros [[Hc Hne]%andb_true_iff Hq]%andb_true_iff Hk.
  apply Ascii.eqb_eq in Hc as ->. apply negb_true_iff, String.eqb_neq in Hne.
  unfold re_quoted, Re.Plus. rewrite sapp_cons.
  rewrite run_cat, run_chr_cons. change (Py.char_eqb Py.dquote Py.dquote) with true.
  cbv beta iota. rewrite !run_cat.
  assert (∀ (s : string) (p' : nat),
            quoted_rest s = true → String.length s ≤ String.length q →
            p' + String.length s = pos + String.length (String Py.dquote q) →
            Re.run (Re.Star re_item) p' (s +:+ rest) g
              (λ pos' s' g', Re.run (Re.Chr Py.dquote) pos' s' g' k) = Some x)
    as Hstar.
  { intros s p' Hs Hlen Hpos. rewrite run_star.
    apply (star_item_greedy _ (String.length s)); [done..|].
    rewrite run_chr_cons. change (Py.char_eqb Py.dquote Py.dquote) with true.
    cbv iota. rewrite <- Hk. f_equal. destruct s; [done|]. simpl in *. lia. }
  destruct q as [|c q]; [done|]. simpl in Hq. rewrite sapp_cons.
  destruct (Py.char_eqb c Py.dquote) eqn:Hcq.
  { apply Ascii.eqb_eq in Hcq as ->. apply String.eqb_eq in Hq as ->. done. }
  destruct (Py.char_eqb c Py.backslash) eqn:Hb.
  - apply Ascii.eqb_eq in Hb as ->. destruct q as [|e q]; [done|].
    apply andb_true_iff in Hq as [He Hq]. rewrite sapp_cons.
    rewrite run_item_escape by done.
    rewrite Hstar; [done..|simpl; lia|simpl; lia].
  - rewrite run_item_plain by done.
    rewrite Hstar; [done..|simpl; lia|simpl; lia].
Qed.

Lemma after_comma_head p (rest r : string) :
  after_comma rest = Some r → p ","%char = false → head_fails p rest = true.
Proof.
  destruct rest as [|c rest]; [done|]. simpl.
  destruct (Py.char_eqb c ",") eqn:Hc; [|done].
  apply Ascii.eqb_eq in Hc as ->. by intros _ ->.
Qed.

(** The value group reads a token whole when a comma or the end follows. *)
Lemma run_value k (q rest r : string) (pos : nat) (g : list string) (x : A) :
  token q = true →
  after_comma rest = Some r →
  k (pos + String.length q) rest g = Some x →
  Re.run re_value pos (q +:+ rest) g k = Some x.
Proof.
  intros Hq Hrest Hk. unfold re_value. rewrite run_alt.
  destruct (quoted_token q) eqn:Hquoted.
  { by rewrite (run_quoted k q rest pos g x). }
  unfold token in Hq. rewrite Hquoted, orb_false_r in Hq.
  apply andb_true_iff in Hq as [Hall Hhead].
  assert (Re.run re_quoted pos (q +:+ rest) g k = None) as ->.
  { unfold re_quoted. rewrite run_cat.
    destruct q as [|c q].
    - rewrite sapp_nil_l. destruct rest as [|c rest]; [done|].
      rewrite run_chr_cons. simpl in Hrest.
      destruct (Py.char_eqb c ",") eqn:Hc; [|done].
      apply Ascii.eqb_eq in Hc as ->. done.
    - rewrite sapp_cons, run_chr_cons. simpl in Hhead.
      apply negb_true_iff, orb_false_iff in Hhead as [_ ->]. done. }
  apply run_star_cls; [done| |done].
  by eapply after_comma_head.
Qed.

End matcher.

(** ** How [re_param] reads a rendered parameter line *)

Lemma word_not_space (c : ascii) : Py.is_word c = true → Py.is_space c = false.
Proof. destruct c as [[] [] [] [] [] [] [] []]; by vm_compute. Qed.

Lemma token_head_not_space (q rest r : string) :
  token q = true → after_comma rest = Some r →
  head_fails Py.is_space (q +:+ rest) = true.
Proof.
  intros Hq Hrest. destruct q as [|c q].
  - rewrite sapp_nil_l. by eapply after_comma_head.
  - rewrite sapp_cons. simpl. unfold token in Hq.
    apply orb_true_iff in Hq as [Hq|Hq].
    + apply andb_true_iff in Hq as [_ Hq]. simpl in Hq.
      by apply negb_true_iff, orb_false_iff in Hq as [-> _].
    + unfold quoted_token in Hq.
      apply andb_true_iff in Hq as [[Hc _]%andb_true_iff _].
      by apply Ascii.eqb_eq in Hc as ->.
Qed.

(** One parameter: optional whitespace, the label, a colon and a space,
    the value, and then a comma or the end. *)
Lemma match_param (ws label q rest r : string) (pos : nat) :
  Py.all Py.is_space ws = true →
  good_label label = true →
  token q = true →
  after_comma rest = Some r →
  Re.match_here re_param pos (ws +:+ label +:+ ": " +:+ q +:+ rest)
  = Some ([label; q], r).
Proof.
  intros Hws Hlabel Hq Hrest. unfold Re.match_here, re_param.
  destruct label as [|c0 [|c1 lrest]]; try done.
  apply andb_true_iff in Hlabel as [[Hc0 Hc1]%andb_true_iff Hl].
  rewrite run_cat. apply run_star_cls; [done| |].
  { rewrite sapp_cons. simpl. by rewrite word_not_space. }
  rewrite run_cat, run_grp. unfold re_key, Re.Plus.
  set (label := String c0 (String c1 lrest)).
  set (text := label +:+ ": " +:+ q +:+ rest).
  assert (text = String c0 (String c1 (lrest +:+ ": " +:+ q +:+ rest))) as Htext
    by done.
  rewrite Htext at 1.
  rewrite run_cat, run_cls_cons, Hc0, run_cat, run_cls_cons, Hc1.
  apply run_star_cls; [done|done|].
  replace (S (S (pos + String.length ws)) + String.length lrest
           - (pos + String.length ws)) with (String.length label)
    by (simpl; lia).
  unfold text. rewrite stake_app. simpl app.
  change (": " +:+ q +:+ rest) with (String ":" (" " +:+ q +:+ rest)).
  rewrite run_cat, run_chr_cons. change (Py.char_eqb ":" ":") with true.
  cbv iota. rewrite run_cat.
  apply (run_star_cls _ _ " " (q +:+ rest)); [done| |].
  { by eapply token_head_not_space. }
  rewrite run_cat, run_grp.
  eapply run_value; [done..|].
  rewrite Nat.add_comm, Nat.add_sub, stake_app. simpl app.
  rewrite run_alt. destruct rest as [|c rest].
  - injection Hrest as <-. done.
  - simpl in Hrest. rewrite run_chr_cons.
    destruct (Py.char_eqb c ","); [|done]. by injection Hrest as <-.
Qed.

Lemma match_param_nil (pos : nat) : Re.match_here re_param pos "" = None.
Proof. done. Qed.

Lemma render_pairs_cons (lq : string * string) (ps : list (string * string)) :
  ps ≠ [] →
  render_pairs (lq :: ps) = render_pair lq +:+ ", " +:+ render_pairs ps.
Proof. by destruct ps. Qed.

Lemma search_match (r : Re.regex) (pos : nat) (s : string)
    (m : list string * string) :
  Re.match_here r pos s = Some m → Re.search r pos s = Some m.
Proof. intros Hm. destruct s; simpl; by rewrite Hm. Qed.

Lemma findall_go_S (fuel : nat) (r : Re.regex) (pos : nat) (s : string) :
  Re.findall_go (S fuel) r pos s
  = match Re.search r pos s with
    | None => []
    | Some (g, s') =>
        g :: (if String.length s' <? String.length s
              then Re.findall_go fuel r
                     (pos + (String.length s - String.length s')) s'
              else [])
    end.
Proof. done. Qed.

(** [findall] on a line of readable parameters gives them back in order. *)
Lemma findall_go_render (ps : list (string * string)) :
  ∀ (fuel pos : nat) (ws : string),
    ps ≠ [] →
    forallb readable ps = true →
    Py.all Py.is_space ws = true →
    length ps < fuel →
    Re.findall_go fuel re_param pos (ws +:+ render_pairs ps)
    = (λ lq, [lq.1; lq.2]) <$> ps.
Proof.
  induction ps as [|[l q] ps IH]; intros fuel pos ws Hne Hall Hws Hfuel; [done|].
  simpl in Hall. apply andb_true_iff in Hall as [[Hl Hq]%andb_true_iff Hall].
  destruct fuel as [|fuel]; [simpl in Hfuel; lia|]. simpl in Hfuel.
  destruct ps as [|lq' ps].
  - unfold render_pairs. cbn [fmap list_fmap Py.join String.concat].
    unfold render_pair. cbn [fst snd].
    replace (ws +:+ l +:+ ": " +:+ q) with (ws +:+ l +:+ ": " +:+ q +:+ "")
      by (by rewrite sapp_nil_r).
    rewrite findall_go_S.
    rewrite (search_match _ _ _ _ (match_param ws l q "" "" pos Hws Hl Hq eq_refl)).
    destruct (String.length "" <? String.length (ws +:+ l +:+ ": " +:+ q +:+ ""));
      [|done].
    by destruct fuel.
  - rewrite render_pairs_cons by done. unfold render_pair at 1. cbn [fst snd].
    rewrite !sapp_assoc.
    change (", " +:+ render_pairs (lq' :: ps))
      with (String "," (" " +:+ render_pairs (lq' :: ps))).
    rewrite findall_go_S.
    rewrite (search_match _ _ _ _
               (match_param ws l q
                  (String "," (" " +:+ render_pairs (lq' :: ps)))
                  (" " +:+ render_pairs (lq' :: ps)) pos Hws Hl Hq eq_refl)).
    assert ((String.length (" " +:+ render_pairs (lq' :: ps))
             <? String.length (ws +:+ l +:+ ": " +:+ q
                               +:+ String "," (" " +:+ render_pairs (lq' :: ps))))
            = true) as ->.
    { apply Nat.ltb_lt. rewrite !slength_app. simpl. rewrite !slength_app. simpl. lia. }
    cbn [fmap list_fmap]. f_equal.
    apply IH; [done|done|done|simpl in *; lia].
Qed.

Lemma findall_params_render (ps : list (string * string)) :
  ps ≠ [] →
  forallb readable ps = true →
  findall_params (render_pairs ps) = ps.
Proof.
  intros Hne Hall. unfold findall_params, Re.findall.
  rewrite <- (sapp_nil_l (render_pairs ps)) at 2.
  rewrite findall_go_render; [|done|done|done|].
  - rewrite <- list_fmap_compose. rewrite <- (list_fmap_id ps) at 2.
    apply list_fmap_ext. by intros ? [? ?] _.
  - rewrite ?sapp_nil_l.
    assert (∀ qs : list (string * string),
              length qs ≤ String.length (render_pairs qs) + 0) as Hlen.
    { induction qs as [|lq [|lq' qs] IHq]; [simpl; lia| |].
      - unfold render_pairs, render_pair. simpl.
        rewrite !slength_app. simpl. lia.
      - rewrite render_pairs_cons by done. rewrite !slength_app.
        simpl in *. lia. }
    specialize (Hlen ps). lia.
Qed.

(** ** Stripping and splitting a text that was put together *)

Lemma last_char_app (a b : string) :
  b ≠ "" → Py.last_char (a +:+ b) = Py.last_char b.
Proof.
  intros Hb. induction a as [|c a IH]; [done|].
  rewrite sapp_cons. simpl. rewrite IH.
  destruct (a +:+ b) eqn:Hab; [|done].
  by apply sapp_eq_nil in Hab as [_ ->].
Qed.

Lemma last_char_None (s : string) : Py.last_char s = None → s = "".
Proof.
  induction s as [|c s IH]; [done|]. simpl.
  destruct s; [done|]. intros H. by apply IH in H.
Qed.

Lemma rstrip_id (s : string) : last_not_space s = true → Py.rstrip s = s.
Proof.
  unfold last_not_space. induction s as [|c s IH]; [done|].
  simpl. destruct s as [|c' s].
  - simpl. intros ->%negb_true_iff. done.
  - intros H. rewrite IH by done. done.
Qed.

Lemma lstrip_id (s : string) : head_fails Py.is_space s = true → Py.lstrip s = s.
Proof. destruct s as [|c s]; [done|]. simpl. by intros ->%negb_true_iff. Qed.

Lemma strip_id (s : string) : stripped s = true → Py.strip s = s.
Proof.
  intros [Hh Hl]%andb_true_iff. unfold Py.strip.
  by rewrite rstrip_id, lstrip_id.
Qed.

Lemma strip_nl_front (s : string) :
  s ≠ "" → stripped s = true → Py.strip (String Py.nl s) = s.
Proof.
  intros Hne [Hh Hl]%andb_true_iff. unfold Py.strip.
  rewrite rstrip_id.
  - simpl. by apply lstrip_id.
  - unfold last_not_space in *. simpl. by destruct s.
Qed.

Lemma stripped_app (a b : string) :
  a ≠ "" → b ≠ "" →
  head_fails Py.is_space a = true → last_not_space b = true →
  stripped (a +:+ b) = true.
Proof.
  intros Ha Hb Hh Hl. unfold stripped, last_not_space in *.
  rewrite last_char_app by done. rewrite Hl, andb_true_r.
  destruct a; [done|]. by rewrite sapp_cons.
Qed.

Lemma split_go_cons (sep cur : string) (c : ascii) (s : string) :
  Py.split_go sep 0 cur (String c s)
  = if Py.startswith sep (String c s)
    then cur :: Py.split_go sep (String.length sep - 1) "" s
    else Py.split_go sep 0 (cur +:+ Py.s1 c) s.
Proof. done. Qed.

Lemma startswith_nl (c : ascii) (s : string) :
  Py.startswith (Py.s1 Py.nl) (String c s) = negb (not_nl c).
Proof.
  unfold not_nl. rewrite negb_involutive, (char_eqb_sym c).
  cbn [Py.startswith Py.s1]. by rewrite andb_true_r.
Qed.

Lemma split_go_line (a cur rest : string) :
  one_line a = true →
  Py.split_go (Py.s1 Py.nl) 0 cur (a +:+ String Py.nl rest)
  = (cur +:+ a) :: Py.split_go (Py.s1 Py.nl) 0 "" rest.
Proof.
  revert cur. induction a as [|c a IH]; intros cur Ha.
  - rewrite sapp_nil_l, sapp_nil_r. done.
  - simpl in Ha. apply andb_true_iff in Ha as [Hc Ha].
    rewrite sapp_cons, split_go_cons, startswith_nl, Hc. cbn [negb].
    rewrite IH by done. by rewrite sapp_assoc.
Qed.

Lemma split_go_last (a cur : string) :
  one_line a = true →
  Py.split_go (Py.s1 Py.nl) 0 cur a = [cur +:+ a].
Proof.
  revert cur. induction a as [|c a IH]; intros cur Ha.
  - by rewrite sapp_nil_r.
  - simpl in Ha. apply andb_true_iff in Ha as [Hc Ha].
    rewrite split_go_cons, startswith_nl, Hc. cbn [negb].
    rewrite IH by done. by rewrite sapp_assoc.
Qed.

Lemma split_line (a rest : string) :
  one_line a = true →
  Py.split (Py.s1 Py.nl) (a +:+ String Py.nl rest)
  = a :: Py.split (Py.s1 Py.nl) rest.
Proof. intros Ha. unfold Py.split. by rewrite split_go_line. Qed.

Lemma split_last (a : string) :
  one_line a = true → Py.split (Py.s1 Py.nl) a = [a].
Proof. intros Ha. unfold Py.split. by rewrite split_go_last. Qed.

Lemma all_app (p : ascii → bool) (a b : string) :
  Py.all p (a +:+ b) = Py.all p a && Py.all p b.
Proof.
  induction a as [|c a IH]; [done|]. rewrite sapp_cons. simpl.
  by rewrite IH, andb_assoc.
Qed.

Lemma strip_space_front (s : string) :
  stripped s = true → Py.strip (String " " s) = s.
Proof.
  intros [Hh Hl]%andb_true_iff. unfold Py.strip.
  destruct s as [|c s]; [done|].
  rewrite rstrip_id.
  - simpl. by apply negb_true_iff in Hh as ->.
  - unfold last_not_space in *. done.
Qed.

Lemma last_not_space_cons (c : ascii) (s : string) :
  s ≠ "" → last_not_space (String c s) = last_not_space s.
Proof. unfold last_not_space. by destruct s. Qed.

(** The lines of the text of the serializer: the positive prompt if there
    is one, the line of the negative prompt if there is one, and the
    parameter line, which is taken for the parameters. The prompts are
    read back as they were. *)
Lemma split_assembled (positive negative line : string) :
  plain_prompt positive = true →
  one_line negative = true → stripped negative = true →
  one_line line = true → stripped line = true → line ≠ "" →
  3 ≤ length (findall_params line) →
  ∃ lines done,
    A1111Parser.split_lines (assembled positive negative line) = (lines, line)
    ∧ A1111Parser.split_prompts lines = (positive, negative, done).
Proof.
  intros [[Hp1 Hp2]%andb_true_iff Hp3%negb_true_iff]%andb_true_iff
    Hn1 Hn2 Hl1 Hl2 Hne Hcount.
  assert ((length (findall_params line) <? 3) = false) as Hlt
    by (apply Nat.ltb_ge; lia).
  assert (last_not_space (String Py.nl line) = true) as Hlast.
  { rewrite last_not_space_cons by done.
    by apply andb_true_iff in Hl2 as [_ ?]. }
  assert (A1111Parser.prompt_step ("", "", false) positive
          = (positive, "", false)) as Hstep.
  { unfold A1111Parser.prompt_step. unfold has_label in Hp3.
    rewrite strip_id in * by done. rewrite Hp3.
    unfold A1111Parser.add_line. by rewrite sapp_nil_l. }
  unfold assembled, A1111Parser.split_lines.
  destruct (String.eqb negative "") eqn:Hneg.
  - apply String.eqb_eq in Hneg as ->. rewrite sapp_nil_l.
    change (Py.s1 Py.nl +:+ line) with (String Py.nl line).
    destruct (String.eqb positive "") eqn:Hpos.
    + apply String.eqb_eq in Hpos as ->. rewrite sapp_nil_l.
      rewrite strip_nl_front, (strip_id line), split_last by done.
      simpl. rewrite Hlt.
      by exists [], false.
    + apply String.eqb_neq in Hpos.
      assert (stripped (positive +:+ String Py.nl line) = true) as Hs.
      { apply stripped_app; [done|done| |done].
        by apply andb_true_iff in Hp2 as [? _]. }
      rewrite !(strip_id _ Hs).
      rewrite split_line, split_last by done. simpl. rewrite Hlt.
      exists [positive], false. split; [done|].
      unfold A1111Parser.split_prompts. cbn [fold_left]. by rewrite Hstep.
  - apply String.eqb_neq in Hneg.
    set (X := "Negative prompt: " +:+ negative).
    change (String Py.nl "Negative prompt: " +:+ negative) with (String Py.nl X).
    change (Py.s1 Py.nl +:+ line) with (String Py.nl line).
    rewrite sapp_cons.
    assert (one_line X = true) as HX1.
    { unfold X, one_line. rewrite all_app. unfold one_line in Hn1.
      rewrite Hn1. by vm_compute. }
    assert (X ≠ "") as HXne by (by unfold X).
    assert (stripped X = true) as HX2.
    { apply stripped_app; [done|done|done|].
      by apply andb_true_iff in Hn2 as [_ ?]. }
    assert (stripped (X +:+ String Py.nl line) = true) as HXl.
    { apply stripped_app; [done|done| |done].
      by apply andb_true_iff in HX2 as [? _]. }
    assert (A1111Parser.prompt_step ("", "", false) X = ("", negative, true)
            ∧ A1111Parser.prompt_step (positive, "", false) X
              = (positive, negative, true)) as [HstepX HstepX'].
    { unfold A1111Parser.prompt_step. rewrite strip_id by done.
      change (Py.startswith A1111Parser.negative_label X) with true.
      cbv iota.
      change (Py.drop (String.length A1111Parser.negative_label) X)
        with (String " " negative).
      rewrite strip_space_front by done.
      unfold A1111Parser.add_line. by rewrite sapp_nil_l. }
    destruct (String.eqb positive "") eqn:Hpos.
    + apply String.eqb_eq in Hpos as ->. rewrite sapp_nil_l.
      rewrite strip_nl_front; [|by destruct X|done].
      rewrite (strip_id _ HXl).
      rewrite split_line, split_last by done. simpl. rewrite Hlt.
      exists [X], true. split; [done|].
      unfold A1111Parser.split_prompts. cbn [fold_left]. by rewrite HstepX.
    + apply String.eqb_neq in Hpos.
      assert (stripped (positive +:+ String Py.nl (X +:+ String Py.nl line))
              = true) as Hs.
      { apply stripped_app; [done|done| |].
        - by apply andb_true_iff in Hp2 as [? _].
        - rewrite last_not_space_cons; [|by destruct X].
          by apply andb_true_iff in HXl as [_ ?]. }
      rewrite !(strip_id _ Hs).
      rewrite !split_line, split_last by done. simpl. rewrite Hlt.
      exists [positive; X], true. split; [done|].
      unfold A1111Parser.split_prompts. cbn [fold_left].
      by rewrite Hstep, HstepX'.
Qed.

(** ** What the parameters of the line add to the data *)

Lemma store_param_entry (E : Env) (data : dict string) (lq : string * string) :
  try_or data (A1111Parser.store_param E data lq.1 lq.2)
  = match param_entry E lq with
    | Some (key, value) => Dict.set key value data
    | None => data
    end.
Proof.
  unfold A1111Parser.store_param, param_entry, dequote.
  destruct (String.eqb lq.2 ""); [done|].
  destruct (match_imagesize _) as [[w h]|]; [done|].
  by destruct (A1111Parser.key_of_label _ _).
Qed.

Lemma store_params_update (E : Env) (ps : list (string * string))
    (data : dict string) :
  A1111Parser.store_params E ps data
  = Dict.update data (omap (param_entry E) ps).
Proof.
  unfold A1111Parser.store_params, Dict.update. revert data.
  induction ps as [|lq ps IH]; intros data; [done|].
  cbn [fold_left omap list_omap]. rewrite store_param_entry.
  destruct (param_entry E lq) as [[key value]|]; by rewrite IH.
Qed.

Section update.
Context {V : Type}.
Implicit Types (d : dict V) (l : list (string * V)).

Lemma update_cons d kv l :
  Dict.update d (kv :: l) = Dict.update (Dict.set kv.1 kv.2 d) l.
Proof. done. Qed.

Lemma update_app d l1 l2 :
  Dict.update d (l1 ++ l2) = Dict.update (Dict.update d l1) l2.
Proof. unfold Dict.update. by rewrite fold_left_app. Qed.

Lemma get_update_notin d l k :
  k ∉ l.*1 → Dict.get k (Dict.update d l) = Dict.get k d.
Proof.
  revert d. induction l as [|[k0 v0] l IH]; intros d Hk; [done|].
  rewrite fmap_cons in Hk. apply not_elem_of_cons in Hk as [Hne Hk].
  rewrite update_cons, IH by done. apply get_set_ne. simpl in *. congruence.
Qed.

Lemma get_update_in d l k v :
  NoDup l.*1 → (k, v) ∈ l → Dict.get k (Dict.update d l) = Some v.
Proof.
  revert d. induction l as [|[k0 v0] l IH]; intros d Hnd Hin.
  { by apply elem_of_nil in Hin. }
  rewrite fmap_cons in Hnd. apply NoDup_cons in Hnd as [Hk0 Hnd].
  rewrite update_cons. apply elem_of_cons in Hin as [[= -> ->]|Hin].
  - rewrite get_update_notin by done. apply get_set_eq.
  - by apply IH.
Qed.

Lemma keys_set d k v :
  (Dict.set k v d).*1 = if Dict.has k d then d.*1 else d.*1 ++ [k].
Proof.
  unfold Dict.has. induction d as [|[k0 v0] d IH]; [done|]. simpl.
  destruct (String.eqb k k0) eqn:Hk.
  - apply String.eqb_eq in Hk as ->. done.
  - rewrite fmap_cons, IH. by destruct (Dict.get k d).
Qed.

Lemma has_false_notin d k : Dict.has k d = false → k ∉ d.*1.
Proof.
  intros Hk [[k' v] [-> Hin]]%list_elem_of_fmap.
  apply has_elem_of in Hin. simpl in Hk. congruence.
Qed.

Lemma NoDup_set d k v : NoDup d.*1 → NoDup (Dict.set k v d).*1.
Proof.
  intros Hnd. rewrite keys_set. destruct (Dict.has k d) eqn:Hk; [done|].
  apply NoDup_app. split; [done|]. split; [|apply NoDup_singleton].
  intros x Hx ->%list_elem_of_singleton. by apply has_false_notin in Hk.
Qed.

Lemma NoDup_update d l : NoDup d.*1 → NoDup (Dict.update d l).*1.
Proof.
  revert d. induction l as [|kv l IH]; intros d Hnd; [done|].
  rewrite update_cons. by apply IH, NoDup_set.
Qed.

Lemma Forall_set (P : string * V → Prop) d k v :
  Forall P d → P (k, v) → Forall P (Dict.set k v d).
Proof.
  intros Hd Hkv. induction Hd as [|[k0 v0] d H0 Hd IH]; simpl.
  - by constructor.
  - destruct (String.eqb k k0); by constructor.
Qed.

Lemma Forall_update (P : string * V → Prop) d l :
  Forall P d → Forall P l → Forall P (Dict.update d l).
Proof.
  revert d. induction l as [|[k v] l IH]; intros d Hd Hl; [done|].
  apply Forall_cons in Hl as [Hkv Hl].
  rewrite update_cons. apply IH; [|done]. by apply Forall_set.
Qed.

End update.

(** ** The dictionary of the serializer *)

Lemma generation_params_inv (E : Env) (self : ParserState)
    (metadata : list entry) (params : dict pyval) :
  A1111Serializer.generation_params E self metadata = Ok params →
  ∃ resolution width height performance sampler seed guidance_scale
    sharpness adm_guidance base_model model_stem version,
    Dict.get "resolution" (dict_of_entries metadata) = Some resolution
    ∧ eval_pair E resolution = Ok (width, height)
    ∧ Dict.get "performance" (dict_of_entries metadata) = Some performance
    ∧ Dict.get "sampler" (dict_of_entries metadata) = Some sampler
    ∧ Dict.get "seed" (dict_of_entries metadata) = Some seed
    ∧ Dict.get "guidance_scale" (dict_of_entries metadata) = Some guidance_scale
    ∧ Dict.get "sharpness" (dict_of_entries metadata) = Some sharpness
    ∧ Dict.get "adm_guidance" (dict_of_entries metadata) = Some adm_guidance
    ∧ Dict.get "base_model" (dict_of_entries metadata) = Some base_model
    ∧ stem_of base_model = Ok model_stem
    ∧ Dict.get "version" (dict_of_entries metadata) = Some version
    ∧ params = params_of E self (dict_of_entries metadata) performance sampler
                 seed guidance_scale sharpness adm_guidance width height
                 model_stem version.
Proof.
  unfold A1111Serializer.generation_params.
  set (data := dict_of_entries metadata).
  destruct (getitem_cases "resolution" data) as [(res & -> & Hres)|[-> ?]];
    cbn; [|done].
  destruct (eval_pair E res) as [[width height]|e] eqn:Heval; cbn; [|done].
  destruct (getitem_cases "performance" data) as [(v1 & -> & H1)|[-> ?]];
    cbn; [|done].
  destruct (getitem_cases "sampler" data) as [(v2 & -> & H2)|[-> ?]];
    cbn; [|done].
  destruct (getitem_cases "seed" data) as [(v3 & -> & H3)|[-> ?]];
    cbn; [|done].
  destruct (getitem_cases "guidance_scale" data) as [(v4 & -> & H4)|[-> ?]];
    cbn; [|done].
  destruct (getitem_cases "sharpness" data) as [(v5 & -> & H5)|[-> ?]];
    cbn; [|done].
  destruct (getitem_cases "adm_guidance" data) as [(v6 & -> & H6)|[-> ?]];
    cbn; [|done].
  destruct (getitem_cases "base_model" data) as [(v7 & -> & H7)|[-> ?]];
    cbn; [|done].
  destruct (stem_of v7) as [model_stem|e] eqn:Hstem; cbn; [|done].
  destruct (getitem_cases "version" data) as [(v8 & -> & H8)|[-> ?]];
    cbn; [|done].
  intros [= <-].
  exists res, width, height, v1, v2, v3, v4, v5, v6, v7, model_stem, v8.
  by repeat (split; [done|]).
Qed.

(** ** The labels of the serializer and the table *)

Lemma used_labels_facts :
  Forall (λ k, good_label k = true
               ∧ one_line k = true
               ∧ A1111Parser.key_of_label A1111Parser.fooocus_to_a1111 k
                 = Ok (key_of k)
               ∧ String.leb k "Version" = true
               ∧ key_of k ≠ "prompt" ∧ key_of k ≠ "negative_prompt"
               ∧ key_of k ≠ "styles"
               ∧ Py.startswith "lora_combined_" (key_of k) = false
               ∧ A1111Parser.label (key_of k) = k)
         used_labels.
Proof. repeat constructor; by vm_compute. Qed.

Lemma key_of_inj (k1 k2 : string) :
  k1 ∈ used_labels → k2 ∈ used_labels → key_of k1 = key_of k2 → k1 = k2.
Proof.
  intros H1 H2 Hk.
  pose proof used_labels_facts as Hf. rewrite Forall_forall in Hf.
  destruct (Hf _ H1) as (_ & _ & _ & _ & _ & _ & _ & _ & <-).
  destruct (Hf _ H2) as (_ & _ & _ & _ & _ & _ & _ & _ & <-).
  by rewrite Hk.
Qed.

Lemma used_label_fact (k : string) :
  k ∈ used_labels →
  good_label k = true
  ∧ one_line k = true
  ∧ A1111Parser.key_of_label A1111Parser.fooocus_to_a1111 k = Ok (key_of k)
  ∧ String.leb k "Version" = true
  ∧ key_of k ≠ "prompt" ∧ key_of k ≠ "negative_prompt" ∧ key_of k ≠ "styles"
  ∧ Py.startswith "lora_combined_" (key_of k) = false
  ∧ A1111Parser.label (key_of k) = k.
Proof.
  pose proof used_labels_facts as Hf. rewrite Forall_forall in Hf. apply Hf.
Qed.

Lemma Forall_add_optional (P : string * pyval → Prop) (data d : dict pyval) :
  Forall P d →
  (∀ key v, key ∈ A1111Serializer.optional_keys →
            Dict.get key data = Some v → P (A1111Parser.label key, v)) →
  Forall P (A1111Serializer.add_optional data d).
Proof.
  unfold A1111Serializer.add_optional.
  generalize A1111Serializer.optional_keys as keys. intros keys. revert d.
  induction keys as [|key keys IH]; intros d Hd Hkeys; [done|].
  cbn [fold_left]. apply IH.
  - destruct (Dict.get key data) as [v|] eqn:Hv; [|done].
    apply Forall_set; [done|]. apply Hkeys; [by left|done].
  - intros key' v Hin. apply Hkeys. by right.
Qed.

Lemma NoDup_add_optional (data d : dict pyval) :
  NoDup d.*1 → NoDup (A1111Serializer.add_optional data d).*1.
Proof.
  unfold A1111Serializer.add_optional.
  generalize A1111Serializer.optional_keys as keys. intros keys. revert d.
  induction keys as [|key keys IH]; intros d Hd; [done|].
  cbn [fold_left]. apply IH. destruct (Dict.get key data); [|done].
  by apply NoDup_set.
Qed.

Section params_of.
Context (E : Env) (self : ParserState) (data : dict pyval).
Context (performance sampler seed guidance_scale sharpness adm_guidance : pyval).
Context (width height model_stem : string) (version : pyval).

Let params : dict pyval :=
  params_of E self data performance sampler seed guidance_scale sharpness
            adm_guidance width height model_stem version.

Lemma params_labels : Forall (λ kv, kv.1 ∈ used_labels) params.
Proof.
  unfold params, params_of, A1111Serializer.add_created_by.
  assert (∀ k : string, bool_decide (k ∈ used_labels) = true → k ∈ used_labels)
    as Hdec by (intros k; apply bool_decide_eq_true_1).
  assert (Forall (λ kv : string * pyval, kv.1 ∈ used_labels)
            (Dict.update
               (A1111Serializer.add_optional data
                  (A1111Serializer.add_refiner self
                     (A1111Serializer.base_params self performance sampler seed
                        guidance_scale sharpness adm_guidance width height
                        model_stem)))
               [(A1111Parser.label "lora_hashes",
                 PyStr (A1111Serializer.lora_hashes_string self));
                (A1111Parser.label "version", version)])) as Hall.
  { apply Forall_update; [|repeat constructor; by apply Hdec].
    apply Forall_add_optional.
    - unfold A1111Serializer.add_refiner.
      destruct (negb _);
        [apply Forall_update; [|repeat constructor; by apply Hdec]|];
        (apply Forall_update; [constructor|repeat constructor; by apply Hdec]).
    - intros key v Hkey _. cbn [fst]. apply Hdec.
      unfold A1111Serializer.optional_keys in Hkey.
      repeat (apply elem_of_cons in Hkey as [->|Hkey]; [done|]).
      by apply elem_of_nil in Hkey. }
  destruct (negb _); [|done]. apply Forall_set; [done|]. by apply Hdec.
Qed.

Lemma params_NoDup : NoDup params.*1.
Proof.
  unfold params, params_of, A1111Serializer.add_created_by.
  assert (NoDup (Dict.update
               (A1111Serializer.add_optional data
                  (A1111Serializer.add_refiner self
                     (A1111Serializer.base_params self performance sampler seed
                        guidance_scale sharpness adm_guidance width height
                        model_stem)))
               [(A1111Parser.label "lora_hashes",
                 PyStr (A1111Serializer.lora_hashes_string self));
                (A1111Parser.label "version", version)]).*1) as Hnd.
  { apply NoDup_update, NoDup_add_optional.
    unfold A1111Serializer.add_refiner, A1111Serializer.base_params.
    destruct (negb _); repeat apply NoDup_update; constructor. }
  destruct (negb _); [|done]. by apply NoDup_set.
Qed.

End params_of.

(** ** The parameter line of the serializer *)

Lemma param_ok_render (E : Env) (kv : string * pyval) :
  param_ok E kv = true →
  A1111Serializer.render_param E kv.1 kv.2 = render_pair (kv.1, quote E kv.2)
  ∧ A1111Serializer.is_none kv.2 = false.
Proof.
  unfold param_ok, A1111Serializer.render_param.
  destruct kv as [k [|s|z|l|d]]; simpl; try done.
  intros H. repeat (apply andb_true_iff in H as [H _]).
  apply negb_true_iff in H. by rewrite H.
Qed.

Lemma Forall_sorted {V : Type} (P : string * V → Prop) (d : dict V) :
  Forall P d → Forall P (Dict.sorted d).
Proof.
  rewrite !Forall_forall. intros Hd x Hx. apply Hd.
  by rewrite sorted_perm in Hx.
Qed.

Lemma filter_all {X : Type} (f : X → bool) (l : list X) :
  Forall (λ x, f x = true) l → List.filter f l = l.
Proof. induction 1 as [|x l Hx _ IH]; simpl; [done|]. by rewrite Hx, IH. Qed.

Lemma forallb_Forall {X : Type} (f : X → bool) (l : list X) :
  forallb f l = true → Forall (λ x, f x = true) l.
Proof.
  induction l as [|x l IH]; simpl; [done|].
  intros [Hx Hl]%andb_true_iff. constructor; auto.
Qed.

Lemma generation_params_text_rendered (E : Env) (params : dict pyval) :
  forallb (param_ok E) params = true →
  A1111Serializer.generation_params_text E params
  = render_pairs (rendered E params).
Proof.
  intros Hall. apply forallb_Forall, Forall_sorted in Hall.
  unfold A1111Serializer.generation_params_text, render_pairs, rendered.
  rewrite filter_all.
  2:{ eapply Forall_impl; [exact Hall|]. intros kv Hkv.
      apply param_ok_render in Hkv as [_ ->]. done. }
  f_equal. rewrite <- list_fmap_compose. apply Forall_fmap_ext_1.
  eapply Forall_impl; [exact Hall|]. intros kv Hkv.
  by apply param_ok_render in Hkv as [-> _].
Qed.

Lemma get_elem_of {V : Type} (d : dict V) (k : string) (v : V) :
  Dict.get k d = Some v → (k, v) ∈ d.
Proof.
  induction d as [|[k0 v0] d IH]; simpl; [done|].
  destruct (String.eqb k k0) eqn:Hk.
  - apply String.eqb_eq in Hk as ->. intros [= ->]. by left.
  - intros H. right. by apply IH.
Qed.

Lemma get_add_created_by (E : Env) (d : dict pyval) (k : string) :
  k ≠ "User" →
  Dict.get k (A1111Serializer.add_created_by E d) = Dict.get k d.
Proof.
  intros Hk. unfold A1111Serializer.add_created_by.
  destruct (negb _); [|done]. by apply get_set_ne.
Qed.

Lemma get_add_refiner (self : ParserState) (d : dict pyval) (k : string) :
  k ≠ "Refiner" → k ≠ "Refiner hash" →
  Dict.get k (A1111Serializer.add_refiner self d) = Dict.get k d.
Proof.
  intros Hk1 Hk2. unfold A1111Serializer.add_refiner.
  destruct (negb _); [|done].
  rewrite get_update_notin; [done|].
  cbn. rewrite !not_elem_of_cons. split; [done|]. split; [done|].
  apply not_elem_of_nil.
Qed.

Section add_optional.
Context (data : dict pyval).

Let step (params : dict pyval) (key : string) : dict pyval :=
  match Dict.get key data with
  | Some v => Dict.set (A1111Parser.label key) v params
  | None => params
  end.

Lemma get_fold_optional_other (keys : list string) (d : dict pyval) (k : string) :
  k ∉ A1111Parser.label <$> keys →
  Dict.get k (fold_left step keys d) = Dict.get k d.
Proof.
  revert d. induction keys as [|key keys IH]; intros d Hk; [done|].
  rewrite fmap_cons in Hk. apply not_elem_of_cons in Hk as [Hne Hk].
  cbn [fold_left]. rewrite IH by done. unfold step.
  destruct (Dict.get key data); [|done]. by apply get_set_ne.
Qed.

Lemma get_fold_optional_key (keys : list string) (d : dict pyval) (key : string) :
  NoDup (A1111Parser.label <$> keys) → key ∈ keys →
  Dict.get (A1111Parser.label key) (fold_left step keys d)
  = match Dict.get key data with
    | Some v => Some v
    | None => Dict.get (A1111Parser.label key) d
    end.
Proof.
  revert d. induction keys as [|key0 keys IH]; intros d Hnd Hin.
  { by apply elem_of_nil in Hin. }
  rewrite fmap_cons in Hnd. apply NoDup_cons in Hnd as [Hk0 Hnd].
  cbn [fold_left]. apply elem_of_cons in Hin as [->|Hin].
  - rewrite get_fold_optional_other by done. unfold step.
    destruct (Dict.get key0 data); [|done]. apply get_set_eq.
  - rewrite IH by done. destruct (Dict.get key data) eqn:Hkey; [done|].
    unfold step. destruct (Dict.get key0 data); [|done].
    apply get_set_ne. intros Heq. apply Hk0. rewrite Heq.
    apply list_elem_of_fmap. by exists key.
Qed.

Lemma get_add_optional_other (d : dict pyval) (k : string) :
  k ∉ A1111Parser.label <$> A1111Serializer.optional_keys →
  Dict.get k (A1111Serializer.add_optional data d) = Dict.get k d.
Proof. apply get_fold_optional_other. Qed.

Lemma get_add_optional_key (d : dict pyval) (key : string) :
  key ∈ A1111Serializer.optional_keys →
  Dict.get (A1111Parser.label key) (A1111Serializer.add_optional data d)
  = match Dict.get key data with
    | Some v => Some v
    | None => Dict.get (A1111Parser.label key) d
    end.
Proof.
  apply get_fold_optional_key.
  apply (bool_decide_unpack _). by vm_compute.
Qed.

End add_optional.

Ltac not_in_list :=
  cbn; rewrite ?not_elem_of_cons;
  repeat (split; [discriminate|]); apply not_elem_of_nil.

Section params_get.
Context (E : Env) (self : ParserState) (data : dict pyval).
Context (performance sampler seed guidance_scale sharpness adm_guidance : pyval).
Context (width height model_stem : string) (version : pyval).

Let params : dict pyval :=
  params_of E self data performance sampler seed guidance_scale sharpness
            adm_guidance width height model_stem version.

(** The entries of the dictionary that come from the always-present part *)
Lemma params_get_base (k : string) :
  k ∉ ["User"; "Lora hashes"; "Version"; "Refiner"; "Refiner hash"] →
  k ∉ A1111Parser.label <$> A1111Serializer.optional_keys →
  Dict.get k params
  = Dict.get k (A1111Serializer.base_params self performance sampler seed
                  guidance_scale sharpness adm_guidance width height model_stem).
Proof.
  rewrite !not_elem_of_cons. intros (H1 & H2 & H3 & H4 & H5 & _) Hopt.
  unfold params, params_of.
  rewrite get_add_created_by by done.
  rewrite get_update_notin.
  2:{ cbn. rewrite !not_elem_of_cons. split; [done|]. split; [done|].
      apply not_elem_of_nil. }
  rewrite get_add_optional_other by done.
  by rewrite get_add_refiner.
Qed.

Lemma params_get_version : Dict.get "Version" params = Some version.
Proof.
  unfold params, params_of. rewrite get_add_created_by by done.
  cbn [Dict.update fold_left fst snd].
  change (A1111Parser.label "version") with "Version". apply get_set_eq.
Qed.

Lemma params_get_lora_hashes :
  Dict.get "Lora hashes" params
  = Some (PyStr (A1111Serializer.lora_hashes_string self)).
Proof.
  unfold params, params_of. rewrite get_add_created_by by done.
  cbn [Dict.update fold_left fst snd].
  change (A1111Parser.label "version") with "Version".
  change (A1111Parser.label "lora_hashes") with "Lora hashes".
  rewrite get_set_ne by done. apply get_set_eq.
Qed.

Lemma params_get_optional (key : string) :
  key ∈ A1111Serializer.optional_keys →
  Dict.get (A1111Parser.label key) params = Dict.get key data.
Proof.
  intros Hkey. unfold params, params_of.
  assert ((A1111Parser.label key ∉ ["User"; "Lora hashes"; "Version";
                                    "Refiner"; "Refiner hash"])
          ∧ (Dict.get (A1111Parser.label key)
               (A1111Serializer.base_params self performance sampler seed
                  guidance_scale sharpness adm_guidance width height model_stem)
             = None)) as [Hk Hbase].
  { unfold A1111Serializer.optional_keys in Hkey.
    repeat (apply elem_of_cons in Hkey as [->|Hkey];
            [split; [not_in_list|done]|]).
    by apply elem_of_nil in Hkey. }
  rewrite !not_elem_of_cons in Hk. destruct Hk as (H1 & H2 & H3 & H4 & H5 & _).
  rewrite get_add_created_by by done.
  rewrite get_update_notin.
  2:{ cbn. rewrite !not_elem_of_cons. split; [done|]. split; [done|].
      apply not_elem_of_nil. }
  rewrite get_add_optional_key by done.
  destruct (Dict.get key data); [done|].
  by rewrite get_add_refiner.
Qed.

End params_get.

(** ** The shape of a parameter line *)

Lemma render_pairs_snoc (ps : list (string * string)) (lq : string * string) :
  ∃ front, render_pairs (ps ++ [lq]) = front +:+ lq.2.
Proof.
  induction ps as [|lq0 ps [front IH]].
  - exists (lq.1 +:+ ": "). unfold render_pairs, render_pair. cbn.
    by rewrite sapp_assoc.
  - exists (render_pair lq0 +:+ ", " +:+ front).
    rewrite <- app_comm_cons, render_pairs_cons by (by destruct ps).
    by rewrite IH, !sapp_assoc.
Qed.

Lemma one_line_render_pairs (ps : list (string * string)) :
  Forall (λ lq, one_line lq.1 = true ∧ one_line lq.2 = true) ps →
  one_line (render_pairs ps) = true.
Proof.
  induction 1 as [|lq ps [H1 H2] Hps IH]; [done|].
  assert (one_line (render_pair lq) = true) as Hlq.
  { unfold render_pair, one_line in *. by rewrite !all_app, H1, H2. }
  destruct ps as [|lq' ps]; [by rewrite <- Hlq|].
  rewrite render_pairs_cons by done. unfold one_line in *.
  by rewrite !all_app, Hlq, IH.
Qed.

Lemma good_label_head (k rest : string) :
  good_label k = true → head_fails Py.is_space (k +:+ rest) = true.
Proof.
  destruct k as [|c0 [|c1 k]]; try done.
  intros [[Hc0 _]%andb_true_iff _]%andb_true_iff.
  rewrite sapp_cons. simpl. by rewrite word_not_space.
Qed.

Lemma render_pairs_head (lq : string * string) (ps : list (string * string)) :
  good_label lq.1 = true →
  head_fails Py.is_space (render_pairs (lq :: ps)) = true.
Proof.
  intros Hl. destruct ps as [|lq' ps].
  - unfold render_pairs, render_pair. cbn. by apply good_label_head.
  - rewrite render_pairs_cons by done. unfold render_pair.
    rewrite sapp_assoc. by apply good_label_head.
Qed.

Lemma render_pairs_last (ps : list (string * string)) (lq : string * string) :
  lq.2 ≠ "" → last_not_space lq.2 = true →
  last_not_space (render_pairs (ps ++ [lq])) = true.
Proof.
  intros Hne Hl. destruct (render_pairs_snoc ps lq) as [front ->].
  unfold last_not_space in *. by rewrite last_char_app.
Qed.

(** The entry with the greatest key is the last of a sorted dictionary. *)
Lemma sorted_last {V : Type} (l : list (string * V)) (k : string) (v : V) :
  StronglySorted label_le l → NoDup l.*1 → (k, v) ∈ l →
  Forall (λ x, String.leb x.1 k = true) l →
  ∃ l', l = l' ++ [(k, v)].
Proof.
  intros Hs Hnd Hin Hle.
  destruct l as [|x0 l0] using rev_ind; [by apply elem_of_nil in Hin|].
  clear IHl0. apply elem_of_app in Hin as [Hin|Hin].
  - exfalso.
    assert (label_le (k, v) x0) as Hkx.
    { eapply StronglySorted_app_1_elem_of; [exact Hs|done|by left]. }
    apply Forall_app in Hle as [_ [Hx0 _]%Forall_cons].
    assert (x0.1 = k) as Hk.
    { apply String.leb_antisym; [done|]. unfold label_le, String.le in Hkx.
      by apply Is_true_true. }
    rewrite fmap_app in Hnd. apply NoDup_app in Hnd as (_ & Hdis & _).
    apply (Hdis k); [|rewrite <- Hk; by left].
    apply list_elem_of_fmap. by exists (k, v).
  - apply list_elem_of_singleton in Hin as <-. by exists l0.
Qed.

(** ** The round trip through the A1111 codec *)

Lemma length_set {V : Type} (d : dict V) (k : string) (v : V) :
  length d ≤ length (Dict.set k v d).
Proof.
  induction d as [|[k0 v0] d IH]; simpl; [lia|].
  destruct (String.eqb k k0); simpl; lia.
Qed.

Lemma length_update {V : Type} (d : dict V) (l : list (string * V)) :
  length d ≤ length (Dict.update d l).
Proof.
  revert d. induction l as [|kv l IH]; intros d; [done|].
  rewrite update_cons. etrans; [apply (length_set d kv.1 kv.2)|apply IH].
Qed.

Lemma length_add_optional (data d : dict pyval) :
  length d ≤ length (A1111Serializer.add_optional data d).
Proof.
  unfold A1111Serializer.add_optional.
  generalize A1111Serializer.optional_keys as keys. intros keys. revert d.
  induction keys as [|key keys IH]; intros d; [done|].
  cbn [fold_left]. etrans; [|apply IH].
  destruct (Dict.get key data); [apply length_set|done].
Qed.

Lemma length_params_of (E : Env) (self : ParserState) (data : dict pyval)
    (performance sampler seed guidance_scale sharpness adm_guidance : pyval)
    (width height model_stem : string) (version : pyval) :
  3 ≤ length (params_of E self data performance sampler seed guidance_scale
                sharpness adm_guidance width height model_stem version).
Proof.
  unfold params_of, A1111Serializer.add_created_by.
  assert (3 ≤ length (A1111Serializer.base_params self performance sampler seed
                        guidance_scale sharpness adm_guidance width height
                        model_stem)) as Hbase by (vm_compute; lia).
  assert (3 ≤ length (A1111Serializer.add_refiner self
                        (A1111Serializer.base_params self performance sampler
                           seed guidance_scale sharpness adm_guidance width
                           height model_stem))) as Href.
  { unfold A1111Serializer.add_refiner. destruct (negb _); [|done].
    etrans; [exact Hbase|apply length_update]. }
  assert (∀ d : dict pyval, 3 ≤ length d →
            3 ≤ length (Dict.update d
                          [(A1111Parser.label "lora_hashes",
                            PyStr (A1111Serializer.lora_hashes_string self));
                           (A1111Parser.label "version", version)])) as Hup.
  { intros d Hd. etrans; [exact Hd|apply length_update]. }
  destruct (negb _).
  - etrans; [|apply length_set]. apply Hup.
    etrans; [exact Href|apply length_add_optional].
  - apply Hup. etrans; [exact Href|apply length_add_optional].
Qed.


Lemma param_ok_inv (E : Env) (kv : string * pyval) :
  param_ok E kv = true →
  ∃ s, value_text kv.2 = Some s
       ∧ kv.1 ≠ s
       ∧ token (quote E kv.2) = true
       ∧ one_line (quote E kv.2) = true
       ∧ last_not_space (quote E kv.2) = true
       ∧ quote E (PyStr s) = quote E kv.2
       ∧ (s = "" → quote E kv.2 = "" ∧ kv.1 ∈ state_labels)
       ∧ (s ≠ "" → quote E kv.2 ≠ "" ∧ dequote E (quote E kv.2) = s)
       ∧ (kv.1 = "Size" ∨ match_imagesize s = None).
Proof.
  unfold param_ok. destruct (value_text kv.2) as [s|]; [|done].
  intros H. exists s. split; [done|].
  apply andb_true_iff in H as [H Hsize].
  apply andb_true_iff in H as [H Hcase].
  apply andb_true_iff in H as [H Hquote].
  apply andb_true_iff in H as [H Hlast].
  apply andb_true_iff in H as [H Hone].
  apply andb_true_iff in H as [Hne Htok].
  apply negb_true_iff, String.eqb_neq in Hne. apply String.eqb_eq in Hquote.
  repeat (split; [done|]). split; [|split].
  - intros ->. simpl in Hcase. apply andb_true_iff in Hcase as [Hq Hin].
    apply String.eqb_eq in Hq. by apply bool_decide_eq_true_1 in Hin.
  - intros Hs. apply String.eqb_neq in Hs. rewrite Hs in Hcase.
    apply andb_true_iff in Hcase as [Hq Hd].
    apply negb_true_iff, String.eqb_neq in Hq. by apply String.eqb_eq in Hd.
  - apply orb_true_iff in Hsize as [Hk|Hm].
    + left. by apply String.eqb_eq.
    + right. by destruct (match_imagesize s).
Qed.

(** What makes a dictionary of the serializer one whose line is read
    back. *)
Lemma line_facts (E : Env) (params : dict pyval) (version : pyval) :
  forallb (param_ok E) params = true →
  Forall (λ kv, kv.1 ∈ used_labels) params →
  NoDup params.*1 →
  Dict.get "Version" params = Some version →
  3 ≤ length params →
  findall_params (render_pairs (rendered E params)) = rendered E params
  ∧ 3 ≤ length (rendered E params)
  ∧ one_line (render_pairs (rendered E params)) = true
  ∧ stripped (render_pairs (rendered E params)) = true
  ∧ render_pairs (rendered E params) ≠ "".
Proof.
  intros Hok Hlab Hnd Hver Hlen.
  apply forallb_Forall in Hok.
  pose proof (Forall_sorted _ _ Hok) as Hok'.
  pose proof (Forall_sorted _ _ Hlab) as Hlab'.
  assert (length (rendered E params) = length params) as Hlen'.
  { unfold rendered. rewrite length_fmap. by rewrite sorted_perm. }
  assert (rendered E params ≠ []) as Hne.
  { intros Heq. rewrite Heq in Hlen'. simpl in Hlen'. lia. }
  assert (forallb readable (rendered E params) = true) as Hread.
  { unfold rendered. apply forallb_forall. intros lq Hin.
    apply in_map_iff in Hin as (kv & <- & Hin). apply list_elem_of_In in Hin.
    rewrite Forall_forall in Hok', Hlab'.
    specialize (Hok' _ Hin). specialize (Hlab' _ Hin).
    apply used_label_fact in Hlab' as (Hgood & _).
    unfold readable. cbn [fst snd]. rewrite Hgood. cbn [andb].
    by apply param_ok_inv in Hok' as (s & _ & _ & ? & _). }
  assert (one_line (render_pairs (rendered E params)) = true) as Hone.
  { apply one_line_render_pairs. unfold rendered. apply Forall_fmap.
    rewrite Forall_forall in Hok', Hlab' |- *. intros kv Hin.
    specialize (Hok' _ Hin). specialize (Hlab' _ Hin).
    apply used_label_fact in Hlab' as (_ & Hone & _).
    split; [done|]. cbn [snd].
    by apply param_ok_inv in Hok' as (s & _ & _ & _ & ? & _). }
  assert (stripped (render_pairs (rendered E params)) = true) as Hstr.
  { unfold stripped. apply andb_true_iff. split.
    - destruct (rendered E params) as [|lq ps] eqn:Hr; [done|].
      apply render_pairs_head.
      apply forallb_Forall in Hread. apply Forall_cons in Hread as [Hlq _].
      by apply andb_true_iff in Hlq as [? _].
    - destruct (sorted_last (Dict.sorted params) "Version" version)
        as [front Hfront].
      + apply sorted_sorted.
      + by rewrite sorted_perm.
      + rewrite sorted_perm. by apply get_elem_of.
      + eapply Forall_impl; [exact Hlab'|]. intros kv Hkv.
        by apply used_label_fact in Hkv as (_ & _ & _ & ? & _).
      + unfold rendered. rewrite Hfront, fmap_app. cbn [fmap list_fmap].
        assert (param_ok E ("Version", version) = true) as Hv.
        { rewrite Forall_forall in Hok'. apply Hok'. rewrite Hfront.
          apply elem_of_app. right. by left. }
        apply param_ok_inv in Hv
          as (s & _ & _ & _ & _ & Hlast & _ & Hempty & Hfull & _).
        cbn [fst snd] in *.
        apply render_pairs_last; cbn [snd]; [|done].
        destruct (decide (s = "")) as [Hs|Hs]; [|by apply Hfull].
        apply Hempty in Hs as [_ Hin]. exfalso. revert Hin.
        apply (bool_decide_eq_false_1 _). by vm_compute. }
  split; [by apply findall_params_render|]. split; [lia|].
  split; [done|]. split; [done|].
  destruct (rendered E params) as [|lq ps] eqn:Hr; [done|].
  apply forallb_Forall in Hread. apply Forall_cons in Hread as [Hlq _].
  apply andb_true_iff in Hlq as [Hlq _].
  destruct ps; unfold render_pairs, render_pair; cbn;
    destruct lq as [[|? ?] ?]; done.
Qed.

Lemma NoDup_omap_keys {X Y : Type} (f : string * X → option (string * Y))
    (g : string → string) (l : list (string * X)) :
  NoDup l.*1 →
  (∀ x e, x ∈ l → f x = Some e → e.1 = g x.1) →
  (∀ a b, a ∈ l.*1 → b ∈ l.*1 → g a = g b → a = b) →
  NoDup (omap f l).*1.
Proof.
  induction l as [|x l IH]; intros Hnd Hkey Hinj; [constructor|].
  rewrite fmap_cons in Hnd. apply NoDup_cons in Hnd as [Hx Hnd].
  assert (NoDup (omap f l).*1) as IH'.
  { apply IH; [done| |].
    - intros y e Hy. apply Hkey. by right.
    - intros a b Ha Hb. apply Hinj; rewrite fmap_cons; by right. }
  cbn [omap list_omap]. destruct (f x) as [e|] eqn:Hfx; [|done].
  rewrite fmap_cons. apply NoDup_cons. split; [|done].
  intros [e' [He' Hin]]%list_elem_of_fmap.
  apply list_elem_of_omap in Hin as (y & Hy & Hfy).
  apply Hx. assert (x.1 = y.1) as ->.
  { apply Hinj.
    - rewrite fmap_cons. by left.
    - rewrite fmap_cons. right. apply list_elem_of_fmap. by exists y.
    - rewrite <- (Hkey x e), <- (Hkey y e'); [done|by right|done|by left|done]. }
  apply list_elem_of_fmap. by exists y.
Qed.

Section stored.
Context (E : Env) (params : dict pyval) (init : dict string).
Hypothesis Hok : Forall (λ kv, param_ok E kv = true) params.
Hypothesis Hlab : Forall (λ kv, kv.1 ∈ used_labels) params.
Hypothesis Hnd : NoDup params.*1.

Lemma rendered_elem_of (kv : string * pyval) :
  kv ∈ params → (kv.1, quote E kv.2) ∈ rendered E params.
Proof.
  intros Hin. unfold rendered. apply list_elem_of_fmap.
  exists kv. split; [done|]. by rewrite sorted_perm.
Qed.

Lemma rendered_keys : (rendered E params).*1 ≡ₚ params.*1.
Proof.
  unfold rendered. rewrite <- list_fmap_compose.
  by rewrite <- (sorted_perm params) at 2.
Qed.

Lemma rendered_inv (lq : string * string) :
  lq ∈ rendered E params → ∃ kv, kv ∈ params ∧ lq = (kv.1, quote E kv.2).
Proof.
  unfold rendered. intros (kv & -> & Hin)%list_elem_of_fmap.
  exists kv. by rewrite sorted_perm in Hin.
Qed.

(** The entry that a parameter of the dictionary adds to the data *)
Lemma param_entry_ok (kv : string * pyval) :
  kv ∈ params →
  ∃ s, value_text kv.2 = Some s
       ∧ param_entry E (kv.1, quote E kv.2)
         = if String.eqb s "" then None
           else match match_imagesize s with
                | Some (w, h) => Some (key_of kv.1, str_pair w h)
                | None => Some (key_of kv.1, s)
                end.
Proof.
  intros Hin. rewrite Forall_forall in Hok, Hlab.
  destruct (param_ok_inv E kv (Hok _ Hin))
    as (s & Hs & _ & _ & _ & _ & _ & Hempty & Hfull & Hsize).
  destruct (used_label_fact _ (Hlab _ Hin)) as (_ & _ & Hkey & _).
  exists s. split; [done|]. unfold param_entry. cbn [fst snd].
  destruct (String.eqb s "") eqn:Hse.
  - apply String.eqb_eq in Hse as ->.
    destruct Hempty as [-> _]; done.
  - apply String.eqb_neq in Hse. destruct (Hfull Hse) as [Hq ->].
    apply String.eqb_neq in Hq. rewrite Hq, Hkey.
    destruct Hsize as [Hk| ->]; [|done].
    rewrite Hk. by destruct (match_imagesize s) as [[w h]|].
Qed.

Lemma stored_entries_NoDup : NoDup (omap (param_entry E) (rendered E params)).*1.
Proof.
  apply (NoDup_omap_keys _ key_of).
  - by rewrite rendered_keys.
  - intros lq e (kv & Hin & ->)%rendered_inv.
    destruct (param_entry_ok kv Hin) as (s & _ & ->). cbn [fst].
    destruct (String.eqb s ""); [done|].
    by destruct (match_imagesize s) as [[w h]|]; intros [= <-].
  - intros a b Ha Hb. rewrite rendered_keys in Ha, Hb.
    rewrite Forall_forall in Hlab.
    apply list_elem_of_fmap in Ha as (kva & -> & Ha).
    apply list_elem_of_fmap in Hb as (kvb & -> & Hb).
    apply key_of_inj; by apply Hlab.
Qed.

(** A parameter with a text that is not empty and no size is read back
    under its key. *)
Lemma stored_get (k : string) (v : pyval) (s : string) :
  (k, v) ∈ params → value_text v = Some s → s ≠ "" →
  match_imagesize s = None →
  Dict.get (key_of k) (stored E params init) = Some s.
Proof.
  intros Hin Hs Hne Hm. unfold stored.
  apply get_update_in; [apply stored_entries_NoDup|].
  apply list_elem_of_omap. exists (k, quote E v).
  split; [by apply (rendered_elem_of (k, v))|].
  destruct (param_entry_ok (k, v) Hin) as (s' & Hs' & Hentry).
  cbn [fst snd] in *. rewrite Hentry. rewrite Hs in Hs'. injection Hs' as <-.
  apply String.eqb_neq in Hne. by rewrite Hne, Hm.
Qed.

(** A parameter whose text is a size is read back as a resolution. *)
Lemma stored_get_size (k : string) (v : pyval) (s w h : string) :
  (k, v) ∈ params → value_text v = Some s →
  match_imagesize s = Some (w, h) →
  Dict.get (key_of k) (stored E params init) = Some (str_pair w h).
Proof.
  intros Hin Hs Hm. unfold stored.
  apply get_update_in; [apply stored_entries_NoDup|].
  apply list_elem_of_omap. exists (k, quote E v).
  split; [by apply (rendered_elem_of (k, v))|].
  destruct (param_entry_ok (k, v) Hin) as (s' & Hs' & Hentry).
  cbn [fst snd] in *. rewrite Hentry. rewrite Hs in Hs'. injection Hs' as <-.
  rewrite Hm. destruct (String.eqb s "") eqn:Hse; [|done].
  apply String.eqb_eq in Hse as ->. by vm_compute in Hm.
Qed.

(** A key that no parameter with a text is stored under is as it was. *)
Lemma stored_get_other (key : string) :
  (∀ k v, (k, v) ∈ params → key_of k = key → value_text v = Some "") →
  Dict.get key (stored E params init) = Dict.get key init.
Proof.
  intros Hkey. unfold stored. apply get_update_notin.
  intros [e [-> Hin]]%list_elem_of_fmap.
  apply list_elem_of_omap in Hin as (lq & (kv & Hkv & ->)%rendered_inv & Hf).
  destruct (param_entry_ok kv Hkv) as (s & Hs & Hentry).
  rewrite Hentry in Hf.
  destruct (String.eqb s "") eqn:Hse; [done|]. apply String.eqb_neq in Hse.
  assert (key_of kv.1 = e.1) as Hk.
  { by destruct (match_imagesize s) as [[w h]|]; injection Hf as <-. }
  destruct kv as [k v]. specialize (Hkey k v Hkv Hk). cbn [snd] in Hs.
  congruence.
Qed.

Lemma stored_NoDup : NoDup init.*1 → NoDup (stored E params init).*1.
Proof. apply NoDup_update. Qed.

End stored.

(** ** Dictionaries that give the same parameter line *)

Section same_line.
Context (E : Env).
Implicit Types (d l : dict pyval).

Lemma same_line_refl (a : string * pyval) : same_line E a a.
Proof. done. Qed.

Lemma same_line_Forall2_refl d : Forall2 (same_line E) d d.
Proof. induction d; constructor; done. Qed.

Lemma set_same_line d1 d2 (k : string) (v1 v2 : pyval) :
  Forall2 (same_line E) d1 d2 →
  same_line E (k, v1) (k, v2) →
  Forall2 (same_line E) (Dict.set k v1 d1) (Dict.set k v2 d2).
Proof.
  intros Hd Hkv. induction Hd as [|[k1 w1] [k2 w2] d1 d2 H12 Hd IH]; simpl.
  - by constructor.
  - destruct H12 as (Hk & Hr & Hn). simpl in Hk. subst k2.
    destruct (String.eqb k k1); constructor; done.
Qed.

Lemma update_same_line d1 d2 l1 l2 :
  Forall2 (same_line E) d1 d2 →
  Forall2 (same_line E) l1 l2 →
  Forall2 (same_line E) (Dict.update d1 l1) (Dict.update d2 l2).
Proof.
  intros Hd Hl. revert d1 d2 Hd.
  induction Hl as [|[k1 v1] [k2 v2] l1 l2 H12 Hl IH]; intros d1 d2 Hd; [done|].
  rewrite !update_cons. apply IH. cbn [fst snd].
  pose proof H12 as (Hk & _). simpl in Hk. subst k2. by apply set_same_line.
Qed.

Lemma insert_sorted_same_line (a b : string * pyval) l1 l2 :
  same_line E a b →
  Forall2 (same_line E) l1 l2 →
  Forall2 (same_line E) (Dict.insert_sorted a l1) (Dict.insert_sorted b l2).
Proof.
  intros Hab Hl. induction Hl as [|x y l1 l2 Hxy Hl IH]; simpl.
  - by constructor.
  - pose proof Hab as (Hk & _). pose proof Hxy as (Hk' & _).
    rewrite <- Hk, <- Hk'.
    destruct (String.leb a.1 x.1);
      [constructor; [done|by constructor]|by constructor].
Qed.

Lemma sorted_same_line d1 d2 :
  Forall2 (same_line E) d1 d2 →
  Forall2 (same_line E) (Dict.sorted d1) (Dict.sorted d2).
Proof.
  induction 1 as [|x y d1 d2 Hxy Hd IH]; simpl; [done|].
  by apply insert_sorted_same_line.
Qed.

Lemma text_same_line d1 d2 :
  Forall2 (same_line E) d1 d2 →
  A1111Serializer.generation_params_text E d1
  = A1111Serializer.generation_params_text E d2.
Proof.
  intros Hd. apply sorted_same_line in Hd.
  unfold A1111Serializer.generation_params_text. f_equal.
  induction Hd as [|x y l1 l2 (Hk & Hr & Hn) Hl IH]; simpl; [done|].
  rewrite Hn. destruct (negb _); [|done].
  cbn [fmap list_fmap] in *. by rewrite Hr, IH.
Qed.

Lemma add_optional_same_line (data1 data2 : dict pyval) d1 d2 :
  Forall2 (same_line E) d1 d2 →
  (∀ key, key ∈ A1111Serializer.optional_keys →
          match Dict.get key data1, Dict.get key data2 with
          | Some v1, Some v2 =>
              same_line E (A1111Parser.label key, v1) (A1111Parser.label key, v2)
          | None, None => True
          | _, _ => False
          end) →
  Forall2 (same_line E) (A1111Serializer.add_optional data1 d1)
          (A1111Serializer.add_optional data2 d2).
Proof.
  unfold A1111Serializer.add_optional.
  generalize A1111Serializer.optional_keys as keys. intros keys.
  revert d1 d2. induction keys as [|key keys IH]; intros d1 d2 Hd Hkeys; [done|].
  cbn [fold_left]. apply IH.
  - specialize (Hkeys key (list_elem_of_here _ _)).
    destruct (Dict.get key data1), (Dict.get key data2); try done.
    by apply set_same_line.
  - intros key' Hin. apply Hkeys. by right.
Qed.

End same_line.

(** ** The later stages of the parser, and the way back to the serializer *)

Lemma list_remove_ok (x : string) (l : list string) :
  x ∈ l → ∃ l', A1111Parser.list_remove x l = Ok l'.
Proof.
  induction l as [|y l IH]; [by intros ?%elem_of_nil|].
  intros Hin. simpl. destruct (String.eqb y x) eqn:Hy; [by eexists|].
  apply String.eqb_neq in Hy. apply elem_of_cons in Hin as [->|Hin]; [done|].
  destruct (IH Hin) as [l' ->]. by eexists.
Qed.

Lemma resolve_loras_ok (filenames entries : list string) (li : nat)
    (data : dict string) :
  Forall (λ x, ∃ a b c, Py.split ": " x = [a; b; c]) entries →
  NoDup data.*1 →
  ∃ data', A1111Parser.resolve_loras filenames li entries data = Ok data'
           ∧ NoDup data'.*1.
Proof.
  intros Hall. revert li data.
  induction Hall as [|x entries (a & b & c & Hx) _ IH]; intros li data Hnd.
  { by exists data. }
  simpl. rewrite Hx. apply IH.
  destruct (A1111Parser.find_stem a filenames); [|done]. by apply NoDup_set.
Qed.

Lemma get_None_notin {V : Type} (d : dict V) (k : string) :
  Dict.get k d = None → k ∉ d.*1.
Proof. intros Hk. apply has_false_notin. unfold Dict.has. by rewrite Hk. Qed.

Lemma get_dict_of_entries (d : dict string) (k : string) :
  NoDup d.*1 →
  Dict.get k (dict_of_entries (entries_of_data d)) = PyStr <$> Dict.get k d.
Proof.
  intros Hnd. unfold dict_of_entries, entries_of_data.
  rewrite <- list_fmap_compose.
  set (f := λ kv : string * string, (kv.1, PyStr kv.2)).
  assert (((λ e : entry, (e.1.2, e.2)) ∘
           (λ kv : string * string, (kv.1, kv.1, PyStr kv.2))) <$> d
          = f <$> d) as -> by done.
  assert ((f <$> d).*1 = d.*1) as Hkeys.
  { rewrite <- list_fmap_compose. by apply list_fmap_ext. }
  destruct (Dict.get k d) as [v|] eqn:Hk; simpl.
  - apply get_update_in; [by rewrite Hkeys|].
    apply list_elem_of_fmap. exists (k, v). split; [done|].
    by apply get_elem_of.
  - rewrite get_update_notin; [done|]. rewrite Hkeys.
    by apply get_None_notin.
Qed.

Lemma getitem_Some {V : Type} (k : string) (d : dict V) (v : V) :
  Dict.get k d = Some v → Dict.getitem k d = Ok v.
Proof. unfold Dict.getitem. by intros ->. Qed.

Lemma join_nil_inv (sep : string) (l : list string) :
  Forall (λ x, x ≠ "") l → Py.join sep l = "" → l = [].
Proof.
  destruct 1 as [|x l Hx _]; [done|]. unfold Py.join. simpl.
  destruct l; [done|]. by intros [? _]%sapp_eq_nil.
Qed.

(** ** The round trip through the A1111 text *)

(** The dictionary of the serializer, from the values it looks up *)
Lemma generation_params_intro (E : Env) (self : ParserState)
    (metadata : list entry)
    (resolution performance sampler seed guidance_scale sharpness
       adm_guidance base_model version : pyval)
    (width height model_stem : string) :
  Dict.get "resolution" (dict_of_entries metadata) = Some resolution →
  eval_pair E resolution = Ok (width, height) →
  Dict.get "performance" (dict_of_entries metadata) = Some performance →
  Dict.get "sampler" (dict_of_entries metadata) = Some sampler →
  Dict.get "seed" (dict_of_entries metadata) = Some seed →
  Dict.get "guidance_scale" (dict_of_entries metadata) = Some guidance_scale →
  Dict.get "sharpness" (dict_of_entries metadata) = Some sharpness →
  Dict.get "adm_guidance" (dict_of_entries metadata) = Some adm_guidance →
  Dict.get "base_model" (dict_of_entries metadata) = Some base_model →
  stem_of base_model = Ok model_stem →
  Dict.get "version" (dict_of_entries metadata) = Some version →
  A1111Serializer.generation_params E self metadata
  = Ok (params_of E self (dict_of_entries metadata) performance sampler seed
          guidance_scale sharpness adm_guidance width height model_stem version).
Proof.
  intros Hresolution Heval Hperformance Hsampler Hseed Hguidance Hsharpness
         Hadm Hbase_model Hstem Hversion.
  unfold A1111Serializer.generation_params.
  rewrite (getitem_Some _ _ _ Hresolution). cbn. rewrite Heval. cbn.
  rewrite (getitem_Some _ _ _ Hperformance). cbn.
  rewrite (getitem_Some _ _ _ Hsampler). cbn.
  rewrite (getitem_Some _ _ _ Hseed). cbn.
  rewrite (getitem_Some _ _ _ Hguidance). cbn.
  rewrite (getitem_Some _ _ _ Hsharpness). cbn.
  rewrite (getitem_Some _ _ _ Hadm). cbn.
  rewrite (getitem_Some _ _ _ Hbase_model). cbn. rewrite Hstem. cbn.
  by rewrite (getitem_Some _ _ _ Hversion).
Qed.

Lemma str_pos_go_ne (fuel : nat) (n : N) (acc : string) :
  acc ≠ "" → Py.str_pos_go fuel n acc ≠ "".
Proof.
  revert n acc. induction fuel as [|f IH]; intros n acc Hacc; simpl; [done|].
  destruct (n <? 10)%N; [done|]. by apply IH.
Qed.

Lemma str_int_ne (z : Z) : Py.str_int z ≠ "".
Proof.
  unfold Py.str_int. destruct (z <? 0)%Z; [done|]. simpl.
  destruct (_ <? 10)%N; [done|]. by apply str_pos_go_ne.
Qed.

(** The stages of [parse_json], one after the other *)
Lemma parse_json_stages (E : Env) (text : string) (lines : list string)
    (lastline p n p' n' : string) (used : bool) (styles : list string) :
  A1111Parser.split_lines text = (lines, lastline) →
  A1111Parser.split_prompts lines = (p, n, used) →
  extract_styles_from_prompt E p n = (styles, p', n') →
  A1111Parser.parse_json E text
  = A1111Parser.resolve_lora_hashes E
      (A1111Parser.resolve_base_model E
         (A1111Parser.load_performance E
            (A1111Parser.store_params E (findall_params lastline)
               [ ("prompt", p'); ("negative_prompt", n');
                 ("styles", str_list styles) ]))).
Proof.
  intros H1 H2 H3. unfold A1111Parser.parse_json. by rewrite H1, H2, H3.
Qed.

Lemma load_performance_id (E : Env) (data : dict string) :
  Dict.has "performance" data = true →
  A1111Parser.load_performance E data = data.
Proof.
  intros H. unfold A1111Parser.load_performance. rewrite H.
  by destruct (Dict.get "steps" data).
Qed.

Lemma resolve_base_model_facts (E : Env) (data : dict string) (name : string) :
  NoDup data.*1 → Dict.get "base_model" data = Some name →
  NoDup (A1111Parser.resolve_base_model E data).*1
  ∧ Dict.get "base_model" (A1111Parser.resolve_base_model E data)
    = Some (resolved_model E name).
Proof.
  intros Hnd Hget. unfold A1111Parser.resolve_base_model, resolved_model.
  rewrite Hget. destruct (A1111Parser.find_stem name (model_filenames E)); simpl.
  - split; [by apply NoDup_set|by rewrite get_set_eq].
  - done.
Qed.

(** LoRAs that are read back have a summary that is not empty. *)
Lemma loras_ok_inv (E : Env) (self : ParserState) :
  loras self ≠ [] → loras_ok E self = true →
  A1111Serializer.lora_hashes_string self ≠ ""
  ∧ downloading_sdxl_lcm_lora E ∈ lora_filenames E
  ∧ Forall (λ x, ∃ a b c, Py.split ": " x = [a; b; c])
           (Py.split ", " (A1111Serializer.lora_hashes_string self)).
Proof.
  intros Hne Hok. unfold loras_ok in Hok.
  destruct (loras self) as [|l ls] eqn:Hl; [done|].
  apply andb_true_iff in Hok as [Hok Hall].
  apply andb_true_iff in Hok as [Hin Hsplit].
  apply bool_decide_eq_true_1 in Hin. apply bool_decide_eq_true_1 in Hsplit.
  assert (Forall (λ x, ∃ a b c, Py.split ": " x = [a; b; c])
                 (lora_text <$> l :: ls)) as Hthree.
  { apply Forall_fmap, Forall_forall. intros x Hx.
    rewrite forallb_forall in Hall.
    assert (In x (l :: ls)) as Hx' by by apply list_elem_of_In.
    apply Hall, bool_decide_eq_true_1 in Hx'. simpl. eauto. }
  split; [|split; [done|by rewrite Hsplit]].
  intros Hempty. rewrite Hempty in Hsplit.
  assert (Py.split ", " "" = [""]) as Hs by (vm_compute; reflexivity).
  rewrite Hs in Hsplit. rewrite <- Hsplit in Hthree.
  apply Forall_cons in Hthree as [(a & b & c & Habc) _].
  vm_compute in Habc. discriminate.
Qed.

Section round_trip.
Context (E : Env) (self : ParserState) (metadata : list entry).
Context (resolution performance sampler seed guidance_scale sharpness
         adm_guidance base_model version : pyval).
Context (width height model_stem : string).

Local Abbreviation data := (dict_of_entries metadata).
Local Abbreviation params :=
  (params_of E self data performance sampler seed guidance_scale sharpness
             adm_guidance width height model_stem version).
Local Abbreviation positive := (Py.join ", " (full_prompt self)).
Local Abbreviation negative := (Py.join ", " (full_negative_prompt self)).
Local Abbreviation line := (render_pairs (rendered E params)).
Local Abbreviation text := (assembled positive negative line).
Local Abbreviation d0 := (stored E params (initial_data E positive negative)).

Hypothesis Hresolution : Dict.get "resolution" data = Some resolution.
Hypothesis Heval : eval_pair E resolution = Ok (width, height).
Hypothesis Hperformance : Dict.get "performance" data = Some performance.
Hypothesis Hsampler : Dict.get "sampler" data = Some sampler.
Hypothesis Hseed : Dict.get "seed" data = Some seed.
Hypothesis Hguidance : Dict.get "guidance_scale" data = Some guidance_scale.
Hypothesis Hsharpness : Dict.get "sharpness" data = Some sharpness.
Hypothesis Hadm : Dict.get "adm_guidance" data = Some adm_guidance.
Hypothesis Hbase_model : Dict.get "base_model" data = Some base_model.
Hypothesis Hstem : stem_of base_model = Ok model_stem.
Hypothesis Hversion : Dict.get "version" data = Some version.
Hypothesis Hknown : known_inputs E self metadata params = true.

Lemma rt_params : A1111Serializer.generation_params E self metadata = Ok params.
Proof. by apply (generation_params_intro _ _ _ resolution _ _ _ _ _ _ base_model). Qed.

Lemma rt_known :
  forallb (param_ok E) params = true
  ∧ resolution_ok E resolution = true
  ∧ model_ok E base_model = true
  ∧ prompts_ok E self = true
  ∧ loras_ok E self = true.
Proof.
  pose proof Hknown as H. unfold known_inputs in H.
  rewrite Hresolution, Hbase_model in H.
  apply andb_true_iff in H as [H Hloras].
  apply andb_true_iff in H as [H Hprompts].
  apply andb_true_iff in H as [Hok [Hres Hmodel]%andb_true_iff].
  done.
Qed.

Lemma rt_ok : Forall (λ kv, param_ok E kv = true) params.
Proof. apply forallb_Forall, rt_known. Qed.

Lemma rt_labels : Forall (λ kv : string * pyval, kv.1 ∈ used_labels) params.
Proof. apply params_labels. Qed.

Lemma rt_NoDup : NoDup params.*1.
Proof. apply params_NoDup. Qed.

Lemma rt_text : A1111Serializer.parse_string E self metadata = Ok text.
Proof.
  unfold A1111Serializer.parse_string. rewrite rt_params. cbn. f_equal.
  unfold assembled, A1111Serializer.assemble.
  rewrite generation_params_text_rendered; [done|apply rt_known].
Qed.

Lemma rt_line :
  findall_params line = rendered E params
  ∧ 3 ≤ length (rendered E params)
  ∧ one_line line = true ∧ stripped line = true ∧ line ≠ "".
Proof.
  apply (line_facts E params version).
  - apply rt_known.
  - apply params_labels.
  - apply params_NoDup.
  - apply params_get_version.
  - apply length_params_of.
Qed.

(** The lines of the text and the prompts that are read from them *)
Lemma rt_split :
  ∃ lines used,
    A1111Parser.split_lines text = (lines, line)
    ∧ A1111Parser.split_prompts lines = (positive, negative, used)
    ∧ extract_styles_from_prompt E positive negative
      = ((extract_styles_from_prompt E positive negative).1.1, positive, negative).
Proof.
  destruct rt_known as (_ & _ & _ & Hprompts & _).
  destruct rt_line as (Hfind & Hlen & Hone & Hstr & Hne).
  unfold prompts_ok in Hprompts.
  apply andb_true_iff in Hprompts as [Hp Hstyles].
  apply andb_true_iff in Hp as [Hp Hn2].
  apply andb_true_iff in Hp as [Hp Hn1].
  destruct (split_assembled positive negative line) as (lines & used & H1 & H2);
    [done..|by rewrite Hfind|].
  exists lines, used. split; [done|]. split; [done|].
  destruct (extract_styles_from_prompt E positive negative) as [[styles p] n].
  apply andb_true_iff in Hstyles as [->%String.eqb_eq ->%String.eqb_eq].
  done.
Qed.

(** The data after the parameters of the line are stored *)
Lemma rt_stored :
  ∃ lines used,
    A1111Parser.split_lines text = (lines, line)
    ∧ A1111Parser.split_prompts lines = (positive, negative, used)
    ∧ A1111Parser.store_params E (findall_params line)
        [ ("prompt", positive); ("negative_prompt", negative);
          ("styles", str_list (extract_styles_from_prompt E positive negative).1.1) ]
      = d0.
Proof.
  destruct rt_split as (lines & used & H1 & H2 & _).
  exists lines, used. split; [done|]. split; [done|].
  destruct rt_line as (-> & _). by rewrite store_params_update.
Qed.

(** What is stored for a parameter of the dictionary other than the size *)
Lemma rt_get (k : string) (v : pyval) :
  Dict.get k params = Some v → k ≠ "Size" →
  ∃ s, value_text v = Some s
       ∧ (k ∉ state_labels → s ≠ "")
       ∧ (s ≠ "" → Dict.get (key_of k) d0 = Some s)
       ∧ same_line E (k, v) (k, PyStr s).
Proof.
  intros Hget Hk. pose proof (get_elem_of _ _ _ Hget) as Hin.
  pose proof rt_ok as Hok. rewrite Forall_forall in Hok.
  pose proof (Hok _ Hin) as Hkv.
  destruct (param_ok_inv E _ Hkv)
    as (s & Hs & Hks & _ & _ & _ & Hq & Hempty & Hfull & Hsize).
  simpl in *. exists s. split; [done|]. split.
  { intros Hst ->. by destruct Hempty as [_ ?]. }
  split.
  { intros Hne. eapply stored_get; eauto using rt_ok, rt_labels, rt_NoDup.
    by destruct Hsize. }
  destruct (param_ok_render E _ Hkv) as [Hr Hn]. simpl in *.
  split; [done|]. split; [|done]. simpl. rewrite Hr.
  destruct (String.eqb_spec k s); [done|]. by rewrite Hq.
Qed.

Lemma rt_get_plain (k : string) (v : pyval) :
  Dict.get k params = Some v → k ≠ "Size" → k ∉ state_labels →
  ∃ s, value_text v = Some s ∧ s ≠ ""
       ∧ Dict.get (key_of k) d0 = Some s
       ∧ same_line E (k, v) (k, PyStr s).
Proof.
  intros Hget Hk Hst.
  destruct (rt_get k v Hget Hk) as (s & Hs & Hne & Hd & Hl).
  exists s. split; [done|]. split; [by apply Hne|]. split; [|done].
  by apply Hd, Hne.
Qed.

(** A label without a text leaves its key as it was. *)
Lemma rt_absent (k : string) :
  k ∈ used_labels →
  Dict.get k params = None
  ∨ (∃ v, Dict.get k params = Some v ∧ value_text v = Some "") →
  Dict.get (key_of k) d0 = None.
Proof.
  intros Hk Hget.
  rewrite stored_get_other; eauto using rt_ok, rt_labels, rt_NoDup.
  - destruct (used_label_fact k Hk) as (_ & _ & _ & _ & H1 & H2 & H3 & _).
    unfold initial_data. simpl.
    destruct (String.eqb_spec (key_of k) "prompt"); [done|].
    destruct (String.eqb_spec (key_of k) "negative_prompt"); [done|].
    by destruct (String.eqb_spec (key_of k) "styles").
  - intros k' v' Hin Hkey.
    pose proof rt_labels as Hlab. rewrite Forall_forall in Hlab.
    pose proof (Hlab _ Hin) as Hk'. simpl in Hk'.
    apply key_of_inj in Hkey; [|done..]. subst k'.
    destruct Hget as [Hnone|(v & Hsome & Hv)].
    + apply get_None_notin in Hnone. destruct Hnone.
      apply list_elem_of_fmap. by exists (k, v').
    + by rewrite (get_unique _ _ _ _ rt_NoDup Hin Hsome).
Qed.

Lemma rt_size :
  Dict.get "resolution" d0 = Some (str_pair width height)
  ∧ eval_pair E (PyStr (str_pair width height)) = Ok (width, height).
Proof.
  destruct rt_known as (_ & Hres & _). unfold resolution_ok in Hres.
  rewrite Heval in Hres.
  destruct (match_imagesize (width +:+ "x" +:+ height)) as [[w1 h1]|] eqn:Hm;
    [|done].
  destruct (eval_pair E (PyStr (str_pair width height))) as [[w2 h2]|] eqn:He;
    [|done].
  apply andb_true_iff in Hres as [Hres ->%String.eqb_eq].
  apply andb_true_iff in Hres as [Hres ->%String.eqb_eq].
  apply andb_true_iff in Hres as [->%String.eqb_eq ->%String.eqb_eq].
  split; [|done].
  change "resolution" with (key_of "Size").
  eapply stored_get_size; eauto using rt_ok, rt_labels, rt_NoDup.
  - apply get_elem_of. rewrite params_get_base; [reflexivity|not_in_list..].
  - done.
Qed.

Lemma rt_model :
  ∃ m, base_model = PyStr m ∧ model_stem = Py.stem m
       ∧ Dict.get "base_model" d0 = Some model_stem
       ∧ Py.stem (resolved_model E model_stem) = model_stem.
Proof.
  destruct rt_known as (_ & _ & Hmodel & _).
  assert (∃ m, base_model = PyStr m
               ∧ Py.stem (resolved_model E (Py.stem m)) = Py.stem m)
    as (m & Hb & Hmodel').
  { revert Hmodel. clear. unfold model_ok.
    destruct base_model as [|m| | |]; try done.
    intros ?%String.eqb_eq. by exists m. }
  pose proof Hstem as Hm. rewrite Hb in Hm. simpl in Hm. injection Hm as Hm.
  exists m. split; [done|]. split; [done|].
  rewrite Hm in Hmodel'. split; [|done].
  destruct (rt_get_plain "Model" (PyStr model_stem)) as (s & Hs & _ & Hd & _).
  - rewrite params_get_base; [reflexivity|not_in_list..].
  - discriminate.
  - unfold state_labels. not_in_list.
  - simpl in Hs. injection Hs as <-. exact Hd.
Qed.

Lemma rt_performance : Dict.has "performance" d0 = true.
Proof.
  destruct (rt_get_plain "Performance" performance) as (s & _ & _ & Hd & _).
  - rewrite params_get_base; [reflexivity|not_in_list..].
  - discriminate.
  - unfold state_labels. not_in_list.
  - apply get_elem_of in Hd. by apply has_elem_of in Hd.
Qed.

Lemma rt_d0_NoDup : NoDup d0.*1.
Proof.
  apply stored_NoDup; eauto using rt_ok, rt_labels, rt_NoDup.
  unfold initial_data. simpl.
  repeat (apply NoDup_cons_2; [not_in_list|]). apply NoDup_nil_2.
Qed.

Lemma rt_lora_hashes :
  Dict.get "lora_hashes" d0
  = if decide (loras self = []) then None
    else Some (A1111Serializer.lora_hashes_string self).
Proof.
  destruct (decide (loras self = [])) as [Hl|Hl].
  - change "lora_hashes" with (key_of "Lora hashes"). apply rt_absent.
    + unfold used_labels. in_list.
    + right. eexists. split; [apply params_get_lora_hashes|].
      unfold A1111Serializer.lora_hashes_string. by rewrite Hl.
  - destruct rt_known as (_ & _ & _ & _ & Hloras).
    destruct (loras_ok_inv E self Hl Hloras) as (Hne & _).
    destruct (rt_get "Lora hashes" (PyStr (A1111Serializer.lora_hashes_string self)))
      as (s & Hs & _ & Hd & _).
    + apply params_get_lora_hashes.
    + discriminate.
    + simpl in Hs. injection Hs as <-. by apply Hd.
Qed.

(** The text is parsed, and the stages after the parameter line change
    the base model and the combined LoRA entries only. *)
Lemma rt_parse :
  ∃ d, A1111Parser.parse_json E text = Ok d
       ∧ NoDup d.*1
       ∧ (∀ k, k ≠ "base_model" → Py.startswith "lora_combined_" k = false →
               Dict.get k d = Dict.get k d0)
       ∧ Dict.get "base_model" d = Some (resolved_model E model_stem).
Proof.
  destruct rt_stored as (lines & used & H1 & H2 & H3).
  destruct rt_split as (lines' & used' & H1' & H2' & H4).
  rewrite H1 in H1'. injection H1' as <-. clear H2' used'.
  rewrite (parse_json_stages E _ _ _ _ _ _ _ _ _ H1 H2 H4), H3.
  rewrite (load_performance_id E d0 rt_performance).
  destruct rt_model as (m & _ & _ & Hmodel & _).
  destruct (resolve_base_model_facts E d0 model_stem rt_d0_NoDup Hmodel)
    as [Hnd Hget].
  assert (∀ d, A1111Parser.resolve_lora_hashes E
                 (A1111Parser.resolve_base_model E d0) = Ok d →
               (∀ k, k ≠ "base_model" →
                     Py.startswith "lora_combined_" k = false →
                     Dict.get k d = Dict.get k d0)
               ∧ Dict.get "base_model" d = Some (resolved_model E model_stem))
    as Hkeep.
  { intros d Hd. split.
    - intros k Hk Hlc.
      rewrite (get_resolve_lora_hashes E _ d k Hlc Hd).
      by apply get_resolve_base_model.
    - by rewrite (get_resolve_lora_hashes E _ d "base_model" eq_refl Hd). }
  unfold A1111Parser.resolve_lora_hashes in *.
  rewrite get_resolve_base_model in * by discriminate.
  rewrite rt_lora_hashes in *.
  destruct (decide (loras self = [])) as [Hl|Hl].
  - eexists. split; [done|]. split; [done|]. by apply Hkeep.
  - destruct rt_known as (_ & _ & _ & _ & Hloras).
    destruct (loras_ok_inv E self Hl Hloras) as (_ & Hin & Hthree).
    destruct (list_remove_ok _ _ Hin) as [names Hnames].
    rewrite Hnames in *. cbn in *.
    destruct (resolve_loras_ok names _ 0 _ Hthree Hnd) as (d & Hd & Hnd').
    exists d. split; [done|]. split; [done|]. by apply Hkeep.
Qed.

Lemma rt_optional (key : string) :
  key ∈ A1111Serializer.optional_keys →
  match Dict.get key data, Dict.get key d0 with
  | Some v, Some s =>
      same_line E (A1111Parser.label key, v) (A1111Parser.label key, PyStr s)
  | None, None => True
  | _, _ => False
  end.
Proof.
  intros Hkey.
  pose proof (params_get_optional E self data performance sampler seed
                guidance_scale sharpness adm_guidance width height model_stem
                version key Hkey) as Hp.
  assert (key_of (A1111Parser.label key) = key
          ∧ A1111Parser.label key ≠ "Size"
          ∧ (A1111Parser.label key ∉ state_labels)
          ∧ A1111Parser.label key ∈ used_labels) as (Hk & Hsize & Hst & Hused).
  { clear Hp. unfold A1111Serializer.optional_keys in Hkey.
    repeat (apply elem_of_cons in Hkey as [->|Hkey];
            [split; [reflexivity|];
             split; [discriminate|];
             split; [unfold state_labels; not_in_list
                    |unfold used_labels; cbn; in_list]|]).
    by apply elem_of_nil in Hkey. }
  destruct (Dict.get key data) as [v|] eqn:Hd.
  - destruct (rt_get_plain _ _ Hp Hsize Hst) as (s & _ & _ & Hget & Hl).
    rewrite Hk in Hget. by rewrite Hget.
  - pose proof (rt_absent _ Hused (or_introl Hp)) as Ha.
    rewrite Hk in Ha. by rewrite Ha.
Qed.

(** The data that is read serializes to the text it was read from. *)
Lemma rt_back (d : dict string) :
  NoDup d.*1 →
  (∀ k, k ≠ "base_model" → Py.startswith "lora_combined_" k = false →
        Dict.get k d = Dict.get k d0) →
  Dict.get "base_model" d = Some (resolved_model E model_stem) →
  A1111Serializer.parse_string E self (entries_of_data d) = Ok text.
Proof.
  intros Hnd Hkeep Hmodel.
  destruct (rt_get_plain "Performance" performance)
    as (s1 & _ & _ & Hd1 & Hl1);
    [rewrite params_get_base; [reflexivity|not_in_list..]|discriminate
    |unfold state_labels; not_in_list|].
  destruct (rt_get_plain "Sampler" sampler)
    as (s2 & _ & _ & Hd2 & Hl2);
    [rewrite params_get_base; [reflexivity|not_in_list..]|discriminate
    |unfold state_labels; not_in_list|].
  destruct (rt_get_plain "Seed" seed)
    as (s3 & _ & _ & Hd3 & Hl3);
    [rewrite params_get_base; [reflexivity|not_in_list..]|discriminate
    |unfold state_labels; not_in_list|].
  destruct (rt_get_plain "CFG scale" guidance_scale)
    as (s4 & _ & _ & Hd4 & Hl4);
    [rewrite params_get_base; [reflexivity|not_in_list..]|discriminate
    |unfold state_labels; not_in_list|].
  destruct (rt_get_plain "Sharpness" sharpness)
    as (s5 & _ & _ & Hd5 & Hl5);
    [rewrite params_get_base; [reflexivity|not_in_list..]|discriminate
    |unfold state_labels; not_in_list|].
  destruct (rt_get_plain "ADM Guidance" adm_guidance)
    as (s6 & _ & _ & Hd6 & Hl6);
    [rewrite params_get_base; [reflexivity|not_in_list..]|discriminate
    |unfold state_labels; not_in_list|].
  destruct (rt_get_plain "Version" version)
    as (s7 & _ & _ & Hd7 & Hl7);
    [apply params_get_version|discriminate
    |unfold state_labels; not_in_list|].
  change (key_of "Performance") with "performance" in Hd1.
  change (key_of "Sampler") with "sampler" in Hd2.
  change (key_of "Seed") with "seed" in Hd3.
  change (key_of "CFG scale") with "guidance_scale" in Hd4.
  change (key_of "Sharpness") with "sharpness" in Hd5.
  change (key_of "ADM Guidance") with "adm_guidance" in Hd6.
  change (key_of "Version") with "version" in Hd7.
  destruct rt_size as [Hsize Heval'].
  destruct rt_model as (m & _ & _ & _ & Hstem').
  assert (∀ k s, k ≠ "base_model" → Py.startswith "lora_combined_" k = false →
                 Dict.get k d0 = Some s →
                 Dict.get k (dict_of_entries (entries_of_data d)) = Some (PyStr s))
    as Hget.
  { intros k s Hk Hlc Hs. rewrite get_dict_of_entries by done.
    by rewrite Hkeep, Hs. }
  unfold A1111Serializer.parse_string.
  rewrite (generation_params_intro E self (entries_of_data d)
             (PyStr (str_pair width height)) (PyStr s1) (PyStr s2) (PyStr s3)
             (PyStr s4) (PyStr s5) (PyStr s6)
             (PyStr (resolved_model E model_stem)) (PyStr s7)
             width height model_stem); try (by apply Hget); try done.
  2: { rewrite get_dict_of_entries by done. by rewrite Hmodel. }
  2: { simpl. by rewrite Hstem'. }
  cbn. f_equal. unfold assembled, A1111Serializer.assemble.
  rewrite <- (generation_params_text_rendered E params) by apply rt_known.
  match goal with
  | |- context [A1111Serializer.generation_params_text E ?p] =>
      assert (A1111Serializer.generation_params_text E p
              = A1111Serializer.generation_params_text E params) as ->;
        [|done]
  end.
  symmetry. apply text_same_line. unfold params_of.
  assert (∀ p1 p2, Forall2 (same_line E) p1 p2 →
                   Forall2 (same_line E) (A1111Serializer.add_created_by E p1)
                           (A1111Serializer.add_created_by E p2)) as Hcreated.
  { intros p1 p2 Hp. unfold A1111Serializer.add_created_by.
    destruct (negb _); [|done]. apply set_same_line; [done|apply same_line_refl]. }
  assert (∀ p1 p2, Forall2 (same_line E) p1 p2 →
                   Forall2 (same_line E) (A1111Serializer.add_refiner self p1)
                           (A1111Serializer.add_refiner self p2)) as Hrefiner.
  { intros p1 p2 Hp. unfold A1111Serializer.add_refiner.
    destruct (negb _); [|done].
    apply update_same_line; [done|apply same_line_Forall2_refl]. }
  apply Hcreated, update_same_line.
  - apply add_optional_same_line.
    + apply Hrefiner. unfold A1111Serializer.base_params.
      apply update_same_line; [constructor|].
      repeat (apply Forall2_cons; split; [first [done|apply same_line_refl]|]).
      constructor.
    + intros key Hkey. pose proof (rt_optional key Hkey) as Ho.
      rewrite get_dict_of_entries by done.
      rewrite Hkeep.
      * destruct (Dict.get key data), (Dict.get key d0); done.
      * clear Ho. unfold A1111Serializer.optional_keys in Hkey.
        repeat (apply elem_of_cons in Hkey as [->|Hkey]; [discriminate|]).
        by apply elem_of_nil in Hkey.
      * clear Ho. unfold A1111Serializer.optional_keys in Hkey.
        repeat (apply elem_of_cons in Hkey as [->|Hkey]; [reflexivity|]).
        by apply elem_of_nil in Hkey.
  - apply Forall2_cons; split; [apply same_line_refl|].
    apply Forall2_cons; split; [done|]. constructor.
Qed.

Lemma rt_initial (key : string) :
  key ∈ ["prompt"; "negative_prompt"; "styles"] →
  Dict.get key d0 = Dict.get key (initial_data E positive negative).
Proof.
  intros Hkey. apply stored_get_other; eauto using rt_ok, rt_labels, rt_NoDup.
  intros k v Hin Hk.
  pose proof rt_labels as Hlab. rewrite Forall_forall in Hlab.
  pose proof (Hlab _ Hin) as Hused. simpl in Hused.
  destruct (used_label_fact k Hused) as (_ & _ & _ & _ & H1 & H2 & H3 & _).
  rewrite Hk in H1, H2, H3.
  repeat (apply elem_of_cons in Hkey as [->|Hkey]; [done|]).
  by apply elem_of_nil in Hkey.
Qed.

Lemma rt_keys (d : dict string) :
  (∀ k, k ≠ "base_model" → Py.startswith "lora_combined_" k = false →
        Dict.get k d = Dict.get k d0) →
  Dict.get "base_model" d = Some (resolved_model E model_stem) →
  keys_preserved E self data d.
Proof.
  intros Hkeep Hmodel. unfold keys_preserved.
  split. { rewrite Hkeep, rt_initial by (done || in_list). done. }
  split. { rewrite Hkeep, rt_initial by (done || in_list). done. }
  split.
  { rewrite Hkeep by done.
    destruct (rt_get "Steps" (PyInt (steps self))) as (s & Hs & _ & Hd & _).
    - rewrite params_get_base; [reflexivity|not_in_list..].
    - discriminate.
    - simpl in Hs. injection Hs as <-. apply Hd, str_int_ne. }
  split.
  { destruct (rt_get_plain "Sampler" sampler) as (s & Hs & _ & Hd & _);
      [rewrite params_get_base; [reflexivity|not_in_list..]|discriminate
      |unfold state_labels; not_in_list|].
    exists sampler, s. by rewrite Hkeep. }
  split.
  { destruct (rt_get_plain "Seed" seed) as (s & Hs & _ & Hd & _);
      [rewrite params_get_base; [reflexivity|not_in_list..]|discriminate
      |unfold state_labels; not_in_list|].
    exists seed, s. by rewrite Hkeep. }
  split.
  { destruct (rt_get_plain "CFG scale" guidance_scale) as (s & Hs & _ & Hd & _);
      [rewrite params_get_base; [reflexivity|not_in_list..]|discriminate
      |unfold state_labels; not_in_list|].
    exists guidance_scale, s. by rewrite Hkeep. }
  split.
  { destruct rt_size as [Hsize Heval'].
    exists resolution, width, height. by rewrite Hkeep. }
  split.
  { destruct rt_model as (m & Hb & Hm & _ & Hres).
    exists m, (resolved_model E model_stem).
    rewrite Hbase_model, Hb, Hres. done. }
  split.
  { intros Hne. rewrite Hkeep by done.
    destruct (rt_get "Model hash" (PyStr (base_model_hash self)))
      as (s & Hs & _ & Hd & _).
    - rewrite params_get_base; [reflexivity|not_in_list..].
    - discriminate.
    - simpl in Hs. injection Hs as <-. by apply Hd. }
  intros Hne. rewrite Hkeep, rt_lora_hashes by done.
  by destruct (decide (loras self = [])).
Qed.

Lemma rt_core :
  ∃ d, A1111Serializer.parse_string E self metadata = Ok text
       ∧ A1111Parser.parse_json E text = Ok d
       ∧ keys_preserved E self data d
       ∧ A1111Serializer.parse_string E self (entries_of_data d) = Ok text.
Proof.
  destruct rt_parse as (d & Hd & Hnd & Hkeep & Hmodel).
  exists d. split; [apply rt_text|]. split; [done|].
  split; [by apply rt_keys|by apply rt_back].
Qed.

End round_trip.



(** * Further properties of the code *)

(** ** [set_data] and the hash cache *)

Section set_data.
Context (E : Env).

Lemma get_sha256_cached (p : string) (w : World) :
  is_Some (hash_cache w !! p) → get_sha256 E p w = (cached w p, w).
Proof.
  intros [h Hh]. rewrite (get_sha256_hit E w p h Hh).
  unfold cached. by rewrite Hh.
Qed.

(** A call caches its file and keeps what was cached. *)
Lemma get_sha256_grows (p : string) (w : World) :
  (get_sha256 E p w).1 = cached (get_sha256 E p w).2 p
  ∧ is_Some (hash_cache (get_sha256 E p w).2 !! p)
  ∧ (∀ q, is_Some (hash_cache w !! q) →
          is_Some (hash_cache (get_sha256 E p w).2 !! q)
          ∧ cached (get_sha256 E p w).2 q = cached w q).
Proof.
  destruct (hash_cache w !! p) as [h|] eqn:Hp.
  - rewrite (get_sha256_hit E w p h Hp). simpl. unfold cached.
    rewrite Hp. split; [done|]. split; [by eexists|]. done.
  - rewrite (get_sha256_miss E w p Hp). simpl. unfold cached. simpl.
    rewrite lookup_insert_eq. split; [done|]. split; [by eexists|].
    intros q [hq Hq]. assert (p ≠ q) as Hne by congruence.
    rewrite lookup_insert_ne by done. rewrite Hq. split; [by eexists|done].
Qed.

Lemma set_data_loras_cached (l : list (string * string))
    (acc : list lora_entry) (w : World) :
  Forall (λ nw, named nw = true → is_Some (hash_cache w !! lora_path E nw)) l →
  set_data_loras E l acc w
  = (acc ++ (lora_with E (cached w) <$> List.filter named l), w).
Proof.
  revert acc. induction l as [|[n wt] l IH]; intros acc Hall.
  - simpl. by rewrite app_nil_r.
  - apply Forall_cons in Hall as [Hhd Htl].
    cbn [set_data_loras List.filter]. unfold named at 1. cbn [fst].
    destruct (negb (String.eqb n "None")) eqn:Hn.
    + rewrite get_sha256_cached by (apply Hhd; unfold named; done).
      rewrite IH by done. by rewrite <- app_assoc.
    + by apply IH.
Qed.

Lemma set_data_loras_grows (l : list (string * string))
    (acc : list lora_entry) (w : World) :
  (set_data_loras E l acc w).1
  = acc ++ (lora_with E (cached (set_data_loras E l acc w).2)
              <$> List.filter named l)
  ∧ Forall (λ nw, named nw = true →
                  is_Some (hash_cache (set_data_loras E l acc w).2
                             !! lora_path E nw)) l
  ∧ (∀ q, is_Some (hash_cache w !! q) →
          is_Some (hash_cache (set_data_loras E l acc w).2 !! q)
          ∧ cached (set_data_loras E l acc w).2 q = cached w q).
Proof.
  revert acc w. induction l as [|[n wt] l IH]; intros acc w.
  - simpl. rewrite app_nil_r. done.
  - cbn [set_data_loras List.filter].
    assert (named (n, wt) = negb (String.eqb n "None")) as Hnamed by done.
    rewrite Hnamed.
    destruct (negb (String.eqb n "None")) eqn:Hn.
    + pose proof (get_sha256_grows (path_join (path_loras E) n) w) as Hgrow.
      destruct (get_sha256 E (path_join (path_loras E) n) w) as [h w1].
      simpl in Hgrow. destruct Hgrow as (Hh & Hin & Hkeep).
      destruct (IH (acc ++ [(Py.stem n, wt, h)]) w1) as (IH1 & IH2 & IH3).
      split; [|split].
      * rewrite IH1, <- app_assoc. simpl. do 2 f_equal.
        unfold lora_with, lora_path. simpl. f_equal.
        rewrite (proj2 (IH3 _ Hin)). exact Hh.
      * apply Forall_cons. split; [|done]. intros _. by apply IH3.
      * intros q Hq. destruct (Hkeep q Hq) as [H1 H2].
        destruct (IH3 q H1) as [H3 H4]. split; [done|]. by rewrite H4.
    + destruct (IH acc w) as (IH1 & IH2 & IH3).
      split; [done|]. split; [|done]. apply Forall_cons. split; [|done].
      by rewrite Hnamed.
Qed.

Lemma set_data_loras_reachable (l : list (string * string))
    (acc : list lora_entry) (w : World) :
  reachable E w → reachable E (set_data_loras E l acc w).2.
Proof.
  revert acc w. induction l as [|[n wt] l IH]; intros acc w Hw; [done|].
  cbn [set_data_loras]. destruct (negb (String.eqb n "None")); [|by apply IH].
  pose proof (reachable_call E w (path_join (path_loras E) n) Hw) as Hw1.
  destruct (get_sha256 E (path_join (path_loras E) n) w) as [h w1].
  by apply IH.
Qed.

(** [set_data] with its calls of [get_sha256] named *)
Lemma set_data_eq (self : ParserState) (fp fnp : list string) (st : Z)
    (bm rm : string) (ls : list (string * string)) (w : World) :
  set_data E self fp fnp st bm rm ls w
  = let g1 := get_sha256 E (checkpoint_path E bm) w in
    let g2 :=
      if negb (empty_or_none rm)
      then (Py.stem rm, (get_sha256 E (checkpoint_path E rm) g1.2).1,
            (get_sha256 E (checkpoint_path E rm) g1.2).2)
      else (refiner_model_name self, refiner_model_hash self, g1.2) in
    let g3 := set_data_loras E ls [] g2.2 in
    ({| full_prompt := fp; full_negative_prompt := fnp; steps := st;
        base_model_name := Py.stem bm; base_model_hash := g1.1;
        refiner_model_name := g2.1.1; refiner_model_hash := g2.1.2;
        loras := g3.1 |}, g3.2).
Proof.
  unfold set_data, checkpoint_path. cbv zeta.
  destruct (get_sha256 E (path_join (path_checkpoints E) bm) w) as [h1 w1].
  cbn [fst snd].
  destruct (negb (empty_or_none rm)).
  - destruct (get_sha256 E (path_join (path_checkpoints E) rm) w1) as [h2 w2].
    cbn [fst snd]. by destruct (set_data_loras E ls [] w2).
  - cbn [fst snd]. by destruct (set_data_loras E ls [] w1).
Qed.

Lemma cached_hash (w : World) (p : string) :
  reachable E w → is_Some (hash_cache w !! p) →
  cached w p = calculate_sha256 E p.
Proof.
  intros Hw [h Hh]. destruct (reachable_inv E w Hw) as (_ & _ & Hinv).
  unfold cached. rewrite Hh. simpl. by apply Hinv.
Qed.

End set_data.

(** X1: from a world that calls of [get_sha256] lead to, [set_data] leaves
    a parser state with the prompts and the steps it is given, the stem of
    the base model and the hash of its checkpoint file, the stem and the
    hash of the refiner unless the refiner is empty or [None] (then the
    refiner of the state stays as it was), and one LoRA for each LoRA
    whose name is not [None], in their order, with the stem of the name,
    the weight and the hash of its file; the world it leaves is again such
    a world. *)
Theorem set_data_state (E : Env) (self : ParserState) (fp fnp : list string)
    (st : Z) (bm rm : string) (ls : list (string * string)) (w : World) :
  reachable E w →
  ∃ self' w',
    set_data E self fp fnp st bm rm ls w = (self', w')
    ∧ reachable E w'
    ∧ full_prompt self' = fp
    ∧ full_negative_prompt self' = fnp
    ∧ steps self' = st
    ∧ base_model_name self' = Py.stem bm
    ∧ base_model_hash self' = calculate_sha256 E (checkpoint_path E bm)
    ∧ (if empty_or_none rm
       then refiner_model_name self' = refiner_model_name self
            ∧ refiner_model_hash self' = refiner_model_hash self
       else refiner_model_name self' = Py.stem rm
            ∧ refiner_model_hash self'
              = calculate_sha256 E (checkpoint_path E rm))
    ∧ loras self'
      = lora_with E (calculate_sha256 E) <$> List.filter named ls.
Proof.
  intros Hw. rewrite set_data_eq. cbv zeta. eexists _, _. split; [done|].
  pose proof (reachable_call E w (checkpoint_path E bm) Hw) as Hw1.
  pose proof (get_sha256_grows E (checkpoint_path E bm) w) as (Hh1 & Hin1 & _).
  set (w1 := (get_sha256 E (checkpoint_path E bm) w).2) in *.
  assert (∃ w2, reachable E w2
                ∧ (if negb (empty_or_none rm)
                   then (Py.stem rm,
                         (get_sha256 E (checkpoint_path E rm) w1).1,
                         (get_sha256 E (checkpoint_path E rm) w1).2)
                   else (refiner_model_name self, refiner_model_hash self, w1)).2
                  = w2) as (w2 & Hw2 & Hw2eq).
  { destruct (negb (empty_or_none rm)); eexists; (split; [|done]); simpl;
      [by apply reachable_call|done]. }
  rewrite Hw2eq.
  destruct (set_data_loras_grows E ls [] w2) as (Hl & Hall & _).
  pose proof (set_data_loras_reachable E ls [] w2 Hw2) as Hw3.
  split; [done|]. cbn [full_prompt full_negative_prompt steps base_model_name
                       base_model_hash refiner_model_name refiner_model_hash
                       loras].
  do 4 (split; [done|]).
  split. { rewrite Hh1. by apply cached_hash. }
  split.
  { destruct (empty_or_none rm); cbn [negb fst snd]; [done|].
    split; [done|].
    pose proof (get_sha256_grows E (checkpoint_path E rm) w1) as (Hh2 & Hin2 & _).
    rewrite Hh2. apply cached_hash; [by apply reachable_call|done]. }
  rewrite Hl. cbn [app].
  apply list_eq_Forall2, Forall2_fmap, Forall_Forall2_diag, Forall_forall.
  intros nw Hnw. apply list_elem_of_In, filter_In in Hnw as [Hin Hnamed].
  apply list_elem_of_In in Hin.
  unfold lora_with. f_equal.
  rewrite Forall_forall in Hall. apply cached_hash; [done|].
  by apply Hall.
Qed.

Lemma set_data_state_witness :
  reachable Demo.env world_init
  ∧ ∃ self' w',
      set_data Demo.env parser_init ["a cat"] ["dog"] 30
               "juggernaut.safetensors" "None"
               [("styleA.safetensors", "0.8"); ("None", "1.0")] world_init
      = (self', w')
      ∧ loras self'
        = lora_with Demo.env (calculate_sha256 Demo.env)
            <$> List.filter named
                  [("styleA.safetensors", "0.8"); ("None", "1.0")].
Proof.
  split; [apply reachable_init|].
  destruct (set_data_state Demo.env parser_init ["a cat"] ["dog"] 30
              "juggernaut.safetensors" "None"
              [("styleA.safetensors", "0.8"); ("None", "1.0")] world_init
              (reachable_init Demo.env))
    as (self' & w' & H & _ & _ & _ & _ & _ & _ & _ & Hl).
  by exists self', w'.
Defined.

(** X2: [set_data] repeated on the state and the world it leaves, with the
    arguments it was given, leaves that state and that world: every hash is
    taken from the cache, and nothing is hashed again. *)
Theorem set_data_again (E : Env) (self : ParserState) (fp fnp : list string)
    (st : Z) (bm rm : string) (ls : list (string * string)) (w : World) :
  let r := set_data E self fp fnp st bm rm ls w in
  set_data E r.1 fp fnp st bm rm ls r.2 = r
  ∧ sha256_calls (set_data E r.1 fp fnp st bm rm ls r.2).2 = sha256_calls r.2.
Proof.
  cbv zeta.
  assert (set_data E (set_data E self fp fnp st bm rm ls w).1 fp fnp st bm rm ls
                   (set_data E self fp fnp st bm rm ls w).2
          = set_data E self fp fnp st bm rm ls w) as Heq; [|by rewrite Heq].
  rewrite (set_data_eq E self). cbv zeta. cbn [fst snd].
  pose proof (get_sha256_grows E (checkpoint_path E bm) w) as (Hh1 & Hin1 & _).
  set (g1 := get_sha256 E (checkpoint_path E bm) w) in *.
  set (g2 := if negb (empty_or_none rm)
             then (Py.stem rm, (get_sha256 E (checkpoint_path E rm) g1.2).1,
                   (get_sha256 E (checkpoint_path E rm) g1.2).2)
             else (refiner_model_name self, refiner_model_hash self, g1.2)).
  assert ((∀ q, is_Some (hash_cache g1.2 !! q) →
                is_Some (hash_cache g2.2 !! q) ∧ cached g2.2 q = cached g1.2 q)
          ∧ (negb (empty_or_none rm) = true →
             is_Some (hash_cache g2.2 !! checkpoint_path E rm)
             ∧ g2.1.2 = cached g2.2 (checkpoint_path E rm)
             ∧ g2.1.1 = Py.stem rm)) as [Hkeep2 Hin2].
  { subst g2. destruct (negb (empty_or_none rm)); cbn [fst snd].
    - pose proof (get_sha256_grows E (checkpoint_path E rm) g1.2)
        as (H1 & H2 & H3). done.
    - done. }
  destruct (set_data_loras_grows E ls [] g2.2) as (Hl & Hall & Hkeep3).
  set (g3 := set_data_loras E ls [] g2.2) in *.
  rewrite set_data_eq. cbv zeta.
  cbn [refiner_model_name refiner_model_hash].
  assert (get_sha256 E (checkpoint_path E bm) g3.2 = (g1.1, g3.2)) as ->.
  { destruct (Hkeep2 _ Hin1) as [H1 H2]. destruct (Hkeep3 _ H1) as [H3 H4].
    rewrite get_sha256_cached by done. by rewrite H4, H2, Hh1. }
  cbn [fst snd].
  assert ((if negb (empty_or_none rm)
           then (Py.stem rm, (get_sha256 E (checkpoint_path E rm) g3.2).1,
                 (get_sha256 E (checkpoint_path E rm) g3.2).2)
           else (g2.1.1, g2.1.2, g3.2)) = (g2.1.1, g2.1.2, g3.2)) as ->.
  { destruct (negb (empty_or_none rm)); [|done].
    destruct (Hin2 eq_refl) as (H1 & H2 & H3).
    destruct (Hkeep3 _ H1) as [H4 H5].
    rewrite get_sha256_cached by done. cbn [fst snd].
    by rewrite H5, H2, H3. }
  cbn [fst snd].
  rewrite set_data_loras_cached.
  - cbn [fst snd app]. by rewrite Hl.
  - done.
Qed.

(** ** The loop of the Fooocus parser *)

Lemma replace_value_model (key s : string) (filenames : list string) :
  FooocusParser.is_lora_key key = false →
  FooocusParser.replace_value_with_filename key (PyStr s) filenames
  = Ok (file_of_stem s filenames).
Proof.
  intros Hk. unfold file_of_stem.
  induction filenames as [|f fs IH]; simpl; [done|]. rewrite Hk.
  destruct (String.eqb s (Py.stem f)); [done|]. exact IH.
Qed.

Lemma replace_value_other (key : string) (v : pyval) (filenames : list string) :
  FooocusParser.is_lora_key key = false → is_str v = false →
  FooocusParser.replace_value_with_filename key v filenames = Ok PyNone.
Proof.
  intros Hk Hv. induction filenames as [|f fs IH]; simpl; [done|]. rewrite Hk.
  by destruct v.
Qed.

Lemma replace_value_lora (key s name weight : string) (filenames : list string) :
  FooocusParser.is_lora_key key = true →
  Py.split " : " s = [name; weight] →
  FooocusParser.replace_value_with_filename key (PyStr s) filenames
  = Ok (match A1111Parser.find_stem name filenames with
        | Some filename => PyStr (filename +:+ " : " +:+ weight)
        | None => PyNone
        end).
Proof.
  intros Hk Hs. induction filenames as [|f fs IH]; simpl; [done|].
  rewrite Hk, Hs. destruct (String.eqb name (Py.stem f)); [done|]. exact IH.
Qed.

(** The value the loop assigns to an item it rewrites *)
Lemma replace_value_resolved (mf lf : list string) (kv : string * pyval) :
  fooocus_rewrites kv.1 kv.2 = true → lora_item_ok kv = true →
  FooocusParser.replace_value_with_filename kv.1 kv.2
    (if FooocusParser.is_lora_key kv.1 then lf else mf)
  = Ok (resolved_value mf lf kv).
Proof.
  destruct kv as [k v]. simpl. intros Hrw Hok.
  unfold resolved_value, lora_item_ok in *. simpl in *. rewrite Hrw in *.
  simpl in *. destruct (FooocusParser.is_lora_key k) eqn:Hk.
  - destruct v as [|s| | |]; try done. unfold two_parts in Hok.
    destruct (Py.split " : " s) as [|name [|weight [|]]] eqn:Hs; try done.
    by apply replace_value_lora.
  - destruct v as [|s| | |];
      first [by apply replace_value_model | by apply replace_value_other].
Qed.

Lemma set_middle {V : Type} (pre post : dict V) (k : string) (v v' : V) :
  k ∉ pre.*1 →
  Dict.set k v' (pre ++ (k, v) :: post) = pre ++ (k, v') :: post.
Proof.
  induction pre as [|[k0 v0] pre IH]; simpl; intros Hk.
  - by rewrite String.eqb_refl.
  - apply not_elem_of_cons in Hk as [Hne Hk].
    destruct (String.eqb_spec k k0); [done|]. by rewrite IH.
Qed.

Lemma lora_key_not_model (k : string) :
  (String.eqb k "base_model" || String.eqb k "refiner_model") = true →
  FooocusParser.is_lora_key k = false.
Proof.
  intros [->%String.eqb_eq| ->%String.eqb_eq]%orb_true_iff; reflexivity.
Qed.

Section parse_items.
Context (mf lf : list string) (ref : loc).

Local Abbreviation res := (resolved_item mf lf).

(** One turn of the loop on an item that is well formed *)
Lemma parse_items_step (pre : dict pyval) (kv : string * pyval)
    (rest : list (string * pyval)) (h : store) :
  h !! ref = Some (ODict ((res <$> pre) ++ kv :: rest)) →
  kv.1 ∉ pre.*1 → lora_item_ok kv = true →
  ∃ h', FooocusParser.parse_items mf lf ref (kv :: rest) h
        = FooocusParser.parse_items mf lf ref rest h'
        ∧ h' !! ref = Some (ODict ((res <$> pre ++ [kv]) ++ rest))
        ∧ ∀ d, <[ref := ODict d]> h' = <[ref := ODict d]> h.
Proof.
  destruct kv as [k v]. simpl. intros Hh Hk Hok.
  assert (((res <$> pre ++ [(k, v)]) ++ rest)
          = (res <$> pre) ++ (k, resolved_value mf lf (k, v)) :: rest) as Hshape.
  { rewrite fmap_app, <- app_assoc. done. }
  assert (k ∉ (res <$> pre).*1) as Hk'.
  { rewrite <- list_fmap_compose.
    assert ((fst ∘ res) <$> pre = pre.*1) as -> by (by apply list_fmap_ext).
    done. }
  assert (fooocus_rewrites k v = false →
          resolved_value mf lf (k, v) = v) as Hkeep.
  { intros Hrw. unfold resolved_value. simpl. by rewrite Hrw. }
  assert (fooocus_rewrites k v = true →
          ∃ h', (v' ← lift (FooocusParser.replace_value_with_filename k v
                              (if FooocusParser.is_lora_key k then lf else mf));
                 _ ← setitem_dict ref k v';
                 FooocusParser.parse_items mf lf ref rest) h
                = FooocusParser.parse_items mf lf ref rest h'
                ∧ h' !! ref = Some (ODict ((res <$> pre ++ [(k, v)]) ++ rest))
                ∧ ∀ d, <[ref := ODict d]> h' = <[ref := ODict d]> h) as Hset.
  { intros Hrw.
    pose proof (replace_value_resolved mf lf (k, v) Hrw Hok) as Hv.
    simpl in Hv. unfold mbind, M_bind, lift, setitem_dict. rewrite Hv, Hh.
    eexists. split; [done|]. rewrite lookup_insert_eq, set_middle by done.
    split; [by rewrite Hshape|]. intros d. by rewrite insert_insert_eq. }
  assert (fooocus_rewrites k v = false →
          ∃ h', FooocusParser.parse_items mf lf ref rest h
                = FooocusParser.parse_items mf lf ref rest h'
                ∧ h' !! ref = Some (ODict ((res <$> pre ++ [(k, v)]) ++ rest))
                ∧ ∀ d, <[ref := ODict d]> h' = <[ref := ODict d]> h) as Hskip.
  { intros Hrw. exists h. split; [done|]. split; [|done].
    by rewrite Hshape, Hkeep. }
  unfold fooocus_rewrites in Hset, Hskip.
  destruct (FooocusParser.value_empty_or_none v) eqn:Hv; [by apply Hskip|].
  destruct (String.eqb k "base_model" || String.eqb k "refiner_model") eqn:Hm.
  - rewrite (lora_key_not_model k Hm) in Hset. by apply Hset.
  - simpl in Hset, Hskip. destruct (FooocusParser.is_lora_key k) eqn:Hl.
    + by apply Hset.
    + by apply Hskip.
Qed.

(** The loop on items that are all well formed *)
Lemma parse_items_map (items pre : dict pyval) (h : store) :
  h !! ref = Some (ODict ((res <$> pre) ++ items)) →
  NoDup (pre ++ items).*1 →
  forallb lora_item_ok items = true →
  FooocusParser.parse_items mf lf ref items h
  = (Ok (), <[ref := ODict (res <$> pre ++ items)]> h).
Proof.
  revert pre h. induction items as [|kv rest IH]; intros pre h Hh Hnd Hok.
  - simpl. rewrite app_nil_r in *. by rewrite insert_id.
  - simpl in Hok. apply andb_true_iff in Hok as [Hkv Hrest].
    assert (kv.1 ∉ pre.*1) as Hk.
    { rewrite fmap_app in Hnd. apply NoDup_app in Hnd as (_ & Hdis & _).
      intros Hin. apply (Hdis _ Hin). simpl. by left. }
    destruct (parse_items_step pre kv rest h Hh Hk Hkv) as (h' & -> & Hh' & Hins).
    rewrite (IH (pre ++ [kv]) h' Hh'); [|by rewrite <- app_assoc|done].
    by rewrite <- app_assoc, Hins.
Qed.

(** The loop up to the first LoRA whose value is no text of a name and
    a weight *)
Lemma parse_items_stops (mid pre post : dict pyval) (k s : string) (h : store) :
  h !! ref = Some (ODict ((res <$> pre) ++ mid ++ (k, PyStr s) :: post)) →
  NoDup (pre ++ mid).*1 →
  forallb lora_item_ok mid = true →
  FooocusParser.is_lora_key k = true → empty_or_none s = false →
  two_parts s = false → lf ≠ [] →
  FooocusParser.parse_items mf lf ref (mid ++ (k, PyStr s) :: post) h
  = (Raise ValueError,
     <[ref := ODict ((res <$> pre ++ mid) ++ (k, PyStr s) :: post)]> h).
Proof.
  intros Hh Hnd Hok Hk Hs Htwo Hlf. revert pre h Hh Hnd Hok.
  induction mid as [|kv rest IH]; intros pre h Hh Hnd Hok.
  - rewrite app_nil_r. simpl in *. rewrite Hs.
    assert ((String.eqb k "base_model" || String.eqb k "refiner_model") = false)
      as Hm.
    { destruct (String.eqb k "base_model" || String.eqb k "refiner_model") eqn:Hm;
        [|done]. apply lora_key_not_model in Hm. congruence. }
    rewrite Hm, Hk. unfold mbind, M_bind, lift.
    destruct lf as [|f fs]; [done|]. simpl. rewrite Hk.
    unfold two_parts in Htwo. rewrite insert_id by done.
    by destruct (Py.split " : " s) as [|? [|? [|]]].
  - simpl in Hok. apply andb_true_iff in Hok as [Hkv Hrest].
    assert (kv.1 ∉ pre.*1) as Hkpre.
    { rewrite fmap_app in Hnd. apply NoDup_app in Hnd as (_ & Hdis & _).
      intros Hin. apply (Hdis _ Hin). simpl. by left. }
    rewrite <- app_comm_cons.
    destruct (parse_items_step pre kv (rest ++ (k, PyStr s) :: post) h Hh Hkpre Hkv)
      as (h' & -> & Hh' & Hins).
    rewrite (IH (pre ++ [kv]) h' Hh'); [|by rewrite <- app_assoc|done].
    by rewrite <- app_assoc, Hins.
Qed.

End parse_items.

Lemma list_remove_notin (x : string) (l : list string) :
  x ∉ l → A1111Parser.list_remove x l = Raise ValueError.
Proof.
  induction l as [|y l IH]; simpl; [done|].
  intros [Hne Hl]%not_elem_of_cons.
  destruct (String.eqb_spec y x); [congruence|]. by rewrite IH.
Qed.

(** X3: on a mapping whose keys are distinct and whose LoRA values are texts
    of a name and a weight, with the reserved LoRA among the LoRA files,
    [FooocusParser.parse_json] returns the reference it is given and leaves
    there the mapping with every item resolved in its place: a base or
    refiner model that is neither empty nor [None] becomes the first model
    file with that stem, a LoRA the first LoRA file (the reserved one apart)
    with the stem of its name, followed by its weight; either becomes
    [None] when no file has the stem; every other item keeps its value. *)
Theorem fooocus_parse_json_resolves (E : Env) (ref : loc) (h : store)
    (d : dict pyval) (lf : list string) :
  h !! ref = Some (ODict d) →
  NoDup d.*1 →
  A1111Parser.list_remove (downloading_sdxl_lcm_lora E) (lora_filenames E)
    = Ok lf →
  forallb lora_item_ok d = true →
  FooocusParser.parse_json E ref h
  = (Ok ref, <[ref := ODict (resolved_item (model_filenames E) lf <$> d)]> h).
Proof.
  intros Hh Hnd Hlf Hok.
  unfold FooocusParser.parse_json, mbind, M_bind, lift, read_dict.
  rewrite Hlf, Hh.
  rewrite (parse_items_map (model_filenames E) lf ref d [] h); done.
Qed.

Lemma fooocus_parse_json_resolves_witness :
  FooocusParser.parse_json Demo.env 1%positive (store_of_dict sample_mapping)
  = (Ok 1%positive,
     store_of_dict
       [ ("base_model", PyStr "juggernaut.safetensors");
         ("refiner_model", PyStr "None");
         ("lora_combined_1", PyStr "styleB.safetensors : 0.5");
         ("lora_combined_2", PyNone);
         ("seed", PyStr "12345") ]).
Proof.
  rewrite (fooocus_parse_json_resolves Demo.env 1%positive
             (store_of_dict sample_mapping) sample_mapping
             ["styleA.safetensors"; "styleB.safetensors"]).
  - vm_compute. reflexivity.
  - reflexivity.
  - apply (bool_decide_unpack (NoDup sample_mapping.*1)). vm_compute. exact I.
  - vm_compute. reflexivity.
  - vm_compute. reflexivity.
Defined.

(** X4: when the reserved LoRA is not among the LoRA files,
    [FooocusParser.parse_json] raises [ValueError] whatever it is given, and
    leaves the store as it was. *)
Theorem fooocus_parse_json_reserved_missing (E : Env) (ref : loc) (h : store) :
  downloading_sdxl_lcm_lora E ∉ lora_filenames E →
  FooocusParser.parse_json E ref h = (Raise ValueError, h).
Proof.
  intros Hno. unfold FooocusParser.parse_json, mbind, M_bind, lift.
  by rewrite list_remove_notin.
Qed.

Lemma fooocus_parse_json_reserved_missing_witness :
  (downloading_sdxl_lcm_lora env_without_reserved
     ∉ lora_filenames env_without_reserved)
  ∧ FooocusParser.parse_json env_without_reserved 1%positive
      (store_of_dict sample_mapping)
    = (Raise ValueError, store_of_dict sample_mapping).
Proof.
  assert (downloading_sdxl_lcm_lora env_without_reserved
            ∉ lora_filenames env_without_reserved) as Hno.
  { apply (bool_decide_unpack _). vm_compute. exact I. }
  split; [exact Hno|].
  apply (fooocus_parse_json_reserved_missing env_without_reserved 1%positive
           (store_of_dict sample_mapping) Hno).
Defined.

(** X5: [FooocusParser.parse_json] stops at the first LoRA whose value is a
    text without the separator of a name and a weight: it raises
    [ValueError], the items before it are resolved already, and that item
    and the items after it are as they were. *)
Theorem fooocus_parse_json_stops (E : Env) (ref : loc) (h : store)
    (pre post : dict pyval) (k s : string) (lf : list string) :
  h !! ref = Some (ODict (pre ++ (k, PyStr s) :: post)) →
  NoDup pre.*1 →
  A1111Parser.list_remove (downloading_sdxl_lcm_lora E) (lora_filenames E)
    = Ok lf →
  lf ≠ [] →
  forallb lora_item_ok pre = true →
  FooocusParser.is_lora_key k = true →
  empty_or_none s = false →
  two_parts s = false →
  FooocusParser.parse_json E ref h
  = (Raise ValueError,
     <[ref := ODict ((resolved_item (model_filenames E) lf <$> pre)
                       ++ (k, PyStr s) :: post)]> h).
Proof.
  intros Hh Hnd Hlf Hne Hok Hk Hs Htwo.
  unfold FooocusParser.parse_json, mbind, M_bind, lift, read_dict.
  rewrite Hlf, Hh.
  rewrite (parse_items_stops (model_filenames E) lf ref pre [] post k s h);
    done.
Qed.

Lemma fooocus_parse_json_stops_witness :
  FooocusParser.parse_json Demo.env 1%positive (store_of_dict sample_mapping_bad)
  = (Raise ValueError,
     store_of_dict
       [ ("base_model", PyStr "juggernaut.safetensors");
         ("lora_combined_1", PyStr "styleB.safetensors : 0.5");
         ("lora_combined_2", PyStr "styleA");
         ("lora_combined_3", PyStr "styleA : 0.1") ]).
Proof.
  rewrite (fooocus_parse_json_stops Demo.env 1%positive
             (store_of_dict sample_mapping_bad)
             [ ("base_model", PyStr "juggernaut");
               ("lora_combined_1", PyStr "styleB : 0.5") ]
             [ ("lora_combined_3", PyStr "styleA : 0.1") ]
             "lora_combined_2" "styleA"
             ["styleA.safetensors"; "styleB.safetensors"]).
  - vm_compute. reflexivity.
  - reflexivity.
  - apply (bool_decide_unpack _). vm_compute. exact I.
  - vm_compute. reflexivity.
  - discriminate.
  - vm_compute. reflexivity.
  - reflexivity.
  - reflexivity.
  - vm_compute. reflexivity.
Defined.

(** ** The loop of the Fooocus serializer *)

Section strip_folders.
Context (ref : loc).

Lemma strip_folders_step (seen : list entry) (e : entry) (rest : list entry)
    (items : list entry) (h : store) :
  h !! ref = Some (OList (seen ++ e :: rest)) →
  lora_entry_ok e = true →
  ∃ h', FooocusSerializer.strip_folders ref (length seen) (e :: items) h
        = FooocusSerializer.strip_folders ref (S (length seen)) items h'
        ∧ h' !! ref = Some (OList ((seen ++ [strip_entry e]) ++ rest))
        ∧ ∀ l, <[ref := OList l]> h' = <[ref := OList l]> h.
Proof.
  destruct e as [[label key] value]. intros Hh Hok.
  unfold lora_entry_ok, strip_entry in *. simpl in *.
  destruct (FooocusParser.is_lora_key key) eqn:Hk.
  - destruct value as [|s| | |]; try done. unfold two_parts in Hok.
    destruct (Py.split " : " s) as [|name [|weight [|]]] eqn:Hs; try done.
    unfold mbind, M_bind, setitem_list. rewrite Hh.
    destruct (_ <? _) eqn:Hlt;
      [|apply Nat.ltb_ge in Hlt; rewrite length_app in Hlt; simpl in Hlt; lia].
    eexists. split; [done|]. rewrite lookup_insert_eq.
    split.
    + do 2 f_equal. rewrite <- app_assoc. simpl.
      rewrite <- (Nat.add_0_r (length seen)). by rewrite insert_app_r.
    + intros l. by rewrite insert_insert_eq.
  - exists h. split; [done|]. split; [|done]. by rewrite <- app_assoc.
Qed.

(** The loop on entries that are all well formed *)
Lemma strip_folders_map (items seen : list entry) (h : store) :
  h !! ref = Some (OList (seen ++ items)) →
  forallb lora_entry_ok items = true →
  FooocusSerializer.strip_folders ref (length seen) items h
  = (Ok (), <[ref := OList (seen ++ (strip_entry <$> items))]> h).
Proof.
  revert seen h. induction items as [|e items IH]; intros seen h Hh Hok.
  - simpl. rewrite app_nil_r in *. by rewrite insert_id.
  - simpl in Hok. apply andb_true_iff in Hok as [He Hrest].
    destruct (strip_folders_step seen e items items h Hh He)
      as (h' & -> & Hh' & Hins).
    assert (S (length seen) = length (seen ++ [strip_entry e])) as ->.
    { rewrite length_app. simpl. lia. }
    rewrite (IH _ h' Hh' Hrest), Hins. by rewrite <- app_assoc.
Qed.

(** The loop up to the first LoRA that is not well formed *)
Lemma strip_folders_stops (mid seen post : list entry) (e : entry) (h : store) :
  h !! ref = Some (OList (seen ++ mid ++ e :: post)) →
  forallb lora_entry_ok mid = true →
  lora_entry_ok e = false →
  FooocusSerializer.strip_folders ref (length seen) (mid ++ e :: post) h
  = (Raise (lora_entry_error e),
     <[ref := OList (seen ++ (strip_entry <$> mid) ++ e :: post)]> h).
Proof.
  intros Hh Hok He. revert seen h Hh Hok.
  induction mid as [|e0 mid IH]; intros seen h Hh Hok.
  - simpl in *. rewrite insert_id by done.
    destruct e as [[label key] value].
    unfold lora_entry_ok, lora_entry_error in *. simpl in *.
    destruct (FooocusParser.is_lora_key key); [|done].
    destruct value as [|s| | |]; try done. unfold two_parts in He.
    by destruct (Py.split " : " s) as [|? [|? [|]]].
  - simpl in Hok. apply andb_true_iff in Hok as [He0 Hrest].
    rewrite <- app_comm_cons.
    destruct (strip_folders_step seen e0 (mid ++ e :: post) (mid ++ e :: post)
                h Hh He0) as (h' & -> & Hh' & Hins).
    assert (S (length seen) = length (seen ++ [strip_entry e0])) as ->.
    { rewrite length_app. simpl. lia. }
    rewrite (IH _ h' Hh' Hrest), Hins. by rewrite <- app_assoc.
Qed.

End strip_folders.

(** X6: on a list whose LoRA entries are texts of a name and a weight,
    [FooocusSerializer.parse_string] leaves the list with the name of every
    LoRA entry cut down to its stem, every other entry as it was, and
    returns the dump of the sorted dictionary of those entries and the
    parser state. *)
Theorem fooocus_parse_string_strips (E : Env) (self : ParserState) (ref : loc)
    (h : store) (l : list entry) :
  h !! ref = Some (OList l) →
  forallb lora_entry_ok l = true →
  FooocusSerializer.parse_string E self ref h
  = (Ok (json_dumps E
           (Dict.sorted
              (FooocusSerializer.result_dict E self (strip_entry <$> l)))),
     <[ref := OList (strip_entry <$> l)]> h).
Proof.
  intros Hh Hok.
  unfold FooocusSerializer.parse_string, mbind, M_bind, read_list.
  rewrite Hh.
  pose proof (strip_folders_map ref l [] h Hh Hok) as Hrun.
  cbn [length app] in Hrun. rewrite Hrun. by rewrite lookup_insert_eq.
Qed.

Lemma fooocus_parse_string_strips_witness :
  (FooocusSerializer.parse_string Demo.env sample_state 1%positive
     (store_of_list sample_lora_entries)).2
  = store_of_list
      [ ("Seed", "seed", PyStr "12345");
        ("LoRA 1", "lora_combined_1", PyStr "styleA : 0.8");
        ("Steps", "steps", PyInt 60);
        ("LoRA 2", "lora_combined_2", PyStr "styleB : 0.5") ].
Proof.
  rewrite (fooocus_parse_string_strips Demo.env sample_state 1%positive
             (store_of_list sample_lora_entries) sample_lora_entries).
  - vm_compute. reflexivity.
  - reflexivity.
  - vm_compute. reflexivity.
Defined.

(** X7: [FooocusSerializer.parse_string] stops at the first LoRA entry whose
    value is not a text of a name and a weight: it raises [ValueError] for
    a text, [AttributeError] for what is no text; the LoRA entries before
    it are cut down already, and that entry and the entries after it are as
    they were. *)
Theorem fooocus_parse_string_stops (E : Env) (self : ParserState) (ref : loc)
    (h : store) (pre post : list entry) (e : entry) :
  h !! ref = Some (OList (pre ++ e :: post)) →
  forallb lora_entry_ok pre = true →
  lora_entry_ok e = false →
  FooocusSerializer.parse_string E self ref h
  = (Raise (lora_entry_error e),
     <[ref := OList ((strip_entry <$> pre) ++ e :: post)]> h).
Proof.
  intros Hh Hok He.
  unfold FooocusSerializer.parse_string, mbind, M_bind, read_list.
  rewrite Hh.
  pose proof (strip_folders_stops ref pre [] post e h Hh Hok He) as Hrun.
  cbn [length app] in Hrun. by rewrite Hrun.
Qed.

Lemma fooocus_parse_string_stops_witness :
  FooocusSerializer.parse_string Demo.env sample_state 1%positive
    (store_of_list sample_lora_entries_bad)
  = (Raise ValueError,
     store_of_list
       [ ("LoRA 1", "lora_combined_1", PyStr "styleA : 0.8");
         ("LoRA 2", "lora_combined_2", PyStr "loras/styleB.safetensors");
         ("LoRA 3", "lora_combined_3", PyStr "loras/styleB.safetensors : 0.5") ]).
Proof.
  rewrite (fooocus_parse_string_stops Demo.env sample_state 1%positive
             (store_of_list sample_lora_entries_bad)
             [ ("LoRA 1", "lora_combined_1",
                PyStr "loras/styleA.safetensors : 0.8") ]
             [ ("LoRA 3", "lora_combined_3",
                PyStr "loras/styleB.safetensors : 0.5") ]
             ("LoRA 2", "lora_combined_2", PyStr "loras/styleB.safetensors")).
  - vm_compute. reflexivity.
  - reflexivity.
  - reflexivity.
  - reflexivity.
Defined.

(** ** The dictionary that the Fooocus serializer dumps *)

Lemma get_update_last {V : Type} (d : dict V) (l : list (string * V))
    (k : string) :
  Dict.get k (Dict.update d l)
  = match List.find (λ kv : string * V, String.eqb kv.1 k) (rev l) with
    | Some kv => Some kv.2
    | None => Dict.get k d
    end.
Proof.
  induction l as [|[k0 v0] l IH] using rev_ind; [done|].
  rewrite update_app, rev_app_distr. simpl.
  destruct (String.eqb_spec k0 k) as [->|Hne].
  - by rewrite get_set_eq.
  - by rewrite get_set_ne.
Qed.

Lemma find_fmap {A B : Type} (f : A → B) (p : B → bool) (l : list A) :
  List.find p (f <$> l) = f <$> List.find (λ x, p (f x)) l.
Proof.
  induction l as [|x l IH]; simpl; [done|]. by destruct (p (f x)).
Qed.

Lemma rev_fmap {A B : Type} (f : A → B) (l : list A) :
  rev (f <$> l) = f <$> rev l.
Proof.
  induction l as [|x l IH]; [done|].
  rewrite fmap_cons. cbn [rev]. by rewrite IH, fmap_app.
Qed.

Lemma get_dict_of_entries_last (metadata : list entry) (k : string) :
  Dict.get k (dict_of_entries metadata) = last_value k metadata.
Proof.
  unfold dict_of_entries, last_value. rewrite get_update_last.
  rewrite rev_fmap, find_fmap. simpl.
  by destruct (List.find _ (rev metadata)).
Qed.

Lemma get_notin {V : Type} (d : dict V) (k : string) :
  k ∉ d.*1 → Dict.get k d = None.
Proof.
  intros Hk. destruct (Dict.get k d) as [v|] eqn:Hg; [|done].
  destruct Hk. apply get_elem_of in Hg. apply list_elem_of_fmap. by exists (k, v).
Qed.

Lemma get_update_over {V : Type} (d : dict V) (l : list (string * V))
    (k : string) :
  NoDup l.*1 →
  Dict.get k (Dict.update d l)
  = match Dict.get k l with
    | Some v => Some v
    | None => Dict.get k d
    end.
Proof.
  intros Hnd. destruct (Dict.get k l) as [v|] eqn:Hg.
  - apply get_update_in; [done|]. by apply get_elem_of.
  - apply get_update_notin. by apply get_None_notin.
Qed.

Lemma state_items_NoDup (E : Env) (self : ParserState) :
  NoDup (state_items E self).*1.
Proof.
  unfold state_items.
  destruct (negb (empty_or_none (refiner_model_name self)));
    destruct (negb (String.eqb (metadata_created_by E) ""));
    simpl; repeat (apply NoDup_cons_2; [not_in_list|]); apply NoDup_nil_2.
Qed.

Lemma result_dict_update (E : Env) (self : ParserState) (metadata : list entry) :
  FooocusSerializer.result_dict E self metadata
  = Dict.update (dict_of_entries metadata) (state_items E self).
Proof.
  unfold FooocusSerializer.result_dict, state_items.
  destruct (negb (empty_or_none (refiner_model_name self)));
    destruct (negb (String.eqb (metadata_created_by E) "")); reflexivity.
Qed.

(** X8: in the dictionary that [FooocusSerializer.parse_string] dumps, the
    prompts, the steps, the base model and its hash, the LoRAs, a refiner
    that is set and a configured author are those of the parser state and
    the configuration, whatever the entries have under these keys; any other
    key has the value of the last entry with that key. *)
Theorem fooocus_result_dict_state (E : Env) (self : ParserState)
    (metadata : list entry) (k : string) :
  Dict.get k (FooocusSerializer.result_dict E self metadata)
  = match Dict.get k (state_items E self) with
    | Some v => Some v
    | None => last_value k metadata
    end.
Proof.
  rewrite result_dict_update, get_update_over by apply state_items_NoDup.
  by rewrite get_dict_of_entries_last.
Qed.

(** ** The stages of the A1111 parser *)

Lemma parse_json_line_data (E : Env) (text : string) :
  A1111Parser.parse_json E text
  = A1111Parser.resolve_lora_hashes E
      (A1111Parser.resolve_base_model E
         (A1111Parser.load_performance E (line_data E text))).
Proof.
  unfold A1111Parser.parse_json, line_data, line_prompts, line_params.
  destruct (A1111Parser.split_lines text) as [lines lastline]. simpl.
  destruct (A1111Parser.split_prompts lines) as [[p n] used]. simpl.
  by destruct (extract_styles_from_prompt E p n) as [[styles p'] n'].
Qed.

(** The label of a key that [key_of_label] finds in the table *)
Lemma key_of_label_inv (k key : string) :
  A1111Parser.key_of_label A1111Parser.fooocus_to_a1111 k = Ok key →
  A1111Parser.label key = k ∧ key ∈ A1111Parser.fooocus_to_a1111.*1.
Proof.
  unfold A1111Parser.fooocus_to_a1111. cbn [A1111Parser.key_of_label].
  repeat (match goal with
          | |- context [String.eqb ?l k] =>
              destruct (String.eqb_spec l k) as [<-|_];
              [intros [= <-]; split; [reflexivity|cbn; in_list]|]
          end).
  discriminate.
Qed.

Lemma param_entry_key (E : Env) (lq : string * string) (key value : string) :
  param_entry E lq = Some (key, value) →
  key = "resolution"
  ∨ A1111Parser.key_of_label A1111Parser.fooocus_to_a1111 lq.1 = Ok key.
Proof.
  unfold param_entry. destruct (String.eqb lq.2 ""); [done|].
  destruct (match_imagesize (dequote E lq.2)) as [[w h]|].
  - intros [= <- _]. by left.
  - destruct (A1111Parser.key_of_label _ lq.1) as [key'|]; [|done].
    intros [= <- _]. by right.
Qed.

(** A key that no parameter of the line stands for is as it was before the
    loop over the parameters. *)
Lemma get_store_params_other (E : Env) (ps : list (string * string))
    (data : dict string) (k : string) :
  k ≠ "resolution" →
  no_label (A1111Parser.label k) ps = true →
  Dict.get k (A1111Parser.store_params E ps data) = Dict.get k data.
Proof.
  intros Hres Hno. rewrite store_params_update. apply get_update_notin.
  intros [[key value] [Hk Hin]]%list_elem_of_fmap. simpl in Hk. subst key.
  apply list_elem_of_omap in Hin as (lq & Hlq & Hentry).
  apply param_entry_key in Hentry as [?|Hkey]; [done|].
  apply key_of_label_inv in Hkey as [Hlabel _].
  unfold no_label in Hno. rewrite forallb_forall in Hno.
  apply list_elem_of_In, Hno in Hlq. rewrite Hlabel, String.eqb_refl in Hlq.
  done.
Qed.

Lemma get_store_params_prompt (E : Env) (ps : list (string * string))
    (data : dict string) :
  Dict.get "prompt" (A1111Parser.store_params E ps data) = Dict.get "prompt" data.
Proof.
  rewrite store_params_update. apply get_update_notin.
  intros [[key value] [Hk Hin]]%list_elem_of_fmap. simpl in Hk. subst key.
  apply list_elem_of_omap in Hin as (lq & Hlq & Hentry).
  apply param_entry_key in Hentry as [?|Hkey]; [done|].
  apply key_of_label_inv in Hkey as [_ Hin].
  revert Hin. by apply (bool_decide_unpack _).
Qed.

Lemma known_key_store_params (E : Env) (ps : list (string * string))
    (data : dict string) :
  Forall (λ kv, known_key kv.1 = true) data →
  Forall (λ kv, known_key kv.1 = true) (A1111Parser.store_params E ps data).
Proof.
  intros Hdata. rewrite store_params_update. apply Forall_update; [done|].
  apply Forall_forall. intros [key value] Hin.
  apply list_elem_of_omap in Hin as (lq & Hlq & Hentry).
  apply param_entry_key in Hentry as [->|Hkey]; [done|].
  apply key_of_label_inv in Hkey as [_ Hin]. simpl.
  unfold known_key. apply orb_true_iff. left.
  apply bool_decide_eq_true_2. by right.
Qed.

Lemma known_key_resolve_loras (filenames entries : list string) (li : nat)
    (data data' : dict string) :
  A1111Parser.resolve_loras filenames li entries data = Ok data' →
  Forall (λ kv, known_key kv.1 = true) data →
  Forall (λ kv, known_key kv.1 = true) data'.
Proof.
  revert li data. induction entries as [|lora rest IH]; intros li data; simpl.
  { by intros [= ->]. }
  destruct (Py.split ": " lora) as [|a [|b [|c [|? ?]]]]; try done.
  intros Hrun Hdata. apply (IH _ _ Hrun).
  destruct (A1111Parser.find_stem a filenames); [|done].
  by apply Forall_set.
Qed.

Lemma line_data_prompt (E : Env) (text : string) :
  Dict.get "prompt" (line_data E text)
  = Some (extract_styles_from_prompt E (line_prompts text).1
                                     (line_prompts text).2).1.2.
Proof.
  unfold line_data.
  destruct (extract_styles_from_prompt E _ _) as [[styles p] n].
  by rewrite get_store_params_prompt.
Qed.

Lemma line_data_other (E : Env) (text : string) (k : string) :
  k ∉ ["prompt"; "negative_prompt"; "styles"; "resolution"] →
  no_label (A1111Parser.label k) (line_params text) = true →
  Dict.get k (line_data E text) = None.
Proof.
  intros Hk Hno. unfold line_data.
  destruct (extract_styles_from_prompt E _ _) as [[styles p] n].
  rewrite not_elem_of_cons in Hk. destruct Hk as [H1 Hk].
  rewrite not_elem_of_cons in Hk. destruct Hk as [H2 Hk].
  rewrite not_elem_of_cons in Hk. destruct Hk as [H3 Hk].
  rewrite not_elem_of_cons in Hk. destruct Hk as [H4 _].
  rewrite get_store_params_other by done. simpl.
  destruct (String.eqb_spec k "prompt"); [done|].
  destruct (String.eqb_spec k "negative_prompt"); [done|].
  by destruct (String.eqb_spec k "styles").
Qed.

Lemma line_data_known (E : Env) (text : string) :
  Forall (λ kv, known_key kv.1 = true) (line_data E text).
Proof.
  unfold line_data.
  destruct (extract_styles_from_prompt E _ _) as [[styles p] n].
  apply known_key_store_params. by repeat constructor.
Qed.

(** X9: a text whose last line has no parameter labelled [Lora hashes] is
    always parsed: [A1111Parser.parse_json] returns data and raises
    nothing. *)
Theorem parse_json_total_without_lora_hashes (E : Env) (text : string) :
  no_label "Lora hashes" (line_params text) = true →
  ∃ d, A1111Parser.parse_json E text = Ok d.
Proof.
  intros Hno. rewrite parse_json_line_data.
  unfold A1111Parser.resolve_lora_hashes.
  rewrite get_resolve_base_model, get_load_performance by discriminate.
  rewrite line_data_other; [by eexists|not_in_list|done].
Qed.

Lemma parse_json_total_without_lora_hashes_witness :
  no_label "Lora hashes" (line_params example_text) = true
  ∧ ∃ d, A1111Parser.parse_json env_without_reserved example_text = Ok d.
Proof.
  split; [vm_compute; reflexivity|].
  apply (parse_json_total_without_lora_hashes env_without_reserved example_text).
  vm_compute. reflexivity.
Defined.

Lemma find_stem_Some (name filename : string) (filenames : list string) :
  A1111Parser.find_stem name filenames = Some filename →
  filename ∈ filenames ∧ Py.stem filename = name.
Proof.
  induction filenames as [|f fs IH]; simpl; [done|].
  destruct (String.eqb_spec name (Py.stem f)) as [->|Hne].
  - intros [= <-]. split; [by left|done].
  - intros H. destruct (IH H). split; [by right|done].
Qed.

Lemma find_stem_None (name : string) (filenames : list string) :
  A1111Parser.find_stem name filenames = None →
  Forall (λ f, Py.stem f ≠ name) filenames.
Proof.
  induction filenames as [|f fs IH]; simpl; [by constructor|].
  destruct (String.eqb_spec name (Py.stem f)) as [->|Hne]; [done|].
  intros H. constructor; [done|by apply IH].
Qed.

Lemma load_performance_fallback (E : Env) (data : dict string) :
  Dict.get "performance" data = None →
  Dict.get "performance" (A1111Parser.load_performance E data)
  = match Dict.get "steps" data with
    | Some s => performance_of_steps E s
    | None => None
    end.
Proof.
  intros Hp. unfold A1111Parser.load_performance, Dict.has. rewrite Hp.
  destruct (Dict.get "steps" data) as [s|]; [|done]. simpl.
  destruct (performance_of_steps E s) as [p|]; [|done].
  by rewrite get_set_eq.
Qed.

Lemma has_update {V : Type} (d : dict V) (l : list (string * V)) (k : string) :
  Dict.has k d = true → Dict.has k (Dict.update d l) = true.
Proof.
  revert d. induction l as [|[k0 v0] l IH]; intros d Hk; [done|].
  rewrite update_cons. apply IH. by apply has_set.
Qed.

(** What the stages after the loop over the parameters keep *)
Lemma parse_json_get (E : Env) (text : string) (d : dict string) (k : string) :
  A1111Parser.parse_json E text = Ok d →
  k ≠ "performance" → k ≠ "base_model" →
  Py.startswith "lora_combined_" k = false →
  Dict.get k d = Dict.get k (line_data E text).
Proof.
  rewrite parse_json_line_data. intros Hd H1 H2 H3.
  rewrite (get_resolve_lora_hashes E _ d k H3 Hd).
  by rewrite get_resolve_base_model, get_load_performance.
Qed.

(** X10: when the last line of a text has no parameter labelled
    [Performance], the performance of the data that is read is the one its
    steps stand for; there is none when there are no steps, or when they
    stand for none. *)
Theorem parse_json_performance_from_steps (E : Env) (text : string)
    (d : dict string) :
  A1111Parser.parse_json E text = Ok d →
  no_label "Performance" (line_params text) = true →
  Dict.get "performance" d
  = match Dict.get "steps" d with
    | Some s => performance_of_steps E s
    | None => None
    end.
Proof.
  intros Hd Hno. rewrite (parse_json_get E text d "steps" Hd) by done.
  rewrite parse_json_line_data in Hd.
  rewrite (get_resolve_lora_hashes E _ d "performance" eq_refl Hd).
  rewrite get_resolve_base_model by discriminate.
  apply load_performance_fallback.
  apply line_data_other; [not_in_list|done].
Qed.

Lemma parse_json_performance_from_steps_witness :
  A1111Parser.parse_json Demo.env example_steps_text = Ok example_steps_data
  ∧ no_label "Performance" (line_params example_steps_text) = true
  ∧ Dict.get "performance" example_steps_data
    = match Dict.get "steps" example_steps_data with
      | Some s => performance_of_steps Demo.env s
      | None => None
      end.
Proof.
  split; [vm_compute; reflexivity|]. split; [vm_compute; reflexivity|].
  apply (parse_json_performance_from_steps Demo.env example_steps_text
           example_steps_data); vm_compute; reflexivity.
Defined.

(** X11: the prompt of the data that is read is the prompt that the style
    extractor returns for the lines of the text: no parameter of the last
    line stands for it, and no later stage assigns to it. *)
Theorem parse_json_prompt (E : Env) (text : string) (d : dict string) :
  A1111Parser.parse_json E text = Ok d →
  Dict.get "prompt" d
  = Some (extract_styles_from_prompt E (line_prompts text).1
                                     (line_prompts text).2).1.2.
Proof.
  intros Hd. rewrite (parse_json_get E text d "prompt" Hd) by done.
  apply line_data_prompt.
Qed.

Lemma parse_json_prompt_witness :
  A1111Parser.parse_json Demo.env example_text = Ok example_text_data
  ∧ Dict.get "prompt" example_text_data
    = Some (extract_styles_from_prompt Demo.env (line_prompts example_text).1
                                       (line_prompts example_text).2).1.2.
Proof.
  split; [vm_compute; reflexivity|].
  apply (parse_json_prompt Demo.env example_text example_text_data).
  vm_compute. reflexivity.
Defined.

(** X12: the base model of the data that is read is a known model file, or
    else a name that is the stem of no known model file. *)
Theorem parse_json_base_model (E : Env) (text : string) (d : dict string)
    (m : string) :
  A1111Parser.parse_json E text = Ok d →
  Dict.get "base_model" d = Some m →
  m ∈ model_filenames E ∨ Forall (λ f, Py.stem f ≠ m) (model_filenames E).
Proof.
  rewrite parse_json_line_data. intros Hd.
  rewrite (get_resolve_lora_hashes E _ d "base_model" eq_refl Hd).
  unfold A1111Parser.resolve_base_model.
  destruct (Dict.get "base_model" (A1111Parser.load_performance E _))
    as [name|] eqn:Hname; [|by rewrite Hname].
  destruct (A1111Parser.find_stem name (model_filenames E)) as [f|] eqn:Hf.
  - rewrite get_set_eq. intros [= <-]. left.
    apply find_stem_Some in Hf as [Hin _]. exact Hin.
  - rewrite Hname. intros [= <-]. right. by apply find_stem_None.
Qed.

Lemma parse_json_base_model_witness :
  A1111Parser.parse_json Demo.env example_model_text = Ok example_model_data
  ∧ Dict.get "base_model" example_model_data = Some "juggernaut.safetensors"
  ∧ ("juggernaut.safetensors" ∈ model_filenames Demo.env
     ∨ Forall (λ f, Py.stem f ≠ "juggernaut.safetensors")
              (model_filenames Demo.env)).
Proof.
  split; [vm_compute; reflexivity|]. split; [vm_compute; reflexivity|].
  apply (parse_json_base_model Demo.env example_model_text example_model_data
           "juggernaut.safetensors"); vm_compute; reflexivity.
Defined.

(** X13: the data that is read has the keys [prompt], [negative_prompt] and
    [styles], and every key it has is [prompt], a key of the table of
    labels, or the key of a resolved LoRA. *)
Theorem parse_json_keys (E : Env) (text : string) (d : dict string) :
  A1111Parser.parse_json E text = Ok d →
  Dict.has "prompt" d = true
  ∧ Dict.has "negative_prompt" d = true
  ∧ Dict.has "styles" d = true
  ∧ forallb known_key d.*1 = true.
Proof.
  intros Hd.
  assert (∀ k, k ∈ ["prompt"; "negative_prompt"; "styles"] →
               Dict.has k d = true) as Hhas.
  { intros k Hk. unfold Dict.has.
    rewrite (parse_json_get E text d k Hd);
      [|intros ->; revert Hk; by apply (bool_decide_unpack _)..
       |repeat (apply elem_of_cons in Hk as [->|Hk]; [reflexivity|]);
        by apply elem_of_nil in Hk].
    unfold line_data.
    destruct (extract_styles_from_prompt E _ _) as [[styles p] n].
    rewrite store_params_update.
    apply (has_update _ _ k).
    repeat (apply elem_of_cons in Hk as [->|Hk]; [reflexivity|]).
    by apply elem_of_nil in Hk. }
  split; [apply Hhas; in_list|]. split; [apply Hhas; in_list|].
  split; [apply Hhas; in_list|].
  rewrite parse_json_line_data in Hd.
  assert (Forall (λ kv, known_key kv.1 = true) d) as Hall.
  { unfold A1111Parser.resolve_lora_hashes in Hd.
    assert (Forall (λ kv, known_key kv.1 = true)
                   (A1111Parser.resolve_base_model E
                      (A1111Parser.load_performance E (line_data E text))))
      as Hbase.
    { unfold A1111Parser.resolve_base_model, A1111Parser.load_performance.
      pose proof (line_data_known E text) as Hk.
      repeat case_match; repeat apply Forall_set; done. }
    destruct (Dict.get "lora_hashes" _); [|by injection Hd as <-].
    destruct (A1111Parser.list_remove _ _) as [lf|]; [|done]. cbn in Hd.
    by apply (known_key_resolve_loras _ _ _ _ _ Hd). }
  apply forallb_forall. intros k Hk%list_elem_of_In.
  apply list_elem_of_fmap in Hk as ([k' v] & -> & Hin).
  rewrite Forall_forall in Hall. by apply (Hall _ Hin).
Qed.

Lemma parse_json_keys_witness :
  A1111Parser.parse_json Demo.env example_model_text = Ok example_model_data
  ∧ Dict.has "prompt" example_model_data = true
  ∧ Dict.has "negative_prompt" example_model_data = true
  ∧ Dict.has "styles" example_model_data = true
  ∧ forallb known_key example_model_data.*1 = true.
Proof.
  split; [vm_compute; reflexivity|].
  apply (parse_json_keys Demo.env example_model_text example_model_data).
  vm_compute. reflexivity.
Defined.

(** ** The keys of the resolved LoRAs *)

Lemma ord_digit_char (d : nat) : d < 10 → Py.ord (Py.digit_char d) - 48 = d.
Proof.
  intros Hd. unfold Py.ord, Py.digit_char, Py.chr.
  rewrite nat_ascii_embedding by lia. lia.
Qed.

Lemma str_pos_go_value (fuel : nat) (n : N) (acc : string) :
  (n < 2 ^ N.of_nat fuel)%N →
  digits_value (Py.str_pos_go fuel n acc)
  = (n * 10 ^ N.of_nat (String.length acc) + digits_value acc)%N.
Proof.
  revert n acc. induction fuel as [|f IH]; intros n acc Hn.
  - simpl in *. assert (n = 0%N) as -> by lia. lia.
  - cbn [Py.str_pos_go].
    assert (N.to_nat (n mod 10) < 10) as Hd.
    { pose proof (N.mod_upper_bound n 10). lia. }
    destruct (N.ltb_spec n 10) as [Hlt|Hge].
    + cbn [digits_value]. rewrite ord_digit_char by done.
      rewrite N2Nat.id, N.mod_small by done. done.
    + rewrite IH.
      * cbn [digits_value String.length]. rewrite ord_digit_char by done.
        rewrite N2Nat.id, Nat2N.inj_succ, N.pow_succ_r by lia.
        pose proof (N.div_mod n 10). nia.
      * apply N.Div0.div_lt_upper_bound.
        rewrite Nat2N.inj_succ, N.pow_succ_r in Hn by lia. lia.
Qed.

Lemma str_int_value (a : nat) :
  digits_value (Py.str_int (Z.of_nat a)) = N.of_nat a.
Proof.
  unfold Py.str_int.
  destruct (Z.ltb_spec (Z.of_nat a) 0) as [?|_]; [lia|].
  rewrite Z.abs_eq by lia.
  assert (Z.to_N (Z.of_nat a) = N.of_nat a) as -> by lia.
  rewrite str_pos_go_value; [simpl; lia|].
  rewrite Nat2N.inj_succ, N2Nat.id.
  destruct (N.eq_dec (N.of_nat a) 0) as [->|Hne]; [done|].
  apply N.log2_spec. lia.
Qed.

Lemma lora_key_inj (i j : nat) : lora_key i = lora_key j → i = j.
Proof.
  unfold lora_key. intros H.
  assert (Py.str_int (Z.of_nat (i + 1)) = Py.str_int (Z.of_nat (j + 1))) as Hs.
  { revert H. generalize (Py.str_int (Z.of_nat (i + 1))).
    generalize (Py.str_int (Z.of_nat (j + 1))). intros a b H.
    by injection H. }
  apply (f_equal digits_value) in Hs. rewrite !str_int_value in Hs. lia.
Qed.

Lemma lora_key_prefix (i : nat) :
  Py.startswith "lora_combined_" (lora_key i) = true.
Proof. unfold lora_key. by generalize (Py.str_int (Z.of_nat (i + 1))). Qed.

Lemma resolve_loras_keeps (filenames entries : list string) (li : nat)
    (data data' : dict string) (k : string) :
  A1111Parser.resolve_loras filenames li entries data = Ok data' →
  (∀ j, k ≠ lora_key (li + j)) →
  Dict.get k data' = Dict.get k data.
Proof.
  revert li data. induction entries as [|lora rest IH]; intros li data; simpl.
  { by intros [= ->]. }
  destruct (Py.split ": " lora) as [|a [|b [|c [|? ?]]]]; try done.
  intros Hrun Hk. rewrite (IH _ _ Hrun).
  - destruct (A1111Parser.find_stem a filenames); [|done].
    apply get_set_ne. intros <-. apply (Hk 0). unfold lora_key.
    by rewrite Nat.add_0_r.
  - intros j. replace (S li + j) with (li + S j) by lia. apply Hk.
Qed.

(** What the loop over the LoRA summaries leaves for each of them *)
Lemma resolve_loras_get (filenames entries : list string) (li : nat)
    (data data' : dict string) (i : nat) (entry : string) :
  A1111Parser.resolve_loras filenames li entries data = Ok data' →
  entries !! i = Some entry →
  ∃ name hash weight,
    Py.split ": " entry = [name; hash; weight]
    ∧ Dict.get (lora_key (li + i)) data'
      = match A1111Parser.find_stem name filenames with
        | Some filename => Some (filename +:+ " : " +:+ weight)
        | None => Dict.get (lora_key (li + i)) data
        end.
Proof.
  revert li data i. induction entries as [|lora rest IH]; intros li data i;
    [done|].
  cbn [A1111Parser.resolve_loras].
  destruct (Py.split ": " lora) as [|a [|b [|c [|? ?]]]] eqn:Hs; try done.
  intros Hrun Hi. destruct i as [|i]; simpl in Hi.
  - injection Hi as <-. exists a, b, c. split; [done|].
    rewrite Nat.add_0_r.
    rewrite (resolve_loras_keeps _ _ _ _ _ _ Hrun).
    + destruct (A1111Parser.find_stem a filenames); [|done].
      unfold lora_key. by rewrite get_set_eq.
    + intros j Heq. apply lora_key_inj in Heq. lia.
  - destruct (IH _ _ _ Hrun Hi) as (name & hash & weight & Hsplit & Hget).
    exists name, hash, weight. split; [done|].
    replace (li + S i) with (S li + i) by lia. rewrite Hget.
    destruct (A1111Parser.find_stem name filenames); [done|].
    destruct (A1111Parser.find_stem a filenames); [|done].
    apply get_set_ne. intros Heq.
    assert (lora_key li = lora_key (S li + i)) as Heq' by exact Heq.
    apply lora_key_inj in Heq'. lia.
Qed.

Lemma table_keys_store_params (E : Env) (ps : list (string * string))
    (data : dict string) :
  Forall (λ kv, kv.1 ∈ "prompt" :: A1111Parser.fooocus_to_a1111.*1) data →
  Forall (λ kv, kv.1 ∈ "prompt" :: A1111Parser.fooocus_to_a1111.*1)
         (A1111Parser.store_params E ps data).
Proof.
  intros Hdata. rewrite store_params_update. apply Forall_update; [done|].
  apply Forall_forall. intros [key value] Hin.
  apply list_elem_of_omap in Hin as (lq & Hlq & Hentry).
  apply param_entry_key in Hentry as [->|Hkey].
  - simpl. cbn. in_list.
  - apply key_of_label_inv in Hkey as [_ Hin]. simpl. by right.
Qed.

(** Before the LoRAs are resolved the data has no key of a resolved
    LoRA. *)
Lemma no_lora_key_before (E : Env) (text : string) (k : string) :
  Py.startswith "lora_combined_" k = true →
  Dict.get k (A1111Parser.resolve_base_model E
                (A1111Parser.load_performance E (line_data E text))) = None.
Proof.
  intros Hk.
  assert (k ∉ "prompt" :: A1111Parser.fooocus_to_a1111.*1) as Hnot.
  { cbn. rewrite !not_elem_of_cons.
    repeat (split; [intros ->; discriminate Hk|]). apply not_elem_of_nil. }
  assert (Forall (λ kv, kv.1 ∈ "prompt" :: A1111Parser.fooocus_to_a1111.*1)
                 (A1111Parser.resolve_base_model E
                    (A1111Parser.load_performance E (line_data E text))))
    as Hall.
  { assert (Forall (λ kv, kv.1 ∈ "prompt" :: A1111Parser.fooocus_to_a1111.*1)
                   (line_data E text)) as Hline.
    { unfold line_data.
      destruct (extract_styles_from_prompt E _ _) as [[styles p] n].
      apply table_keys_store_params.
      repeat (apply Forall_cons; split; [cbn; in_list|]). constructor. }
    unfold A1111Parser.resolve_base_model, A1111Parser.load_performance.
    repeat case_match; repeat apply Forall_set; try done; cbn; in_list. }
  apply get_notin. intros [[k' v] [-> Hin]]%list_elem_of_fmap.
  rewrite Forall_forall in Hall. by apply Hall in Hin.
Qed.

(** X14: when the data that is read has a LoRA summary, the reserved LoRA is
    among the LoRA files, every entry of the summary has a name, a hash and
    a weight, and the entry at place [i], counted from 0, is resolved under
    the key [lora_combined_] with the number [i + 1]: to the first LoRA
    file, the reserved one apart, with the stem of its name, followed by
    its weight; the key is absent when no file has that stem. *)
Theorem parse_json_loras (E : Env) (text : string) (d : dict string)
    (hashes : string) :
  A1111Parser.parse_json E text = Ok d →
  Dict.get "lora_hashes" d = Some hashes →
  ∃ lf,
    A1111Parser.list_remove (downloading_sdxl_lcm_lora E) (lora_filenames E)
      = Ok lf
    ∧ ∀ i entry,
        Py.split ", " hashes !! i = Some entry →
        ∃ name hash weight,
          Py.split ": " entry = [name; hash; weight]
          ∧ Dict.get (lora_key i) d
            = (λ filename, filename +:+ " : " +:+ weight)
                <$> A1111Parser.find_stem name lf.
Proof.
  intros Hd Hh. rewrite (parse_json_get E text d "lora_hashes" Hd) in Hh by done.
  rewrite parse_json_line_data in Hd.
  unfold A1111Parser.resolve_lora_hashes in Hd.
  rewrite get_resolve_base_model, get_load_performance, Hh in Hd by discriminate.
  destruct (A1111Parser.list_remove _ _) as [lf|]; [|done]. cbn in Hd.
  exists lf. split; [done|]. intros i entry Hi.
  destruct (resolve_loras_get _ _ _ _ _ _ _ Hd Hi)
    as (name & hash & weight & Hs & Hget).
  exists name, hash, weight. split; [done|]. simpl in Hget. rewrite Hget.
  destruct (A1111Parser.find_stem name lf); [done|].
  apply no_lora_key_before, lora_key_prefix.
Qed.

Lemma parse_json_loras_witness :
  A1111Parser.parse_json Demo.env example_model_text = Ok example_model_data
  ∧ Dict.get "lora_hashes" example_model_data
    = Some "styleB: ef567890: 0.5, styleZ: 00000000: 0.3"
  ∧ Dict.get (lora_key 0) example_model_data = Some "styleB.safetensors : 0.5"
  ∧ Dict.get (lora_key 1) example_model_data = None.
Proof.
  assert (A1111Parser.parse_json Demo.env example_model_text
          = Ok example_model_data) as Hd by (vm_compute; reflexivity).
  assert (Dict.get "lora_hashes" example_model_data
          = Some "styleB: ef567890: 0.5, styleZ: 00000000: 0.3") as Hh
    by (vm_compute; reflexivity).
  split; [exact Hd|]. split; [exact Hh|].
  destruct (parse_json_loras Demo.env example_model_text example_model_data
              "styleB: ef567890: 0.5, styleZ: 00000000: 0.3" Hd Hh)
    as (lf & Hlf & Hall).
  vm_compute in Hlf. injection Hlf as <-.
  destruct (Hall 0 "styleB: ef567890: 0.5" eq_refl)
    as (n0 & h0 & w0 & Hs0 & Hg0).
  destruct (Hall 1 "styleZ: 00000000: 0.3" eq_refl)
    as (n1 & h1 & w1 & Hs1 & Hg1).
  vm_compute in Hs0. injection Hs0 as <- <- <-.
  vm_compute in Hs1. injection Hs1 as <- <- <-.
  split; [exact Hg0|exact Hg1].
Defined.

(** ** What the A1111 serializer reads of its entries *)

Lemma generation_params_reads (E : Env) (self : ParserState)
    (m1 m2 : list entry) :
  Forall (λ k, Dict.get k (dict_of_entries m1) = Dict.get k (dict_of_entries m2))
         read_keys →
  A1111Serializer.generation_params E self m1
  = A1111Serializer.generation_params E self m2.
Proof.
  intros Hall. rewrite Forall_forall in Hall.
  unfold A1111Serializer.generation_params.
  set (d1 := dict_of_entries m1) in *. set (d2 := dict_of_entries m2) in *.
  assert (∀ k, k ∈ read_keys → Dict.getitem k d1 = Dict.getitem k d2) as Hget.
  { intros k Hk. unfold Dict.getitem. by rewrite (Hall k Hk). }
  assert (∀ p, A1111Serializer.add_optional d1 p
               = A1111Serializer.add_optional d2 p) as Hopt.
  { intros p. unfold A1111Serializer.add_optional, A1111Serializer.optional_keys.
    cbn [fold_left].
    rewrite (Hall "adaptive_cfg"), (Hall "overwrite_switch"),
      (Hall "refiner_swap_method"), (Hall "freeu")
      by (unfold read_keys, required_keys, A1111Serializer.optional_keys;
          cbn; in_list).
    done. }
  assert (∀ k, k ∈ required_keys → k ∈ read_keys) as Hreq.
  { intros k Hk. unfold read_keys. apply elem_of_app. by left. }
  rewrite (Hget "resolution") by (apply Hreq; unfold required_keys; in_list).
  destruct (Dict.getitem "resolution" d2) as [res|]; cbn -[A1111Serializer.add_optional]; [|done].
  destruct (eval_pair E res) as [[width height]|]; cbn -[A1111Serializer.add_optional]; [|done].
  rewrite (Hget "performance") by (apply Hreq; unfold required_keys; in_list).
  destruct (Dict.getitem "performance" d2); cbn -[A1111Serializer.add_optional]; [|done].
  rewrite (Hget "sampler") by (apply Hreq; unfold required_keys; in_list).
  destruct (Dict.getitem "sampler" d2); cbn -[A1111Serializer.add_optional]; [|done].
  rewrite (Hget "seed") by (apply Hreq; unfold required_keys; in_list).
  destruct (Dict.getitem "seed" d2); cbn -[A1111Serializer.add_optional]; [|done].
  rewrite (Hget "guidance_scale") by (apply Hreq; unfold required_keys; in_list).
  destruct (Dict.getitem "guidance_scale" d2); cbn -[A1111Serializer.add_optional]; [|done].
  rewrite (Hget "sharpness") by (apply Hreq; unfold required_keys; in_list).
  destruct (Dict.getitem "sharpness" d2); cbn -[A1111Serializer.add_optional]; [|done].
  rewrite (Hget "adm_guidance") by (apply Hreq; unfold required_keys; in_list).
  destruct (Dict.getitem "adm_guidance" d2); cbn -[A1111Serializer.add_optional]; [|done].
  rewrite (Hget "base_model") by (apply Hreq; unfold required_keys; in_list).
  destruct (Dict.getitem "base_model" d2) as [b|]; cbn -[A1111Serializer.add_optional]; [|done].
  destruct (stem_of b); cbn -[A1111Serializer.add_optional]; [|done].
  rewrite (Hget "version") by (apply Hreq; unfold required_keys; in_list).
  destruct (Dict.getitem "version" d2); cbn -[A1111Serializer.add_optional]; [|done].
  by rewrite Hopt.
Qed.




(** ** What the patterns match *)

Section patterns.
Context {A : Type}.
Implicit Types (k : Re.cont A).

Lemma run_bol k (pos : nat) (s : string) (g : list string) :
  Re.run Re.Bol pos s g k = if pos =? 0 then k pos s g else None.
Proof. done. Qed.

Lemma run_eol k (pos : nat) (s : string) (g : list string) :
  Re.run Re.Eol pos s g k = if Re.at_eol s then k pos s g else None.
Proof. done. Qed.

(** What a starred class has read when the match goes on *)
Lemma star_cls_sound p k (fuel pos : nat) (s : string) (g : list string) (x : A) :
  Re.star_loop (Re.run (Re.Cls p)) k fuel pos s g = Some x →
  ∃ u t, s = u +:+ t ∧ Py.all p u = true
         ∧ k (pos + String.length u) t g = Some x.
Proof.
  revert pos s. induction fuel as [|fuel IH]; intros pos s.
  - simpl. intros Hk. exists "", s. by rewrite Nat.add_0_r.
  - rewrite star_loop_S.
    assert (k pos s g = Some x →
            ∃ u t, s = u +:+ t ∧ Py.all p u = true
                   ∧ k (pos + String.length u) t g = Some x) as Hstop.
    { intros Hk. exists "", s. by rewrite Nat.add_0_r. }
    destruct s as [|c s].
    + by rewrite run_cls_nil.
    + rewrite run_cls_cons. destruct (p c) eqn:Hc; [|done].
      assert ((pos <? S pos) = true) as -> by (apply Nat.ltb_lt; lia).
      destruct (Re.star_loop (Re.run (Re.Cls p)) k fuel (S pos) s g)
        as [y|] eqn:Hrun; [|done].
      intros [= ->]. destruct (IH _ _ Hrun) as (u & t & -> & Hu & Hk).
      exists (String c u), t. split; [done|]. split; [by simpl; rewrite Hc|].
      rewrite <- Hk. f_equal. simpl. lia.
Qed.

Lemma run_number k (w t : string) (pos : nat) (g : list string) (x : A) :
  number w = true →
  head_fails Py.is_digit t = true →
  k (pos + String.length w) t (g ++ [w]) = Some x →
  Re.run (Re.Grp (Re.Plus (Re.Cls Py.is_digit))) pos (w +:+ t) g k = Some x.
Proof.
  unfold number. destruct w as [|c w]; [done|].
  intros Hn Ht Hk. simpl in Hn. apply andb_true_iff in Hn as [Hc Hw].
  rewrite run_grp. unfold Re.Plus. rewrite sapp_cons, run_cat, run_cls_cons, Hc.
  apply run_star_cls; [done..|].
  replace (S pos + String.length w - pos) with (String.length (String c w))
    by (simpl; lia).
  rewrite <- sapp_cons, stake_app. rewrite <- Hk. f_equal. simpl. lia.
Qed.

Lemma run_number_inv k (s : string) (pos : nat) (g : list string) (x : A) :
  Re.run (Re.Grp (Re.Plus (Re.Cls Py.is_digit))) pos s g k = Some x →
  ∃ w t, s = w +:+ t ∧ number w = true
         ∧ k (pos + String.length w) t (g ++ [w]) = Some x.
Proof.
  rewrite run_grp. unfold Re.Plus. rewrite run_cat.
  destruct s as [|c s]; [by rewrite run_cls_nil|].
  rewrite run_cls_cons. destruct (Py.is_digit c) eqn:Hc; [|done].
  rewrite run_star. intros Hrun. apply star_cls_sound in Hrun
    as (u & t & -> & Hu & Hk).
  exists (String c u), t. split; [done|].
  split; [unfold number; simpl; by rewrite Hc|].
  replace (S pos + String.length u - pos) with (String.length (String c u)) in Hk
    by (simpl; lia).
  rewrite <- sapp_cons, stake_app in Hk. rewrite <- Hk. f_equal. simpl. lia.
Qed.

End patterns.

Lemma at_eol_inv (s : string) :
  Re.at_eol s = true → s = "" ∨ s = Py.s1 Py.nl.
Proof.
  destruct s as [|c [|c' s]]; simpl; [by left| |done].
  intros ->%Ascii.eqb_eq. by right.
Qed.

(** X17: [re_imagesize] matches exactly the texts of a number, the letter x
    and a number, with or without a newline at the end, and its groups are
    the two numbers. *)
Theorem match_imagesize_spec (v w h : string) :
  match_imagesize v = Some (w, h)
  ↔ number w = true ∧ number h = true
    ∧ (v = w +:+ "x" +:+ h ∨ v = w +:+ "x" +:+ h +:+ Py.s1 Py.nl).
Proof.
  split.
  - unfold match_imagesize, Re.match_, Re.match_here, re_imagesize.
    destruct (Re.run _ 0 v [] _) as [[g s']|] eqn:Hrun; [|done].
    rewrite run_cat, run_bol in Hrun. cbn [Nat.eqb] in Hrun.
    rewrite run_cat in Hrun.
    apply run_number_inv in Hrun as (w0 & t & -> & Hw & Hrun).
    cbv beta in Hrun. rewrite run_cat in Hrun. destruct t as [|c t];
      [unfold Re.Chr in Hrun; by rewrite run_cls_nil in Hrun|].
    rewrite run_chr_cons in Hrun.
    destruct (Py.char_eqb c "x") eqn:Hc; [|done].
    apply Ascii.eqb_eq in Hc as ->.
    rewrite run_cat in Hrun.
    apply run_number_inv in Hrun as (h0 & t3 & -> & Hh & Hrun).
    cbv beta in Hrun. rewrite run_eol in Hrun. destruct (Re.at_eol t3) eqn:Heol; [|done].
    injection Hrun as <- <-. simpl. intros [= <- <-].
    split; [done|]. split; [done|].
    apply at_eol_inv in Heol as [->| ->]; [left|right]; [|done].
    by rewrite sapp_nil_r.
  - intros (Hw & Hh & Hv).
    assert (∀ tail, Re.at_eol tail = true →
                    head_fails Py.is_digit tail = true →
                    match_imagesize (w +:+ "x" +:+ h +:+ tail) = Some (w, h))
      as Hmatch.
    { intros tail Heol Hhead.
      unfold match_imagesize, Re.match_, Re.match_here, re_imagesize.
      assert (Re.run
                (Re.Cat Re.Bol
                   (Re.Cat (Re.Grp (Re.Plus (Re.Cls Py.is_digit)))
                      (Re.Cat (Re.Chr "x")
                         (Re.Cat (Re.Grp (Re.Plus (Re.Cls Py.is_digit))) Re.Eol))))
                0 (w +:+ "x" +:+ h +:+ tail) []
                (λ (_ : nat) (s' : string) (g : list string), Some (g, s'))
              = Some ([w; h], tail)) as ->; [|done].
      rewrite run_cat, run_bol. cbn [Nat.eqb]. rewrite run_cat.
      apply run_number; [done|reflexivity|]. cbv beta.
      change ("x" +:+ h +:+ tail) with (String "x" (h +:+ tail)).
      rewrite run_cat, run_chr_cons. change (Py.char_eqb "x" "x") with true.
      cbv iota. rewrite run_cat.
      apply run_number; [done|done|]. cbv beta.
      rewrite run_eol, Heol. done. }
    destruct Hv as [->| ->].
    + rewrite <- (sapp_nil_r h) at 1. by apply Hmatch.
    + by apply Hmatch.
Qed.

(** X18: [re_param] reads a parameter line back: for labels of a word
    character and one or more characters of the key class, and values that
    either have no comma and start with neither whitespace nor a double
    quote, or are a double-quoted text of escapes and of characters that
    are neither backslash nor double quote, [findall] on the labels and
    values written with a colon and joined by commas gives the labels and
    values again. *)
Theorem re_param_reads_line (ps : list (string * string)) :
  ps ≠ [] →
  forallb readable ps = true →
  findall_params (render_pairs ps) = ps.
Proof. apply findall_params_render. Qed.

Lemma re_param_reads_line_witness :
  findall_params (render_pairs sample_pairs) = sample_pairs.
Proof.
  apply (re_param_reads_line sample_pairs); [discriminate|].
  vm_compute. reflexivity.
Defined.

(** ** A text without a parameter line *)

Lemma split_go_nonempty (sep : string) (s : string) (skip : nat) (cur : string) :
  Py.split_go sep skip cur s ≠ [].
Proof.
  revert skip cur. induction s as [|c s IH]; intros skip cur; simpl; [done|].
  destruct skip; [|apply IH]. destruct (Py.startswith sep (String c s)); [done|].
  apply IH.
Qed.

(** X19: a text whose last line has fewer than three parameters is all
    prompt: its last line is read with the lines of the prompts, no
    parameter is read, and the data has the keys [prompt],
    [negative_prompt] and [styles] only, with what the style extractor
    returns for the prompts of all the lines. *)
Theorem parse_json_without_parameters (E : Env) (text : string) :
  length (findall_params (List.last (text_lines text) "")) < 3 →
  let prompts := (A1111Parser.split_prompts (text_lines text)).1 in
  let found := extract_styles_from_prompt E prompts.1 prompts.2 in
  A1111Parser.parse_json E text
  = Ok [ ("prompt", found.1.2);
         ("negative_prompt", found.2);
         ("styles", str_list found.1.1) ].
Proof.
  intros Hlen. cbv zeta.
  unfold A1111Parser.parse_json, A1111Parser.split_lines. fold (text_lines text).
  apply Nat.ltb_lt in Hlen. rewrite Hlen.
  rewrite <- app_removelast_last by apply split_go_nonempty.
  destruct (A1111Parser.split_prompts (text_lines text)) as [[p n] used].
  cbn [fst snd].
  destruct (extract_styles_from_prompt E p n) as [[styles p'] n'].
  cbn [fst snd].
  assert (findall_params "" = []) as -> by (vm_compute; reflexivity).
  reflexivity.
Qed.

Lemma parse_json_without_parameters_witness :
  A1111Parser.parse_json Demo.env example_prompt_text
  = Ok [ ("prompt", "a castle on a hill");
         ("negative_prompt", String.concat (Py.s1 Py.nl) ["fog"; "Steps: 20, Seed: 1"]);
         ("styles", "[]") ].
Proof.
  rewrite (parse_json_without_parameters Demo.env example_prompt_text).
  - vm_compute. reflexivity.
  - vm_compute. lia.
Defined.

(** ** When the A1111 parser raises *)

Lemma resolve_loras_total (filenames entries : list string) (li : nat)
    (data : dict string) :
  forallb (λ entry, length (Py.split ": " entry) =? 3) entries = true →
  ∃ data', A1111Parser.resolve_loras filenames li entries data = Ok data'.
Proof.
  revert li data. induction entries as [|lora rest IH]; intros li data Hall.
  - by eexists.
  - simpl in Hall. apply andb_true_iff in Hall as [Hlora Hrest].
    cbn [A1111Parser.resolve_loras].
    destruct (Py.split ": " lora) as [|a [|b [|c [|? ?]]]]; try done.
    by apply IH.
Qed.

Lemma resolve_loras_parts (filenames entries : list string) (li : nat)
    (data data' : dict string) :
  A1111Parser.resolve_loras filenames li entries data = Ok data' →
  forallb (λ entry, length (Py.split ": " entry) =? 3) entries = true.
Proof.
  revert li data. induction entries as [|lora rest IH]; intros li data; [done|].
  cbn [A1111Parser.resolve_loras forallb].
  destruct (Py.split ": " lora) as [|a [|b [|c [|? ?]]]]; try done.
  intros Hrun. by rewrite (IH _ _ Hrun).
Qed.

Lemma list_remove_Ok_in (x : string) (l l' : list string) :
  A1111Parser.list_remove x l = Ok l' → x ∈ l.
Proof.
  revert l'. induction l as [|y l IH]; intros l'; simpl; [done|].
  destruct (String.eqb_spec y x) as [->|Hne]; [by left|].
  destruct (A1111Parser.list_remove x l) as [l''|]; [|done].
  intros _. right. by eapply IH.
Qed.

(** X20: [A1111Parser.parse_json] returns data exactly when the data after
    its loop over the parameters has no LoRA summary, or has one that is
    read: the reserved LoRA is among the LoRA files and every entry of the
    summary, split at its colons, has three parts. In every other case it
    raises. *)
Theorem parse_json_parses (E : Env) (text : string) :
  (∃ d, A1111Parser.parse_json E text = Ok d) ↔ parses E text = true.
Proof.
  rewrite parse_json_line_data. unfold parses, A1111Parser.resolve_lora_hashes.
  rewrite get_resolve_base_model, get_load_performance by discriminate.
  destruct (Dict.get "lora_hashes" (line_data E text)) as [hashes|];
    [|split; [done|by eexists]].
  unfold loras_readable. split.
  - intros [d Hd].
    destruct (A1111Parser.list_remove _ _) as [lf|] eqn:Hlf; [|done].
    cbn in Hd. apply andb_true_iff. split.
    + apply bool_decide_eq_true_2. by eapply list_remove_Ok_in.
    + by eapply resolve_loras_parts.
  - intros [Hin Hall]%andb_true_iff. apply bool_decide_eq_true_1 in Hin.
    destruct (list_remove_ok _ _ Hin) as [lf ->]. cbn.
    by apply resolve_loras_total.
Qed.

(** ** The files that [set_data] hashes *)

Lemma get_sha256_calls (E : Env) (p q : string) (w : World) :
  q ∈ sha256_calls (get_sha256 E p w).2 → q ∈ sha256_calls w ∨ q = p.
Proof.
  destruct (hash_cache w !! p) as [h|] eqn:Hp.
  - rewrite (get_sha256_hit E w p h Hp). by left.
  - rewrite (get_sha256_miss E w p Hp). simpl.
    intros [?|?%list_elem_of_singleton]%elem_of_app; [by left|by right].
Qed.

Lemma set_data_loras_calls (E : Env) (l : list (string * string))
    (acc : list lora_entry) (w : World) (q : string) :
  q ∈ sha256_calls (set_data_loras E l acc w).2 →
  q ∈ sha256_calls w ∨ q ∈ lora_path E <$> List.filter named l.
Proof.
  revert acc w. induction l as [|[n wt] l IH]; intros acc w; [by left|].
  cbn [set_data_loras List.filter].
  assert (named (n, wt) = negb (String.eqb n "None")) as -> by done.
  destruct (negb (String.eqb n "None")).
  - pose proof (get_sha256_calls E (path_join (path_loras E) n) q w) as Hcall.
    destruct (get_sha256 E (path_join (path_loras E) n) w) as [h w1].
    intros [Hq|Hq]%IH.
    + destruct (Hcall Hq) as [?| ->]; [by left|]. right. rewrite fmap_cons. by left.
    + right. rewrite fmap_cons. by right.
  - apply IH.
Qed.

(** X21: [set_data] asks the hash of the files of its models only: a file
    that has been hashed when it returns was hashed before, or is the
    checkpoint of the base model, the checkpoint of a refiner that is
    neither empty nor [None], or the file of a LoRA whose name is not
    [None]; and when it returns each of these files is in the cache. *)
Theorem set_data_hashes (E : Env) (self : ParserState) (fp fnp : list string)
    (st : Z) (bm rm : string) (ls : list (string * string)) (w : World) :
  let w' := (set_data E self fp fnp st bm rm ls w).2 in
  (∀ p, p ∈ sha256_calls w' →
        p ∈ sha256_calls w ∨ p ∈ set_data_files E bm rm ls)
  ∧ (∀ p, p ∈ set_data_files E bm rm ls → is_Some (hash_cache w' !! p)).
Proof.
  cbv zeta. rewrite set_data_eq. cbv zeta. cbn [snd].
  unfold set_data_files.
  pose proof (get_sha256_grows E (checkpoint_path E bm) w) as (_ & Hin1 & _).
  set (w1 := (get_sha256 E (checkpoint_path E bm) w).2) in *.
  set (g2 := if negb (empty_or_none rm)
             then (Py.stem rm, (get_sha256 E (checkpoint_path E rm) w1).1,
                   (get_sha256 E (checkpoint_path E rm) w1).2)
             else (refiner_model_name self, refiner_model_hash self, w1)).
  assert ((∀ p, p ∈ sha256_calls g2.2 →
                p ∈ sha256_calls w1
                ∨ p ∈ (if negb (empty_or_none rm)
                       then [checkpoint_path E rm] else []))
          ∧ (∀ q, is_Some (hash_cache w1 !! q) → is_Some (hash_cache g2.2 !! q))
          ∧ (∀ p, p ∈ (if negb (empty_or_none rm)
                       then [checkpoint_path E rm] else []) →
                  is_Some (hash_cache g2.2 !! p))) as (Hcalls2 & Hkeep2 & Hin2).
  { subst g2. destruct (negb (empty_or_none rm)); cbn [fst snd].
    - pose proof (get_sha256_grows E (checkpoint_path E rm) w1)
        as (_ & Hin & Hkeep).
      split; [|split].
      + intros p [?| ->]%get_sha256_calls; [by left|]. right. by left.
      + intros q Hq. by apply Hkeep.
      + by intros p ->%list_elem_of_singleton.
    - split; [by left|]. split; [done|]. by intros p ?%elem_of_nil. }
  destruct (set_data_loras_grows E ls [] g2.2) as (_ & Hall & Hkeep3).
  split.
  - intros p [Hp|Hp]%set_data_loras_calls.
    + destruct (Hcalls2 p Hp) as [Hp1|Hp2].
      * apply get_sha256_calls in Hp1 as [?| ->]; [by left|]. right. by left.
      * right. right. apply elem_of_app. by left.
    + right. right. apply elem_of_app. by right.
  - intros p [->|[Hp|Hp]%elem_of_app]%elem_of_cons.
    + by apply Hkeep3, Hkeep2.
    + by apply Hkeep3, Hin2.
    + apply list_elem_of_fmap in Hp as (nw & -> & Hnw).
      apply list_elem_of_In, filter_In in Hnw as [Hnw Hnamed].
      rewrite Forall_forall in Hall. apply Hall; [|done].
      by apply list_elem_of_In.
Qed.

(** ** What a parameter of the last line stores *)

Lemma find_rev_last {V : Type} (l : list (string * V)) (k : string) :
  match List.find (λ kv : string * V, String.eqb kv.1 k) (rev l) with
  | Some kv => Some kv.2
  | None => None
  end
  = last (omap (λ kv : string * V, if String.eqb kv.1 k then Some kv.2 else None) l).
Proof.
  induction l as [|[k0 v0] l IH] using rev_ind; [done|].
  rewrite rev_app_distr, omap_app. simpl.
  destruct (String.eqb k0 k).
  - by rewrite last_snoc.
  - by rewrite app_nil_r.
Qed.

Lemma omap_omap {X Y Z : Type} (f : X → option Y) (g : Y → option Z)
    (l : list X) :
  omap g (omap f l) = omap (λ x, f x ≫= g) l.
Proof.
  induction l as [|x l IH]; [done|]. cbn.
  destruct (f x) as [y|]; cbn; [|exact IH].
  destruct (g y); [f_equal|]; exact IH.
Qed.

Lemma key_of_label_label (k : string) :
  k ∈ A1111Parser.fooocus_to_a1111.*1 →
  A1111Parser.key_of_label A1111Parser.fooocus_to_a1111 (A1111Parser.label k)
  = Ok k.
Proof.
  cbn. intros Hk.
  repeat (apply elem_of_cons in Hk as [->|Hk]; [reflexivity|]).
  by apply elem_of_nil in Hk.
Qed.

Lemma param_entry_value_for (E : Env) (k : string) (lq : string * string) :
  k ∈ plain_keys →
  (param_entry E lq
     ≫= λ kv : string * string, if String.eqb kv.1 k then Some kv.2 else None)
  = value_for E (A1111Parser.label k) lq.
Proof.
  intros Hk.
  assert (k ≠ "resolution" ∧ k ∈ A1111Parser.fooocus_to_a1111.*1) as [Hres Htab].
  { unfold plain_keys in Hk.
    repeat (apply elem_of_cons in Hk as [->|Hk];
            [split; [discriminate|cbn; in_list]|]).
    by apply elem_of_nil in Hk. }
  unfold param_entry, value_for.
  destruct (String.eqb lq.2 ""); [by rewrite andb_false_r|].
  rewrite andb_true_r.
  destruct (match_imagesize (dequote E lq.2)) as [[w h]|].
  - cbn [mbind option_bind fst snd].
    destruct (String.eqb_spec "resolution" k); [congruence|].
    by destruct (String.eqb lq.1 (A1111Parser.label k)).
  - destruct (A1111Parser.key_of_label _ lq.1) as [key|e] eqn:Hkey; simpl.
    + apply key_of_label_inv in Hkey as Hinv. destruct Hinv as [Hlabel _].
      destruct (String.eqb_spec key k) as [->|Hne].
      * by rewrite Hlabel, String.eqb_refl.
      * destruct (String.eqb_spec lq.1 (A1111Parser.label k)) as [Heq|]; [|done].
        rewrite Heq, key_of_label_label in Hkey by done. congruence.
    + destruct (String.eqb_spec lq.1 (A1111Parser.label k)) as [Heq|]; [|done].
      rewrite Heq, key_of_label_label in Hkey by done. congruence.
Qed.

(** X22: for the keys of the table that only a parameter with their label
    sets, the data that is read has the value of the last parameter of the
    last line with that label whose value is not empty and, unquoted if it
    is quoted, is no size; it has no such key when there is no such
    parameter. Parameters with an empty value, with a size for a value, or
    with another label do not count. *)
Theorem parse_json_last_value (E : Env) (text : string) (d : dict string)
    (k : string) :
  A1111Parser.parse_json E text = Ok d →
  k ∈ plain_keys →
  Dict.get k d = last (omap (value_for E (A1111Parser.label k)) (line_params text)).
Proof.
  intros Hd Hk.
  assert ((k ∉ ["prompt"; "negative_prompt"; "styles"; "performance";
                "base_model"])
          ∧ Py.startswith "lora_combined_" k = false) as [Hnot Hlora].
  { unfold plain_keys in Hk.
    repeat (apply elem_of_cons in Hk as [->|Hk];
            [split; [not_in_list|reflexivity]|]).
    by apply elem_of_nil in Hk. }
  rewrite !not_elem_of_cons in Hnot.
  destruct Hnot as (H1 & H2 & H3 & H4 & H5 & _).
  rewrite (parse_json_get E text d k Hd) by done.
  unfold line_data.
  destruct (extract_styles_from_prompt E _ _) as [[styles p] n].
  rewrite store_params_update, get_update_last.
  pose proof (find_rev_last (omap (param_entry E) (line_params text)) k) as Hlast.
  rewrite omap_omap in Hlast.
  rewrite (list_omap_ext _ (value_for E (A1111Parser.label k)) _ (line_params text))
    in Hlast.
  - rewrite <- Hlast.
    destruct (List.find _ _); [done|]. simpl.
    destruct (String.eqb_spec k "prompt"); [done|].
    destruct (String.eqb_spec k "negative_prompt"); [done|].
    by destruct (String.eqb_spec k "styles").
  - apply Forall2_same_length_lookup. split; [done|].
    intros i x y Hx Hy. rewrite Hx in Hy. injection Hy as <-.
    by apply param_entry_value_for.
Qed.

Lemma parse_json_last_value_witness :
  A1111Parser.parse_json Demo.env example_twice_text = Ok example_twice_data
  ∧ Dict.get "seed" example_twice_data = Some "2"
  ∧ Dict.get "sampler" example_twice_data = Some "Euler".
Proof.
  assert (A1111Parser.parse_json Demo.env example_twice_text
          = Ok example_twice_data) as Hd by (vm_compute; reflexivity).
  split; [exact Hd|]. split.
  - rewrite (parse_json_last_value Demo.env example_twice_text
               example_twice_data "seed" Hd).
    + vm_compute. reflexivity.
    + unfold plain_keys. in_list.
  - rewrite (parse_json_last_value Demo.env example_twice_text
               example_twice_data "sampler" Hd).
    + vm_compute. reflexivity.
    + unfold plain_keys. in_list.
Defined.
